(** * AuthaCAD: boundary narration over a drafting selection set

    A shallow embedding of [AuthaCAD_V8_OK.py].  The script reads closed
    polylines, survey (Cogo) points and text labels from a selection set and
    prints, for every polyline, a legal boundary description.

    Numbers are Python floats, that is IEEE-754 binary64 values: they are
    modelled by Rocq's primitive floats, whose arithmetic and comparisons are
    the same operations.  Python strings are modelled by [string] (the bytes of
    their UTF-8 encoding).  Exceptions are values of [exn]; printing and
    logging are recorded as a list of [event]s.  The functions of the Python
    library that are more than IEEE arithmetic ([round], [math.atan2], the
    [pow] of the C library behind [**], the conversion of a float to text,
    [num2words], the character classes of the Unicode database) are a parameter
    of the model, the record [pylib]. *)

From Stdlib Require Import ZArith List String Ascii Bool Lia Floats ListSet.
From Stdlib Require Import DecimalString.
Import ListNotations.
Set Warnings "-inexact-float".

Open Scope string_scope.
Open Scope list_scope.

(* ================================================================== *)
(** ** The Python runtime the script relies on *)
(* ================================================================== *)

Module Py.

(** Exceptions the modelled code can raise. *)
Inductive exn : Type :=
| IndexError
| ZeroDivisionError
| UnboundLocalError
| ValueError
| OverflowError
| TypeError
| AttributeError (attr : string).

(** A computation that returns or raises. *)
Inductive result (A : Type) : Type :=
| Ok (a : A)
| Raise (e : exn).
Arguments Ok {A} a.
Arguments Raise {A} e.

Definition rbind {A B} (r : result A) (k : A -> result B) : result B :=
  match r with
  | Ok a => k a
  | Raise e => Raise e
  end.

(** What the script writes: [print] lines, tagged by the call that printed
    them, and records of the [logging] module. *)
Inductive event : Type :=
| PrintNoMatch (line : string)     (* get_vertex_name, line 113 *)
| PrintTable (line : string)       (* generate_text_from_polyline, line 215 *)
| PrintDocument (text : string)    (* generate_text_from_polyline, line 222 *)
| LogWarning (entity_name : string)  (* extract_coordinates, line 32 *)
| LogError (e : exn).                (* extract_coordinates, line 35 *)

(** A computation that writes events and then returns or raises. *)
Definition M (A : Type) : Type := (list event * result A)%type.

Definition ret {A} (a : A) : M A := ([], Ok a).
Definition raise {A} (e : exn) : M A := ([], Raise e).
Definition emit (ev : event) : M unit := ([ev], Ok tt).
Definition lift {A} (r : result A) : M A := ([], r).

Definition bind {A B} (m : M A) (k : A -> M B) : M B :=
  match m with
  | (w, Ok a) => let (w', r) := k a in (w ++ w', r)
  | (w, Raise e) => (w, Raise e)
  end.

(** [try: m except Exception as e: h e] *)
Definition try_except {A} (m : M A) (h : exn -> M A) : M A :=
  match m with
  | (w, Ok a) => (w, Ok a)
  | (w, Raise e) => let (w', r) := h e in (w ++ w', r)
  end.

(** Values of the dynamically typed attributes and template slots. *)
Inductive pyval : Type :=
| VNone
| VInt (z : Z)
| VFloat (f : float)
| VStr (s : string)
| VPair (x y : float).

(** What a function of the C library leaves in [errno]. *)
Inductive errno : Type :=
| ENONE
| ERANGE
| EDOM.

(** Library functions whose results are not determined by IEEE arithmetic
    alone; the script calls them, it does not define them.  A character is
    given by the bytes of its UTF-8 encoding. *)
Record pylib : Type := PyLib {
  py_round : float -> Z -> float;          (* round(x, ndigits) *)
  math_atan2 : float -> float -> float;    (* math.atan2(y, x) *)
  libm_pow : float -> float -> float * errno;  (* pow(x, y) of the C library *)
  str_float : float -> string;             (* str(x) for a float *)
  format_2f : float -> string;             (* f"{x:.2f}" *)
  num2words : float -> string;             (* num2words(x, lang='pt_BR') *)
  unicode_isdecimal : string -> bool;      (* c.isdecimal(), c outside ASCII *)
  unicode_isalnum : string -> bool         (* c.isalnum(), c outside ASCII *)
}.

(** [l[i]] *)
Definition index {A} (l : list A) (i : nat) : result A :=
  match nth_error l i with
  | Some a => Ok a
  | None => Raise IndexError
  end.

(** [range(start, stop, 2)], for [start] 0 or 1. *)
Definition range2 (start stop : nat) : list nat :=
  map (fun k => start + 2 * k) (seq 0 ((stop + 1 - start) / 2)).

(** A list comprehension whose element expression can raise. *)
Fixpoint comprehension {A B} (f : A -> result B) (l : list A) : result (list B) :=
  match l with
  | [] => Ok []
  | a :: r =>
      rbind (f a) (fun b => rbind (comprehension f r) (fun bs => Ok (b :: bs)))
  end.

(** [l[::2]] and [l[1::2]] *)
Fixpoint slice_even {A} (l : list A) : list A :=
  match l with
  | [] => []
  | a :: r => a :: match r with [] => [] | _ :: r' => slice_even r' end
  end.

Definition slice_odd {A} (l : list A) : list A :=
  match l with
  | [] => []
  | _ :: r => slice_even r
  end.

(** [x ** 2] for a float [x]: CPython's [float_pow] with the exponent [2.0].
    A NaN, an infinity, a zero and the bases 1 and -1 are answered without the
    C library; otherwise [pow] is called on the absolute value of [x], and an
    infinite result, or an [errno] left by [pow] with a result that is not
    zero, raises. *)
Definition pow2 (lib : pylib) (x : float) : result float :=
  if is_nan x then Ok x
  else if is_infinity x then Ok (abs x)
  else if (x =? 0)%float then Ok 0%float
  else
    let iv := if (x <? 0)%float then (- x)%float else x in
    if (iv =? 1)%float then Ok 1%float
    else
      let (ix, e) := libm_pow lib iv 2 in
      let e := match e with
               | ENONE => if is_infinity ix then ERANGE else ENONE
               | ERANGE => if (ix =? 0)%float then ENONE else ERANGE
               | EDOM => EDOM
               end in
      match e with
      | ENONE => Ok ix
      | ERANGE => Raise OverflowError
      | EDOM => Raise ValueError
      end.

(** [math.sqrt(x)]: the correctly rounded square root of the C library, with
    the tests CPython makes on its result ([math_1]): a NaN for an argument
    that is none, or an infinity for a finite argument, is a domain error. *)
Definition math_sqrt (x : float) : result float :=
  let r := sqrt x in
  if is_nan r && negb (is_nan x) then Raise ValueError
  else if is_infinity r && is_finite x then Raise ValueError
  else Ok r.

(** [min(a, b)] and [max(a, b)] keep their first argument unless the second
    is strictly smaller, respectively greater. *)
Definition py_min (a b : float) : float := if (b <? a)%float then b else a.
Definition py_max (a b : float) : float := if (a <? b)%float then b else a.

(** [a != b] *)
Definition ne (a b : float) : bool := negb (a =? b)%float.

(** The float nearest to an integer: what Python does with the [int] operand
    of an arithmetic operation on a float. *)
Definition float_of_Z (z : Z) : float := SF2Prim (binary_normalize prec emax z 0 false).
Definition float_of_nat (n : nat) : float := float_of_Z (Z.of_nat n).

(** [a / b] raises on a zero divisor. *)
Definition py_div (a b : float) : result float :=
  if (b =? 0)%float then Raise ZeroDivisionError else Ok (a / b)%float.

(** [sum(l)] over floats: the items are added from left to right, each sum
    rounded (CPython up to 3.11). *)
Definition py_sum (l : list float) : float := fold_left PrimFloat.add l 0%float.

(** [math.degrees(x)] multiplies by the constant [180 / pi]. *)
Definition math_pi : float := 3.141592653589793%float.
Definition math_degrees (x : float) : float := (x * (180 / math_pi))%float.

(** [int(x)] truncates toward zero; it raises on an infinity and on a NaN. *)
Definition py_int (x : float) : result Z :=
  match Prim2SF x with
  | S754_zero _ => Ok 0%Z
  | S754_finite s m e =>
      let a := match e with
               | Zneg p => Z.shiftr (Zpos m) (Zpos p)
               | _ => Z.shiftl (Zpos m) e
               end in
      Ok (if s then Z.opp a else a)
  | S754_infinity _ => Raise OverflowError
  | S754_nan => Raise ValueError
  end.

(** [str(z)] for an integer. *)
Definition str_Z (z : Z) : string := NilZero.string_of_int (Z.to_int z).

(** [s.lower()], on the letters A to Z; the bytes of the other characters are
    left as they are, which changes no occurrence of an ASCII word in the
    result. *)
Definition lower_ascii (c : ascii) : ascii :=
  let n := nat_of_ascii c in
  if (65 <=? n)%nat && (n <=? 90)%nat then ascii_of_nat (n + 32) else c.

Fixpoint lower (s : string) : string :=
  match s with
  | EmptyString => EmptyString
  | String c r => String (lower_ascii c) (lower r)
  end.

(** [needle in s] *)
Fixpoint contains (needle s : string) : bool :=
  String.prefix needle s
  || match s with
     | EmptyString => false
     | String _ r => contains needle r
     end.

(** [re.sub(pat, '', s)] for a pattern that matches the literal, non-empty
    text [pat] only: every occurrence found scanning left to right is
    dropped.  [skip] counts the characters of a match still to drop. *)
Fixpoint remove_from (pat : string) (skip : nat) (s : string) : string :=
  match s with
  | EmptyString => EmptyString
  | String c r =>
      match skip with
      | S k => remove_from pat k r
      | O =>
          if String.prefix pat s
          then remove_from pat (String.length pat - 1) r
          else String c (remove_from pat 0 r)
      end
  end.

Definition remove_all (pat s : string) : string := remove_from pat 0 s.

Fixpoint drop (n : nat) (s : string) : string :=
  match n, s with
  | O, _ => s
  | S n', String _ r => drop n' r
  | S _, EmptyString => EmptyString
  end.

(** The number of bytes of the UTF-8 sequence that starts with the byte [c]. *)
Definition utf8_width (c : ascii) : nat :=
  let n := nat_of_ascii c in
  if (n <? 192)%nat then 1
  else if (n <? 224)%nat then 2
  else if (n <? 240)%nat then 3
  else 4.

(** The longest run, at the start of [s], of characters of the class [p].
    [keep] counts the bytes still to copy of a character of the run. *)
Fixpoint take_while (p : string -> bool) (keep : nat) (s : string) : string :=
  match s with
  | EmptyString => EmptyString
  | String c r =>
      match keep with
      | S k => String c (take_while p k r)
      | O =>
          if p (substring 0 (utf8_width c) s)
          then String c (take_while p (utf8_width c - 1) r)
          else EmptyString
      end
  end.

Definition between (lo hi : nat) (c : ascii) : bool :=
  let n := nat_of_ascii c in (lo <=? n)%nat && (n <=? hi)%nat.

(** The classes [\d] and [\w] of a [str] pattern: the decimal digits, and
    the alphanumeric characters with the underscore, of Unicode.  On an ASCII
    character they are the digits and the letters; on any other character
    they are what the Unicode database says. *)
Definition is_digit (lib : pylib) (ch : string) : bool :=
  match ch with
  | String c EmptyString =>
      if (nat_of_ascii c <? 128)%nat then between 48 57 c
      else unicode_isdecimal lib ch
  | _ => unicode_isdecimal lib ch
  end.

Definition is_word (lib : pylib) (ch : string) : bool :=
  match ch with
  | String c EmptyString =>
      if (nat_of_ascii c <? 128)%nat
      then between 48 57 c || between 65 90 c || between 97 122 c
           || (nat_of_ascii c =? 95)%nat
      else unicode_isalnum lib ch
  | _ => unicode_isalnum lib ch
  end.

(** [re.search(marker + '(c+)', s)]: the first place where the literal
    [marker] is followed by at least one character of class [c]; the result
    is group 1, the longest run of such characters there.  (In well-formed
    UTF-8 an occurrence of the marker starts at a character.) *)
Fixpoint re_search_group (marker : string) (c : string -> bool) (s : string)
    : option string :=
  let here :=
    if String.prefix marker s
    then match take_while c 0 (drop (String.length marker) s) with
         | EmptyString => None
         | g => Some g
         end
    else None in
  match here with
  | Some g => Some g
  | None =>
      match s with
      | EmptyString => None
      | String _ r => re_search_group marker c r
      end
  end.

(** A Python loop whose body can raise, over the state [S]. *)
Fixpoint for_each {S A} (body : S -> A -> result S) (l : list A) (s : S) : result S :=
  match l with
  | [] => Ok s
  | a :: r => rbind (body s a) (for_each body r)
  end.

Definition newline : string := String (ascii_of_nat 10) EmptyString.
Definition dquote : string := String (ascii_of_nat 34) EmptyString.

(** [str(v)], as [print], f-strings and the templates apply it. *)
Definition str (lib : pylib) (v : pyval) : string :=
  match v with
  | VNone => "None"
  | VInt z => str_Z z
  | VFloat f => str_float lib f
  | VStr s => s
  | VPair x y => "(" ++ str_float lib x ++ ", " ++ str_float lib y ++ ")"
  end.

Definition of_option (o : option float) : pyval :=
  match o with
  | Some f => VFloat f
  | None => VNone
  end.

(** The same loop for a body that also writes. *)
Fixpoint for_eachM {S A} (body : S -> A -> M S) (l : list A) (s : S) : M S :=
  match l with
  | [] => ret s
  | a :: r => bind (body s a) (for_eachM body r)
  end.

End Py.
Import Py.

Notation "x <- m ;; k" := (bind m (fun x => k))
  (at level 61, m at next level, right associativity).
Notation "m ;;; k" := (bind m (fun _ => k))
  (at level 61, right associativity).
Notation "'let?' x ':=' r 'in' k" := (rbind r (fun x => k))
  (at level 61, x pattern, r at next level, right associativity).

(* ================================================================== *)
(** ** Entities of the selection set *)
(* ================================================================== *)

(** A drafting entity is an opaque host object.  Every entity has a class name
    and a handle; the other attributes exist on some classes only, and reading
    an attribute the object does not have raises ([None] below). *)
Record Entity : Type := MkEntity {
  EntityName : string;
  Handle : string;
  Coordinates : option (list float);
  Area : option float;
  Length : option float;
  Easting : option float;
  Northing : option float;
  Elevation : option float;
  RawDescription : option string;
  Number : option pyval;
  InsertionPoint : option (list float);
  TextString : option string
}.

Definition getattr {A} (name : string) (attr : option A) : result A :=
  match attr with
  | Some a => Ok a
  | None => Raise (AttributeError name)
  end.

Definition selection := list Entity.

(* ================================================================== *)
(** ** Tolerant comparisons (lines 9-13) *)
(* ================================================================== *)

Definition are_floats_equal (f1 f2 : float) (tolerance : float) : bool :=
  (abs (f1 - f2) <? tolerance)%float.

Definition default_float_tolerance : float := 1e-9%float.

Definition is_point_close (lib : pylib) (point1 point2 : float * float)
    (tolerance : float) : result bool :=
  let? dx2 := pow2 lib (fst point1 - fst point2) in
  let? dy2 := pow2 lib (snd point1 - snd point2) in
  let? d := math_sqrt (dx2 + dy2) in
  Ok (d <? tolerance)%float.

(* ================================================================== *)
(** ** Vertex resolution (lines 91-114) *)
(* ================================================================== *)

Definition get_all_entity_names (selection_set : selection) : set string :=
  fold_left (fun names e => set_add string_dec (EntityName e) names)
            selection_set (empty_set string).

Definition cogopoint_names_of (all_entity_names : set string) : set string :=
  filter (fun name => contains "cogopoint" (lower name)) all_entity_names.

(** The [for] loop of [get_vertex_name]; [Some] is its [return]. *)
Fixpoint get_vertex_name_loop (lib : pylib) (cogopoint_names : set string)
    (rest : selection) (vertex : float * float) (tolerance : float)
    : result (option (string * option float)) :=
  match rest with
  | [] => Ok None
  | inner_entity :: rest' =>
      if set_mem string_dec (EntityName inner_entity) cogopoint_names then
        let? easting := getattr "Easting" (Easting inner_entity) in
        let? northing := getattr "Northing" (Northing inner_entity) in
        let? close := is_point_close lib (easting, northing) vertex tolerance in
        if close then
          let? point_number := getattr "Number" (Number inner_entity) in
          let? point_elevation := getattr "Elevation" (Elevation inner_entity) in
          Ok (Some (("V" ++ str lib point_number)%string, Some point_elevation))
        else get_vertex_name_loop lib cogopoint_names rest' vertex tolerance
      else get_vertex_name_loop lib cogopoint_names rest' vertex tolerance
  end.

Definition get_vertex_name (lib : pylib) (entity : Entity) (selection_set : selection)
    (vertex : float * float) (tolerance : float) : M (string * option float) :=
  let all_entity_names := get_all_entity_names selection_set in
  let cogopoint_names := cogopoint_names_of all_entity_names in
  found <- lift (get_vertex_name_loop lib cogopoint_names selection_set vertex tolerance) ;;
  match found with
  | Some r => ret r
  | None =>
      emit (PrintNoMatch ("No matching CogoPoint found for vertex: "
                          ++ str lib (VPair (fst vertex) (snd vertex)))%string) ;;;
      ret ("Vertex not found", None)
  end.

(* ================================================================== *)
(** ** Entity normalisation (lines 15-36) *)
(* ================================================================== *)

Inductive entity_info : Type :=
| InfoPolyline (coordinates : list (float * float))
| InfoCogoPoint (easting northing elevation : float) (raw_description : string)
                (number : pyval)
| InfoText (insertion_point : list float) (text_string : string).

(** [round(float(v), 3) if isinstance(v, float) else v] *)
Definition round_if_float (lib : pylib) (v : pyval) : pyval :=
  match v with
  | VFloat f => VFloat (py_round lib f 3)
  | _ => v
  end.

(** The body of the [try] block. *)
Definition extract_body (lib : pylib) (entity : Entity) : M (option entity_info) :=
  if (EntityName entity =? "AcDbPolyline")%string then
    raw <- lift (getattr "Coordinates" (Coordinates entity)) ;;
    let coords := map (fun coord => py_round lib coord 3) raw in
    vertices_groups <-
      lift (comprehension
              (fun i => let? a := index coords i in
                        let? b := index coords (i + 1) in
                        Ok (a, b))
              (range2 0 (List.length coords))) ;;
    ret (Some (InfoPolyline vertices_groups))
  else if (EntityName entity =? "AeccDbCogoPoint")%string then
    easting <- lift (getattr "Easting" (Easting entity)) ;;
    northing <- lift (getattr "Northing" (Northing entity)) ;;
    elevation <- lift (getattr "Elevation" (Elevation entity)) ;;
    raw_description <- lift (getattr "RawDescription" (RawDescription entity)) ;;
    number <- lift (getattr "Number" (Number entity)) ;;
    ret (Some (InfoCogoPoint (py_round lib easting 3) (py_round lib northing 3)
                             (py_round lib elevation 3) raw_description
                             (round_if_float lib number)))
  else if (EntityName entity =? "AcDbText")%string
          || (EntityName entity =? "AcDbMText")%string then
    insertion_point <- lift (getattr "InsertionPoint" (InsertionPoint entity)) ;;
    text_string <- lift (getattr "TextString" (TextString entity)) ;;
    ret (Some (InfoText (map (fun coord => py_round lib coord 3) (firstn 2 insertion_point))
                        text_string))
  else
    emit (LogWarning (EntityName entity)) ;;;
    ret None.

Definition extract_coordinates (lib : pylib) (entity : Entity) : M (option entity_info) :=
  try_except (extract_body lib entity)
             (fun e => emit (LogError e) ;;; raise e).

(* ================================================================== *)
(** ** Point in polygon (lines 38-56) *)
(* ================================================================== *)

(** The local variables of [is_point_in_polygon] that change in its loop;
    [xinters] is unbound until its first assignment. *)
Record pip_state : Type := PipState {
  inside : bool;
  p1x : float;
  p1y : float;
  xinters : option float
}.

(** One iteration of the loop, for the vertex [(p2x, p2y)]. *)
Definition pip_step (x y : float) (st : pip_state) (p2 : float * float)
    : result pip_state :=
  let (p2x, p2y) := p2 in
  let? st' :=
    if (py_min (p1y st) p2y <? y)%float then
      if (y <=? py_max (p1y st) p2y)%float then
        if (x <=? py_max (p1x st) p2x)%float then
          let? xi :=
            if ne (p1y st) p2y then
              let? q := py_div ((y - p1y st) * (p2x - p1x st))%float
                               (p2y - p1y st)%float in
              Ok (Some (q + p1x st)%float)
            else Ok (xinters st) in
          let? toggles :=
            if (p1x st =? p2x)%float then Ok true
            else match xi with
                 | Some v => Ok (x <=? v)%float
                 | None => Raise UnboundLocalError
                 end in
          Ok (PipState (if toggles then negb (inside st) else inside st)
                       (p1x st) (p1y st) xi)
        else Ok st
      else Ok st
    else Ok st in
  Ok (PipState (inside st') p2x p2y (xinters st')).

Definition is_point_in_polygon (point : list float) (polygon : list float) : result bool :=
  match point with
  | [x; y] =>
      let polygon := combine (slice_even polygon) (slice_odd polygon) in
      let n := List.length polygon in
      let? p1 := index polygon 0 in
      let? st :=
        for_each (fun st i => let? p2 := index polygon (i mod n) in pip_step x y st p2)
                 (seq 0 (n + 1))
                 (PipState false (fst p1) (snd p1) None) in
      Ok (inside st)
  | _ => Raise ValueError
  end.

(* ================================================================== *)
(** ** Label association (lines 58-89) *)
(* ================================================================== *)

Definition get_center (vertices : list float) : result (float * float) :=
  let? x_coords := comprehension (index vertices) (range2 0 (List.length vertices)) in
  let? y_coords := comprehension (index vertices) (range2 1 (List.length vertices)) in
  let? cx := py_div (py_sum x_coords) (float_of_nat (List.length x_coords)) in
  let? cy := py_div (py_sum y_coords) (float_of_nat (List.length y_coords)) in
  Ok (cx, cy).

Definition calculate_distance (lib : pylib) (point1 : float * float)
    (point2 : list float) : result float :=
  let? x2 := index point2 0 in
  let? dx2 := pow2 lib (fst point1 - x2) in
  let? y2 := index point2 1 in
  let? dy2 := pow2 lib (snd point1 - y2) in
  math_sqrt (dx2 + dy2).

(** The local variables of [get_text_inside_polyline] that change in its loop. *)
Record label_state : Type := LabelState {
  inner_texts : list (float * string);
  min_distance : float;
  nearest_text : string;
  nearest_text_unclean : string
}.

Definition is_text_entity (e : Entity) : bool :=
  (EntityName e =? "AcDbText")%string || (EntityName e =? "AcDbMText")%string.

(** One iteration of the loop over the selection set. *)
Definition label_step (lib : pylib) (vertices : list float) (center : float * float)
    (st : label_state) (inner_entity : Entity) : result label_state :=
  if is_text_entity inner_entity then
    let? insertion_point := getattr "InsertionPoint" (InsertionPoint inner_entity) in
    let text_coords := firstn 2 insertion_point in
    let? is_inside := is_point_in_polygon text_coords vertices in
    if is_inside then
      let? text_distance := calculate_distance lib center text_coords in
      let? text_string := getattr "TextString" (TextString inner_entity) in
      let cleaned := remove_all "\P" text_string in
      let inner_texts' := inner_texts st ++ [(text_distance, cleaned)] in
      if (text_distance <? min_distance st)%float then
        Ok (LabelState inner_texts' text_distance cleaned text_string)
      else
        Ok (LabelState inner_texts' (min_distance st) (nearest_text st)
                       (nearest_text_unclean st))
    else Ok st
  else Ok st.

Definition get_text_inside_polyline (lib : pylib) (entity : Entity)
    (selection_set : selection) : result (pyval * pyval) :=
  if negb (EntityName entity =? "AcDbPolyline")%string then Ok (VNone, VNone)
  else
    let? vertices := getattr "Coordinates" (Coordinates entity) in
    let? center := get_center vertices in
    let? st := for_each (label_step lib vertices center) selection_set
                        (LabelState [] infinity "" "") in
    Ok (VStr (if (nearest_text st =? "")%string then "No text found"
              else remove_all "\pxqc;" (nearest_text st)),
        VStr (nearest_text_unclean st)).

(* ================================================================== *)
(** ** The sentence templates (lines 133-137) *)
(* ================================================================== *)

Module Jinja.

(** A template is literal text with slots [{{ name }}] and [{{ name[i] }}]. *)
Inductive piece : Type :=
| Lit (text : string)
| Slot (name : string)
| SlotItem (name : string) (i : nat).

Definition template := list piece.
Definition context := list (string * pyval).

Fixpoint lookup (name : string) (ctx : context) : option pyval :=
  match ctx with
  | [] => None
  | (k, v) :: r => if (k =? name)%string then Some v else lookup name r
  end.

Definition item (v : pyval) (i : nat) : option pyval :=
  match v, i with
  | VPair x _, 0 => Some (VFloat x)
  | VPair _ y, 1 => Some (VFloat y)
  | _, _ => None
  end.

(** An undefined name renders as the empty text. *)
Definition render_piece (lib : pylib) (ctx : context) (p : piece) : string :=
  match p with
  | Lit text => text
  | Slot name =>
      match lookup name ctx with
      | Some v => str lib v
      | None => ""
      end
  | SlotItem name i =>
      match lookup name ctx with
      | Some v => match item v i with Some w => str lib w | None => "" end
      | None => ""
      end
  end.

Definition render (lib : pylib) (t : template) (ctx : context) : string :=
  String.concat "" (map (render_piece lib ctx) t).

(** The names a template has a slot for. *)
Definition slots (t : template) : list string :=
  flat_map (fun p => match p with
                     | Lit _ => []
                     | Slot name => [name]
                     | SlotItem name _ => [name]
                     end) t.

End Jinja.
Import Jinja.

Definition template_initial : template :=
  [ Lit "Inicia-se a descrição deste perímetro no vértice ";
    Slot "current_vertex_name";
    Lit ", georreferenciado no Sistema Geodésico Brasileiro, DATUM - SIRGAS2000, MC-51°W, de coordenadas N ";
    SlotItem "current_vertex" 1; Lit "m e E "; SlotItem "current_vertex" 0;
    Lit "m de altitude "; Slot "current_vertex_elevation";
    Lit "m; deste segue confrontando com "; Slot "adjacent_text";
    Lit ", com azimute de "; Slot "degrees"; Lit "°"; Slot "minutes"; Lit "'";
    Slot "seconds"; Lit dquote; Lit " por uma distância de "; Slot "distance";
    Lit "m até o vértice "; Slot "next_vertex_name";
    Lit ", de coordenadas N "; SlotItem "next_vertex" 1;
    Lit "m e E "; SlotItem "next_vertex" 0;
    Lit "m de altitude "; Slot "next_vertex_elevation"; Lit "m;" ].

Definition template_other : template :=
  [ Lit "Deste segue confrontando com "; Slot "adjacent_text";
    Lit ", com azimute de "; Slot "degrees"; Lit "°"; Slot "minutes"; Lit "'";
    Slot "seconds"; Lit dquote; Lit " por uma distância de "; Slot "distance";
    Lit "m até o vértice "; Slot "next_vertex_name";
    Lit ", de coordenadas N "; SlotItem "next_vertex" 1;
    Lit "m e E "; SlotItem "next_vertex" 0;
    Lit "m de altitude "; Slot "next_vertex_elevation"; Lit "m;" ].

Definition template_final : template :=
  [ Lit "Todas as coordenadas aqui descritas estão georreferenciadas ao Sistema Geodésico Brasileiro e encontram-se representadas no Sistema UTM, referenciadas ao Meridiano Central nº 51 WGr, tendo como Datum o SIRGAS2000. Todos os azimutes e distâncias, área e perímetro foram calculados no plano de projeção UTM." ].

Definition template_header : template :=
  [ Slot "lot_number"; Lit " da QUADRA “XX”, com área de "; Slot "area";
    Lit "m² ("; Slot "area_text"; Lit "), com a seguinte descrição:" ].

Definition template_table : template :=
  [ Lit "Lado "; Slot "current_vertex_name"; Lit "->"; Slot "next_vertex_name";
    Lit ": "; Slot "current_vertex_name"; Lit "("; SlotItem "current_vertex" 0;
    Lit ", "; SlotItem "current_vertex" 1; Lit ", "; Slot "current_vertex_elevation";
    Lit ") -> "; Slot "next_vertex_name"; Lit "("; SlotItem "next_vertex" 0;
    Lit ", "; SlotItem "next_vertex" 1; Lit ", "; Slot "next_vertex_elevation";
    Lit "), Distância: "; Slot "distance"; Lit " m, Azimute: "; Slot "degrees";
    Lit "°"; Slot "minutes"; Lit "'"; Slot "seconds"; Lit dquote; Lit "; " ].

(* ================================================================== *)
(** ** The narrator (lines 139-228) *)
(* ================================================================== *)

(** [any(are_floats_equal(v[0], p[0]) and are_floats_equal(v[1], p[1])
         for v in other_vertices)] *)
Definition has_vertex (other_vertices : list (float * float)) (p : float * float) : bool :=
  existsb (fun v => are_floats_equal (fst v) (fst p) default_float_tolerance
                    && are_floats_equal (snd v) (snd p) default_float_tolerance)
          other_vertices.

(** The loop of lines 187-197; [Some] is its [break]. *)
Fixpoint find_adjacent (lib : pylib) (entity : Entity) (rest : selection)
    (current_vertex next_vertex : float * float) : M (option Entity) :=
  match rest with
  | [] => ret None
  | other_entity :: rest' =>
      if (Handle other_entity =? Handle entity)%string then
        find_adjacent lib entity rest' current_vertex next_vertex
      else
        other_info <- extract_coordinates lib other_entity ;;
        match other_info with
        | Some (InfoPolyline other_vertices) =>
            if has_vertex other_vertices current_vertex
               && has_vertex other_vertices next_vertex
            then ret (Some other_entity)
            else find_adjacent lib entity rest' current_vertex next_vertex
        | _ => find_adjacent lib entity rest' current_vertex next_vertex
        end
  end.

(** The keyword arguments the three edge templates are rendered with. *)
Definition edge_context (current_vertex_name : string) (current_vertex : float * float)
    (current_vertex_elevation : option float) (adjacent_text : pyval)
    (degrees minutes : Z) (seconds_str : string) (distance : float)
    (next_vertex_name : string) (next_vertex : float * float)
    (next_vertex_elevation : option float) : context :=
  [ ("current_vertex_name", VStr current_vertex_name);
    ("current_vertex", VPair (fst current_vertex) (snd current_vertex));
    ("current_vertex_elevation", of_option current_vertex_elevation);
    ("adjacent_text", adjacent_text);
    ("degrees", VInt degrees);
    ("minutes", VInt minutes);
    ("seconds", VStr seconds_str);
    ("distance", VFloat distance);
    ("next_vertex_name", VStr next_vertex_name);
    ("next_vertex", VPair (fst next_vertex) (snd next_vertex));
    ("next_vertex_elevation", of_option next_vertex_elevation) ].

Definition is_zero_length (current_vertex next_vertex : float * float) : bool :=
  are_floats_equal (fst current_vertex) (fst next_vertex) default_float_tolerance
  && are_floats_equal (snd current_vertex) (snd next_vertex) default_float_tolerance.

(** Line 173: the length of the edge, rounded to two decimals. *)
Definition edge_distance (lib : pylib) (current_vertex next_vertex : float * float)
    : result float :=
  let? dx2 := pow2 lib (fst next_vertex - fst current_vertex) in
  let? dy2 := pow2 lib (snd next_vertex - snd current_vertex) in
  let? d := math_sqrt (dx2 + dy2) in
  Ok (py_round lib d 2).

(** Lines 175-180: the azimuth of the edge in degrees. *)
Definition edge_azimuth (lib : pylib) (current_vertex next_vertex : float * float)
    : float :=
  let delta_x := (fst next_vertex - fst current_vertex)%float in
  let delta_y := (snd next_vertex - snd current_vertex)%float in
  let azimuth_rad := math_atan2 lib delta_x delta_y in
  let azimuth_deg := math_degrees azimuth_rad in
  if (azimuth_deg <? 0)%float then (azimuth_deg + 360)%float else azimuth_deg.

(** The statements of an iteration after the zero-length test (lines 173-203):
    the slot values of the edge. *)
Definition describe_edge (lib : pylib) (entity : Entity) (selection_set : selection)
    (current_vertex next_vertex : float * float)
    (current_vertex_name : string) (current_vertex_elevation : option float)
    (next_vertex_name : string) (next_vertex_elevation : option float) : M context :=
  distance <- lift (edge_distance lib current_vertex next_vertex) ;;
  let azimuth_deg := edge_azimuth lib current_vertex next_vertex in
  degrees <- lift (py_int azimuth_deg) ;;
  minutes <- lift (py_int ((azimuth_deg - float_of_Z degrees) * 60)%float) ;;
  let seconds :=
    py_round lib (((azimuth_deg - float_of_Z degrees) * 60 - float_of_Z minutes) * 60)%float 2 in
  adjacent_polyline <- find_adjacent lib entity selection_set current_vertex next_vertex ;;
  adjacent_text <-
    match adjacent_polyline with
    | Some adjacent =>
        r <- lift (get_text_inside_polyline lib adjacent selection_set) ;; ret (fst r)
    | None => ret (VStr "No confrontante found")
    end ;;
  let seconds_str := format_2f lib seconds in
  ret (edge_context current_vertex_name current_vertex current_vertex_elevation
                    adjacent_text degrees minutes seconds_str distance
                    next_vertex_name next_vertex next_vertex_elevation).

(** One iteration of the loop over the edges (lines 161-215); the state is the
    list [descriptions]. *)
Definition edge_step (lib : pylib) (entity : Entity) (selection_set : selection)
    (vertices : list (float * float)) (descriptions : list string) (i : nat)
    : M (list string) :=
  current_vertex <- lift (index vertices i) ;;
  next_vertex <- lift (index vertices ((i + 1) mod List.length vertices)) ;;
  let tolerance := 0.001%float in
  current <- get_vertex_name lib entity selection_set current_vertex tolerance ;;
  next <- get_vertex_name lib entity selection_set next_vertex tolerance ;;
  if is_zero_length current_vertex next_vertex then ret descriptions
  else
    ctx <- describe_edge lib entity selection_set current_vertex next_vertex
                         (fst current) (snd current) (fst next) (snd next) ;;
    let description :=
      if (i =? 0)%nat then render lib template_initial ctx
      else render lib template_other ctx in
    let descriptions := descriptions ++ [description] in
    let table_line := render lib template_table ctx in
    emit (PrintTable table_line) ;;;
    ret descriptions.

(** [re.search(...)] on the label, with the fall back to [text_inside]. *)
Definition extract_number (marker : string) (class : string -> bool)
    (text_inside text_inside_unclean : pyval) : result pyval :=
  match text_inside_unclean with
  | VStr raw =>
      Ok (match re_search_group marker class raw with
          | Some group => VStr group
          | None => text_inside
          end)
  | _ => Raise TypeError
  end.

Definition header_of (lib : pylib) (lot_number quad_number : pyval) (area : float)
    (area_text : string) : string :=
  render lib template_header
         [ ("lot_number", lot_number); ("quad_number", quad_number);
           ("area", VFloat area); ("area_text", VStr area_text) ].

(** The loop of lines 161-215 as a whole: the final [descriptions]. *)
Definition narrate_edges (lib : pylib) (entity : Entity) (selection_set : selection)
    (vertices : list (float * float)) : M (list string) :=
  for_eachM (edge_step lib entity selection_set vertices)
            (seq 0 (List.length vertices)) [].

Definition generate_text_from_polyline (lib : pylib) (entity : Entity)
    (selection_set : selection) (text_inside text_inside_unclean : pyval) : M unit :=
  entity_info <- extract_coordinates lib entity ;;
  match entity_info with
  | Some (InfoPolyline vertices) =>
      raw_area <- lift (getattr "Area" (Area entity)) ;;
      let area := py_round lib raw_area 2 in
      raw_length <- lift (getattr "Length" (Length entity)) ;;
      let perimeter := py_round lib raw_length 2 in
      lot_number <- lift (extract_number "Lote nº " (is_digit lib)
                                         text_inside text_inside_unclean) ;;
      quad_number <- lift (extract_number "Quadra " (is_word lib)
                                          text_inside text_inside_unclean) ;;
      let area_text := num2words lib area in
      let header_text := header_of lib lot_number quad_number area area_text in
      descriptions <- narrate_edges lib entity selection_set vertices ;;
      let descriptions_text := String.concat newline descriptions in
      let final_text := render lib template_final [] in
      emit (PrintDocument (header_text ++ newline ++ newline ++ descriptions_text
                           ++ newline ++ final_text ++ newline)%string) ;;;
      ret tt
  | _ => ret tt
  end.

(** Lines 225-228: the script narrates every polyline of the selection set. *)
Definition main (lib : pylib) (selection_set : selection) : M unit :=
  for_eachM
    (fun (_ : unit) entity =>
       if (EntityName entity =? "AcDbPolyline")%string then
         texts <- lift (get_text_inside_polyline lib entity selection_set) ;;
         generate_text_from_polyline lib entity selection_set (fst texts) (snd texts)
       else ret tt)
    selection_set tt.

(* ================================================================== *)
(** ** Example drawings *)
(* ================================================================== *)

Module Examples.

Definition assoc {A} (table : list (float * A)) (default : A) (x : float) : A :=
  match find (fun p => Leibniz.eqb (fst p) x) table with
  | Some p => snd p
  | None => default
  end.

(** The library functions, tabulated on the arguments the example drawings
    reach: coordinates with at most one decimal (which [round] leaves as they
    are), edges along the axes, an area of 100 square metres; the squares are
    those of the C library on which the examples were checked, and an argument
    that is not in the table of [pow] is answered with a domain error. *)
Definition lib0 : pylib :=
  PyLib (fun x _ => x)
        (fun y x =>
           assoc [ (10, assoc [(0, 1.5707963267948966)] 0 x);
                   (0, assoc [(10, 0); (-10, 3.141592653589793)] 0 x);
                   (-10, assoc [(0, -1.5707963267948966)] 0 x) ]%float 0%float y)
        (fun x _ =>
           assoc [ (4, (16, ENONE)); (10, (100, ENONE)); (20, (400, ENONE));
                   (0.9, (0.81, ENONE));
                   (0.0002999999999993008, (8.999999999958049e-08, ENONE));
                   (13.543, (183.412849, ENONE)); (1e200, (infinity, ERANGE))
                 ]%float (nan, EDOM) x)
        (assoc [ (0, "0.0"); (5, "5.0"); (10, "10.0"); (15, "15.0"); (20, "20.0");
                 (100, "100.0"); (7.5, "7.5"); (-10, "-10.0");
                 (10.0003, "10.0003"); (20.0003, "20.0003") ]%float "?")
        (assoc [ (0, "0.00") ]%float "?")
        (assoc [ (100, "cem") ]%float "?")
        (fun ch => existsb (String.eqb ch) ["７"])
        (fun ch => existsb (String.eqb ch) ["Á"; "á"; "ç"; "º"; "７"]).

Definition polyline (handle : string) (coords : list float) (area len : float) : Entity :=
  MkEntity "AcDbPolyline" handle (Some coords) (Some area) (Some len)
           None None None None None None None.

Definition cogo (handle : string) (e n z : float) (number : pyval) : Entity :=
  MkEntity "AeccDbCogoPoint" handle None None None
           (Some e) (Some n) (Some z) (Some "") (Some number) None None.

Definition text (handle : string) (x y : float) (s : string) : Entity :=
  MkEntity "AcDbText" handle None None None None None None None None
           (Some [x; y; 0%float]) (Some s).

Definition other (name handle : string) : Entity :=
  MkEntity name handle None None None None None None None None None None.

(** Two lots of one block, side by side, with their labels, two survey
    points and a line the script does not know. *)
Definition lotA := polyline "A" [0;0; 10;0; 10;10; 0;10]%float 100 40.
Definition lotB := polyline "B" [10;0; 20;0; 20;10; 10;10]%float 100 40.
Definition labelA := text "T1" 5 5 "Lote nº 7 Quadra B12".
Definition labelB := text "T2" 15 5 "Lote nº 8 Quadra B12".
Definition scene : selection :=
  [ lotA; lotB; labelA; labelB;
    cogo "P1" 0 0 7.5 (VInt 1); cogo "P2" 10 0 7.5 (VInt 2); other "AcDbLine" "L1" ].

(** Lot A drawn with its first vertex twice. *)
Definition lotA' := polyline "A" [0;0; 0;0; 10;0; 10;10; 0;10]%float 100 40.
Definition scene' : selection :=
  [ lotA'; lotB; labelA; labelB;
    cogo "P1" 0 0 7.5 (VInt 1); cogo "P2" 10 0 7.5 (VInt 2) ].

(** Three parcels around the edge from (0,0) to (0,10): [parcelQ] has both end
    points, listed the other way round; [parcelR] has the first only. *)
Definition parcelP := polyline "P" [0;0; 0;10; -10;10; -10;0]%float 100 40.
Definition parcelQ := polyline "Q" [0;10; 0;0; 10;0; 10;10]%float 100 40.
Definition parcelR := polyline "R" [0;0; 0;-10; -10;-10]%float 50 34.14.

(** A polyline whose coordinate list cannot be paired, after lot A. *)
Definition broken := polyline "X" [0;0; 10;0; 10]%float 0 20.
Definition broken_scene : selection := [ lotA; labelA; broken; lotB; labelB ].

(** The label of lot A, as the label associator returns it, and the two runs
    of the narrator the examples look at. *)
Definition textA : pyval := VStr "Lote nº 7 Quadra B12".
Definition ringA : list (float * float) :=
  [(0, 0); (10, 0); (10, 10); (0, 10)]%float.
Definition ringA' : list (float * float) :=
  [(0, 0); (0, 0); (10, 0); (10, 10); (0, 10)]%float.
Definition runA : M unit := generate_text_from_polyline lib0 lotA scene textA textA.
Definition runA' : M unit := generate_text_from_polyline lib0 lotA' scene' textA textA.

(** The survey point of the resolver's test. *)
Definition pointV1 : Entity := cogo "P" 10.0000 20.0000 7.5 (VStr "V1").

End Examples.
Import Examples.

(* ================================================================== *)
(** ** Vocabulary of the statements *)
(* ================================================================== *)

(** [d] is the Euclidean distance of [p] and [q] as lines 13, 64 and 173
    compute it: the square root of the sum of the two squares, when none of
    the three operations raises. *)
Definition euclidean (lib : pylib) (p q : float * float) (d : float) : Prop :=
  exists dx2 dy2,
    pow2 lib (fst p - fst q) = Ok dx2
    /\ pow2 lib (snd p - snd q) = Ok dy2
    /\ math_sqrt (dx2 + dy2) = Ok d.

(** A survey point that resolves the vertex: an entity the loop looks at,
    whose position is at a distance below the tolerance. *)
Definition resolves (lib : pylib) (names : set string) (vertex : float * float)
    (tolerance : float) (p : Entity) : Prop :=
  set_mem string_dec (EntityName p) names = true
  /\ exists easting northing d,
       Easting p = Some easting /\ Northing p = Some northing
       /\ euclidean lib (easting, northing) vertex d
       /\ (d <? tolerance)%float = true.

(** A survey point of the drawing at a distance below the tolerance. *)
Definition survey_point_within (lib : pylib) (selection_set : selection)
    (vertex : float * float) (tolerance : float) (p : Entity) : Prop :=
  In p selection_set
  /\ contains "cogopoint" (lower (EntityName p)) = true
  /\ exists easting northing d,
       Easting p = Some easting /\ Northing p = Some northing
       /\ euclidean lib (easting, northing) vertex d
       /\ (d <? tolerance)%float = true.

(** The documents a run printed, in order. *)
Definition documents (w : list event) : list string :=
  flat_map (fun ev => match ev with PrintDocument text => [text] | _ => [] end) w.

(** The table rows a run printed, in order. *)
Definition table_rows (w : list event) : list string :=
  flat_map (fun ev => match ev with PrintTable line => [line] | _ => [] end) w.

(** Events other than table rows and documents: the notices of the resolver
    and the records of the log. *)
Definition is_notice (ev : event) : Prop :=
  match ev with
  | PrintTable _ | PrintDocument _ => False
  | _ => True
  end.

(** A computation that prints no table row and no document. *)
Definition notices_only {A} (m : M A) : Prop := Forall is_notice (fst m).

(** Edge [i] of the ring is narrated when its end points are not equal up to
    the tolerance of [are_floats_equal]. *)
Definition narrated (vertices : list (float * float)) (i : nat) : bool :=
  match nth_error vertices i,
        nth_error vertices ((i + 1) mod List.length vertices) with
  | Some current_vertex, Some next_vertex =>
      negb (is_zero_length current_vertex next_vertex)
  | _, _ => false
  end.

(** The indices of the narrated edges of a ring, in order. *)
Definition narrated_edges (vertices : list (float * float)) : list nat :=
  filter (narrated vertices) (seq 0 (List.length vertices)).

(** The template of the sentence of edge [i]. *)
Definition sentence_template (i : nat) : template :=
  if (i =? 0)%nat then template_initial else template_other.

(** The ring the normaliser stores for a polyline: every pair of its rounded
    coordinates, equal neighbours included. *)
Definition stored_ring (lib : pylib) (raw : list float) : list (float * float) :=
  let coords := map (fun coord => py_round lib coord 3) raw in
  combine (slice_even coords) (slice_odd coords).

(** Two points are float-equal when both coordinates are. *)
Definition float_equal_points (v p : float * float) : Prop :=
  are_floats_equal (fst v) (fst p) default_float_tolerance = true
  /\ are_floats_equal (snd v) (snd p) default_float_tolerance = true.

(** [other] is a candidate for the edge: it is not the polygon itself, it is
    normalised to a polyline, and its ring has a vertex float-equal to each
    end point of the edge. *)
Definition candidate (lib : pylib) (entity : Entity)
    (current_vertex next_vertex : float * float) (other : Entity) : Prop :=
  Handle other <> Handle entity
  /\ exists w other_vertices,
       extract_coordinates lib other = (w, Ok (Some (InfoPolyline other_vertices)))
       /\ (exists v, In v other_vertices /\ float_equal_points v current_vertex)
       /\ (exists v, In v other_vertices /\ float_equal_points v next_vertex).

(** The class names [extract_coordinates] knows. *)
Definition is_supported (name : string) : bool :=
  (name =? "AcDbPolyline")%string || (name =? "AeccDbCogoPoint")%string
  || (name =? "AcDbText")%string || (name =? "AcDbMText")%string.

(** The exponent of the smallest positive binary64 number. *)
Definition emin64 : Z := Eval compute in SpecFloat.emin prec emax.

(** The arithmetic mean of a list of floats, as Python computes it. *)
Definition mean (l : list float) : result float :=
  py_div (py_sum l) (float_of_nat (List.length l)).

(** A label whose insertion point the tester finds inside the ring. *)
Definition enclosed (vertices : list float) (l : Entity) : Prop :=
  is_text_entity l = true
  /\ exists insertion_point,
       InsertionPoint l = Some insertion_point
       /\ is_point_in_polygon (firstn 2 insertion_point) vertices = Ok true.

(** The Euclidean distance from the centre to the insertion point of a label. *)
Definition distance_to (lib : pylib) (center : float * float) (l : Entity)
    (d : float) : Prop :=
  exists x y rest,
    InsertionPoint l = Some (x :: y :: rest)
    /\ euclidean lib center (x, y) d.

(** Line 86: the text of a label without its paragraph breaks. *)
Definition clean (raw : string) : string := remove_all "\P" raw.


(** [a == a] fails for a NaN only. *)
Definition is_number (a : float) : bool := (a =? a)%float.

(** Line 40: the vertices of a flat list of coordinates; a last coordinate
    without a partner is left out. *)
Definition pairs (polygon : list float) : list (float * float) :=
  combine (slice_even polygon) (slice_odd polygon).

(** The edges of a ring: from each vertex to the next, and from the last back
    to the first. *)
Definition ring_edges {A} (ring : list A) : list (A * A) :=
  match ring with
  | [] => []
  | v0 :: vs => combine ring (vs ++ [v0])
  end.

(** The tests of lines 47-52 for the point [(x, y)] and the edge from [p1] to
    [p2], as one expression. *)
Definition crosses (x y : float) (p1 p2 : float * float) : bool :=
  (py_min (snd p1) (snd p2) <? y)%float
  && (y <=? py_max (snd p1) (snd p2))%float
  && (x <=? py_max (fst p1) (fst p2))%float
  && ((fst p1 =? fst p2)%float
      || (x <=? (y - snd p1) * (fst p2 - fst p1) / (snd p2 - snd p1) + fst p1)%float).

(** The number of edges of the ring that pass the tests. *)
Definition crossings (x y : float) (ring : list (float * float)) : nat :=
  List.length (filter (fun e => crosses x y (fst e) (snd e)) (ring_edges ring)).

(** Line 104: the class name of the entity contains the word, in any case of
    its letters. *)
Definition is_survey_point (e : Entity) : bool :=
  contains "cogopoint" (lower (EntityName e)).

(** The class an entity must have for [extract_coordinates] to return the
    record [info]; the insertion point of a text record has two coordinates at
    most. *)
Definition info_class (info : entity_info) (name : string) : Prop :=
  match info with
  | InfoPolyline _ => name = "AcDbPolyline"
  | InfoCogoPoint _ _ _ _ _ => name = "AeccDbCogoPoint"
  | InfoText insertion_point _ =>
      (name = "AcDbText" \/ name = "AcDbMText")
      /\ (List.length insertion_point <= 2)%nat
  end.

(** Line 226: the entities the script narrates. *)
Definition is_polyline (e : Entity) : bool := (EntityName e =? "AcDbPolyline")%string.

(** A computation that prints no document. *)
Definition prints_no_document {A} (m : M A) : Prop := documents (fst m) = [].

(** A piece of a template that renders a value of the context: its name is
    defined, and for an indexed slot the value has that item. *)
Definition defined_in (ctx : context) (p : piece) : Prop :=
  match p with
  | Lit _ => True
  | Slot name => Jinja.lookup name ctx <> None
  | SlotItem name i =>
      exists v w, Jinja.lookup name ctx = Some v /\ item v i = Some w
  end.

(** The entity with another [Length] attribute. *)
Definition with_length (e : Entity) (len : option float) : Entity :=
  MkEntity (EntityName e) (Handle e) (Coordinates e) (Area e) len
           (Easting e) (Northing e) (Elevation e) (RawDescription e) (Number e)
           (InsertionPoint e) (TextString e).

(** The notices of the resolver a run printed, in order. *)
Definition no_match_notices (w : list event) : list string :=
  flat_map (fun ev => match ev with PrintNoMatch line => [line] | _ => [] end) w.

(** Line 113: the notice for a vertex. *)
Definition no_match_notice (lib : pylib) (vertex : float * float) : string :=
  ("No matching CogoPoint found for vertex: "
   ++ str lib (VPair (fst vertex) (snd vertex)))%string.

(** A record of the log. *)
Definition is_log (ev : event) : Prop :=
  match ev with
  | LogWarning _ | LogError _ => True
  | _ => False
  end.

(** A computation that writes to the log only. *)
Definition logs_only {A} (m : M A) : Prop := Forall is_log (fst m).

(* ================================================================== *)
(** ** Laws of the two monads *)
(* ================================================================== *)

Lemma rbind_ok {A B} (r : result A) (k : A -> result B) (b : B) :
  rbind r k = Ok b -> exists a, r = Ok a /\ k a = Ok b.
Proof.
  destruct r as [a|e]; simpl; intros H; [eauto | discriminate].
Qed.

Lemma bind_ok {A B} (m : M A) (k : A -> M B) (w : list event) (b : B) :
  bind m k = (w, Ok b) ->
  exists w1 a w2, m = (w1, Ok a) /\ k a = (w2, Ok b) /\ w = w1 ++ w2.
Proof.
  destruct m as [w1 [a|e]]; simpl.
  - destruct (k a) as [w2 r] eqn:K. intros H. inversion H; subst.
    exists w1, a, w2. auto.
  - discriminate.
Qed.

Lemma bind_raises {A B} (m : M A) (k : A -> M B) (w : list event) (e : exn) :
  m = (w, Raise e) -> bind m k = (w, Raise e).
Proof. intros ->. reflexivity. Qed.

Lemma lift_ok {A} (r : result A) (w : list event) (a : A) :
  lift r = (w, Ok a) -> r = Ok a /\ w = [].
Proof. unfold lift. intros H. inversion H. auto. Qed.

Lemma getattr_ok {A} (name : string) (attr : option A) (a : A) :
  getattr name attr = Ok a -> attr = Some a.
Proof. destruct attr; simpl; congruence. Qed.

Lemma bind_ext {A B} (m : M A) (k k' : A -> M B) :
  (forall a, k a = k' a) -> bind m k = bind m k'.
Proof.
  intros H. destruct m as [w [a|e]]; simpl; [rewrite H|]; reflexivity.
Qed.

Lemma bind_ignore {A B} (a a' : A) (k k' : A -> M B) :
  k a = k' a' -> bind (lift (Ok a)) k = bind (lift (Ok a')) k'.
Proof. intros H. simpl. rewrite H. reflexivity. Qed.

Lemma for_eachM_ext {S A} (body body' : S -> A -> M S) (l : list A) :
  (forall s a, body s a = body' s a) ->
  forall s, for_eachM body l s = for_eachM body' l s.
Proof.
  intros H. induction l as [|a l IH]; intros s; [reflexivity|].
  simpl. rewrite H. apply bind_ext. exact IH.
Qed.

Lemma bind_assoc {A B C} (m : M A) (k : A -> M B) (k' : B -> M C) :
  bind (bind m k) k' = bind m (fun a => bind (k a) k').
Proof.
  destruct m as [w [a|e]]; simpl; [|reflexivity].
  destruct (k a) as [w1 [b|e]]; simpl; [|reflexivity].
  destruct (k' b). rewrite app_assoc. reflexivity.
Qed.

(* ================================================================== *)
(** ** The label associator on an entity that is no polyline *)
(* ================================================================== *)

(** C10.  Applied to an entity whose class name is not that of a polyline,
    [get_text_inside_polyline] returns the pair [(None, None)], whatever the
    selection set holds; this is not the pair that starts with the text
    "No text found", which it returns for a polyline without enclosed label. *)
Theorem get_text_inside_polyline_not_polyline (lib : pylib) (entity : Entity)
    (selection_set : selection) :
  EntityName entity <> "AcDbPolyline" ->
  get_text_inside_polyline lib entity selection_set = Ok (VNone, VNone)
  /\ forall raw, get_text_inside_polyline lib entity selection_set
                 <> Ok (VStr "No text found", raw).
Proof.
  intros Hname. unfold get_text_inside_polyline.
  destruct (String.eqb_spec (EntityName entity) "AcDbPolyline") as [E|_];
    [contradiction|]. simpl.
  split; [reflexivity | intros raw H; discriminate].
Qed.

(** The label of lot A is such an entity. *)
Lemma get_text_inside_polyline_not_polyline_witness :
  EntityName labelA <> "AcDbPolyline"
  /\ get_text_inside_polyline lib0 labelA scene = Ok (VNone, VNone).
Proof.
  assert (H : EntityName labelA <> "AcDbPolyline") by (simpl; discriminate).
  split; [exact H|].
  exact (proj1 (get_text_inside_polyline_not_polyline lib0 labelA scene H)).
Defined.

(* ================================================================== *)
(** ** The distance of two points *)
(* ================================================================== *)

(** The square is the answer of the C library, not the rounded product: it
    can differ from it in the last place, and it raises where the library
    reports a result out of range.  The bases CPython answers itself do not
    depend on the library. *)
Example pow2_of_the_library (lib : pylib) :
  pow2 lib0 13.543 = Ok 183.412849%float
  /\ (13.543 * 13.543)%float = 183.41284899999997%float
  /\ pow2 lib0 1e200 = Raise OverflowError
  /\ pow2 lib 0 = Ok 0%float /\ pow2 lib (-0) = Ok 0%float
  /\ pow2 lib 1 = Ok 1%float /\ pow2 lib (-1) = Ok 1%float
  /\ pow2 lib infinity = Ok infinity /\ pow2 lib neg_infinity = Ok infinity
  /\ pow2 lib nan = Ok nan.
Proof. repeat split; vm_compute; reflexivity. Qed.

Lemma math_sqrt_ok (x d : float) : math_sqrt x = Ok d -> d = sqrt x.
Proof.
  unfold math_sqrt.
  destruct (is_nan (sqrt x) && negb (is_nan x)); [discriminate|].
  destruct (is_infinity (sqrt x) && is_finite x); [discriminate|].
  intros H. inversion H. reflexivity.
Qed.

Lemma euclidean_unique (lib : pylib) (p q : float * float) (d d' : float) :
  euclidean lib p q d -> euclidean lib p q d' -> d = d'.
Proof.
  intros (dx & dy & Hx & Hy & Hd) (dx' & dy' & Hx' & Hy' & Hd').
  rewrite Hx in Hx'. rewrite Hy in Hy'. inversion Hx'; inversion Hy'; subst.
  rewrite Hd in Hd'. inversion Hd'. reflexivity.
Qed.

(** The test of line 13 returns when the distance is computed, and compares
    it with the tolerance. *)
Lemma is_point_close_ok (lib : pylib) (p q : float * float) (tolerance : float)
    (b : bool) :
  is_point_close lib p q tolerance = Ok b
  <-> exists d, euclidean lib p q d /\ b = (d <? tolerance)%float.
Proof.
  unfold is_point_close, euclidean. split.
  - intros H.
    apply rbind_ok in H. destruct H as (dx & Hx & H).
    apply rbind_ok in H. destruct H as (dy & Hy & H).
    apply rbind_ok in H. destruct H as (d & Hd & H).
    inversion H. exists d. split; [|reflexivity]. exists dx, dy. auto.
  - intros (d & (dx & dy & Hx & Hy & Hd) & ->).
    rewrite Hx, Hy. simpl. rewrite Hd. reflexivity.
Qed.

(* ================================================================== *)
(** ** The vertex resolver *)
(* ================================================================== *)

Lemma fold_set_add_In (l : selection) (acc : set string) (name : string) :
  set_In name (fold_left (fun names e => set_add string_dec (EntityName e) names) l acc)
  <-> set_In name acc \/ exists e, In e l /\ EntityName e = name.
Proof.
  revert acc. induction l as [|e l IH]; intros acc; simpl.
  - split; [auto | intros [H|[e [[] _]]]; exact H].
  - rewrite IH, set_add_iff. split.
    + intros [[H|H]|[e' [H1 H2]]]; eauto.
    + intros [H|[e' [[H1|H1] H2]]]; subst; eauto.
Qed.

(** For an entity of the selection set, the test of line 107 is the test that
    its class name contains the word, whatever the case of its letters. *)
Lemma cogopoint_names_mem (selection_set : selection) (e : Entity) :
  In e selection_set ->
  set_mem string_dec (EntityName e)
          (cogopoint_names_of (get_all_entity_names selection_set))
  = contains "cogopoint" (lower (EntityName e)).
Proof.
  intros Hin. unfold cogopoint_names_of, get_all_entity_names.
  destruct (contains "cogopoint" (lower (EntityName e))) eqn:C.
  - apply set_mem_correct2. apply filter_In. split; [|exact C].
    apply fold_set_add_In. right. eauto.
  - apply set_mem_complete2. intros H. apply filter_In in H.
    destruct H as [_ H]. congruence.
Qed.

Lemma get_vertex_name_loop_some (lib : pylib) (names : set string) (rest : selection)
    (vertex : float * float) (tolerance : float) (name : string) (elevation : option float) :
  get_vertex_name_loop lib names rest vertex tolerance = Ok (Some (name, elevation)) ->
  exists before p after number z,
    rest = before ++ p :: after
    /\ resolves lib names vertex tolerance p
    /\ (forall q, In q before -> ~ resolves lib names vertex tolerance q)
    /\ Number p = Some number /\ name = ("V" ++ str lib number)%string
    /\ Elevation p = Some z /\ elevation = Some z.
Proof.
  induction rest as [|q rest IH]; simpl; [discriminate|].
  destruct (set_mem string_dec (EntityName q) names) eqn:Hmem.
  - intros H.
    apply rbind_ok in H. destruct H as [easting [He H]]. apply getattr_ok in He.
    apply rbind_ok in H. destruct H as [northing [Hn H]]. apply getattr_ok in Hn.
    apply rbind_ok in H. destruct H as [close [Hclose H]].
    apply is_point_close_ok in Hclose. destruct Hclose as (d & Hd & Hclose).
    destruct close.
    + apply rbind_ok in H. destruct H as [number [Hnum H]]. apply getattr_ok in Hnum.
      apply rbind_ok in H. destruct H as [z [Hz H]]. apply getattr_ok in Hz.
      inversion H; subst.
      exists [], q, rest, number, z. simpl.
      split; [reflexivity|]. split; [|split; [intros ? []|auto]].
      split; [exact Hmem|]. exists easting, northing, d. auto.
    + destruct (IH H) as (before & p & after & number & z & -> & Hp & Hfirst & Hrest).
      exists (q :: before), p, after, number, z. simpl.
      split; [reflexivity|]. split; [exact Hp|]. split; [|exact Hrest].
      intros q' [<-|Hq']; [|auto].
      intros [_ (e' & n' & d' & He' & Hn' & Hd' & Hlt)].
      rewrite He in He'. rewrite Hn in Hn'. inversion He'; inversion Hn'; subst.
      rewrite (euclidean_unique _ _ _ _ _ Hd' Hd) in Hlt. congruence.
  - intros H.
    destruct (IH H) as (before & p & after & number & z & -> & Hp & Hfirst & Hrest).
    exists (q :: before), p, after, number, z. simpl.
    split; [reflexivity|]. split; [exact Hp|]. split; [|exact Hrest].
    intros q' [<-|Hq']; [|auto].
    intros [Hm _]. congruence.
Qed.

Lemma get_vertex_name_loop_none (lib : pylib) (names : set string) (rest : selection)
    (vertex : float * float) (tolerance : float) :
  get_vertex_name_loop lib names rest vertex tolerance = Ok None ->
  forall q, In q rest -> ~ resolves lib names vertex tolerance q.
Proof.
  induction rest as [|p rest IH]; simpl; [intros _ ? []|].
  destruct (set_mem string_dec (EntityName p) names) eqn:Hmem.
  - intros H.
    apply rbind_ok in H. destruct H as [easting [He H]]. apply getattr_ok in He.
    apply rbind_ok in H. destruct H as [northing [Hn H]]. apply getattr_ok in Hn.
    apply rbind_ok in H. destruct H as [close [Hclose H]].
    apply is_point_close_ok in Hclose. destruct Hclose as (d & Hd & Hclose).
    destruct close.
    + apply rbind_ok in H. destruct H as [number [_ H]].
      apply rbind_ok in H. destruct H as [z [_ H]]. discriminate.
    + intros q [<-|Hq]; [|auto].
      intros [_ (e' & n' & d' & He' & Hn' & Hd' & Hlt)].
      rewrite He in He'. rewrite Hn in Hn'. inversion He'; inversion Hn'; subst.
      rewrite (euclidean_unique _ _ _ _ _ Hd' Hd) in Hlt. congruence.
  - intros H q [<-|Hq]; [|auto]. intros [Hm _]. congruence.
Qed.

Lemma resolves_survey_point (lib : pylib) (selection_set : selection)
    (vertex : float * float) (tolerance : float) (p : Entity) :
  In p selection_set ->
  (resolves lib (cogopoint_names_of (get_all_entity_names selection_set)) vertex tolerance p
   <-> survey_point_within lib selection_set vertex tolerance p).
Proof.
  intros Hin. unfold resolves, survey_point_within.
  rewrite (cogopoint_names_mem _ _ Hin). tauto.
Qed.

(** What a run of the resolver that does not raise returns: the name and the
    elevation of the first survey point within the tolerance, or the sentinel
    when there is none. *)
Lemma get_vertex_name_returns (lib : pylib) (entity : Entity) (selection_set : selection)
    (vertex : float * float) (tolerance : float) (w : list event)
    (name : string) (elevation : option float) :
  get_vertex_name lib entity selection_set vertex tolerance = (w, Ok (name, elevation)) ->
  (exists before p after number z,
      selection_set = before ++ p :: after
      /\ survey_point_within lib selection_set vertex tolerance p
      /\ (forall q, In q before -> ~ survey_point_within lib selection_set vertex tolerance q)
      /\ Number p = Some number /\ name = ("V" ++ str lib number)%string
      /\ Elevation p = Some z /\ elevation = Some z /\ w = [])
  \/ ((forall q, ~ survey_point_within lib selection_set vertex tolerance q)
      /\ name = "Vertex not found" /\ elevation = None
      /\ w = [PrintNoMatch ("No matching CogoPoint found for vertex: "
                            ++ str lib (VPair (fst vertex) (snd vertex)))%string]).
Proof.
  unfold get_vertex_name. intros H.
  apply bind_ok in H. destruct H as (w1 & found & w2 & Hloop & Hk & ->).
  apply lift_ok in Hloop. destruct Hloop as [Hloop ->].
  destruct found as [[name' elevation']|].
  - unfold ret in Hk. inversion Hk; subst. left.
    destruct (get_vertex_name_loop_some _ _ _ _ _ _ _ Hloop)
      as (before & p & after & number & z & Hsplit & Hp & Hfirst & Hnum & Hname & Hz & Helev).
    exists before, p, after, number, z.
    assert (Hin : In p selection_set)
      by (rewrite Hsplit; apply in_or_app; right; left; reflexivity).
    split; [exact Hsplit|]. split; [|split].
    + apply resolves_survey_point; assumption.
    + intros q Hq Hs. apply (Hfirst q Hq).
      apply resolves_survey_point; [|exact Hs].
      rewrite Hsplit. apply in_or_app. left. exact Hq.
    + tauto.
  - simpl in Hk. inversion Hk; subst. right.
    split; [|split; [reflexivity|split; reflexivity]].
    intros q Hs. assert (Hin : In q selection_set) by apply Hs.
    apply (get_vertex_name_loop_none _ _ _ _ _ Hloop q Hin).
    apply resolves_survey_point; assumption.
Qed.

(** C3, as the code has it.  A run of the resolver that returns finds a point
    exactly when some survey point of the selection set lies at a Euclidean
    distance (the square root, not the squared distance) strictly below the
    tolerance; it then returns the letter V followed by the number of the first
    such point, and that point's elevation.  For the survey point numbered
    "V1" at (10.0000, 20.0000) and the vertex (10.0003, 20.0003), the tolerance
    0.001 gives the name "VV1" with the point's elevation, and the tolerance
    0.0001 gives the sentinel; the two differences of coordinates are the float
    -0.0002999999999993008, and the square of its absolute value is the one
    the C library returns. *)
Theorem get_vertex_name_euclidean (lib : pylib) :
  (forall entity selection_set vertex tolerance w name elevation,
      get_vertex_name lib entity selection_set vertex tolerance
      = (w, Ok (name, elevation)) ->
      (elevation <> None
       <-> exists p, survey_point_within lib selection_set vertex tolerance p)
      /\ (elevation <> None ->
          exists before p after number,
            selection_set = before ++ p :: after
            /\ survey_point_within lib selection_set vertex tolerance p
            /\ (forall q, In q before ->
                          ~ survey_point_within lib selection_set vertex tolerance q)
            /\ Number p = Some number
            /\ name = ("V" ++ str lib number)%string
            /\ elevation = Elevation p)
      /\ (elevation = None -> name = "Vertex not found"))
  /\ (forall entity handle z,
        libm_pow lib 0.0002999999999993008 2 = (8.999999999958049e-08, ENONE)%float ->
        get_vertex_name lib entity [cogo handle 10.0000 20.0000 z (VStr "V1")]
                        (10.0003, 20.0003)%float 0.001%float
        = ([], Ok ("VV1", Some z)))
  /\ (forall entity handle z,
        libm_pow lib 0.0002999999999993008 2 = (8.999999999958049e-08, ENONE)%float ->
        snd (get_vertex_name lib entity [cogo handle 10.0000 20.0000 z (VStr "V1")]
                             (10.0003, 20.0003)%float 0.0001%float)
        = Ok ("Vertex not found", None)).
Proof.
  assert (Hclose : forall tolerance,
             libm_pow lib 0.0002999999999993008 2 = (8.999999999958049e-08, ENONE)%float ->
             is_point_close lib (10, 20)%float (10.0003, 20.0003)%float tolerance
             = Ok (0.0004242640687109397 <? tolerance)%float).
  { intros tolerance H. unfold is_point_close, pow2. cbn [fst snd].
    change (10 - 10.0003)%float with (-0.0002999999999993008)%float.
    change (20 - 20.0003)%float with (-0.0002999999999993008)%float.
    change (is_nan (-0.0002999999999993008)) with false.
    change (is_infinity (-0.0002999999999993008)) with false.
    change (-0.0002999999999993008 =? 0)%float with false.
    change (-0.0002999999999993008 <? 0)%float with true.
    change (- -0.0002999999999993008)%float with 0.0002999999999993008%float.
    change (0.0002999999999993008 =? 1)%float with false.
    cbv iota. rewrite H. reflexivity. }
  split; [|split].
  - intros entity selection_set vertex tolerance w name elevation H.
    destruct (get_vertex_name_returns _ _ _ _ _ _ _ _ H)
      as [(before & p & after & number & z & Hsplit & Hp & Hfirst & Hnum & Hname & Hz & He & _)
         |(Hnone & Hname & He & _)].
    + subst elevation. split; [|split].
      * split; [intros _; exists p; exact Hp | discriminate].
      * intros _. exists before, p, after, number. rewrite Hz. tauto.
      * discriminate.
    + subst elevation. split; [|split].
      * split; [congruence | intros [p Hp]; elim (Hnone p Hp)].
      * congruence.
      * intros _. exact Hname.
  - intros entity handle z H. unfold get_vertex_name.
    cbn [get_vertex_name_loop cogo EntityName Easting Northing Number Elevation].
    change (set_mem string_dec "AeccDbCogoPoint"
              (cogopoint_names_of
                 (get_all_entity_names [cogo handle 10 20 z (VStr "V1")])))
      with true.
    cbn [getattr rbind]. rewrite (Hclose _ H). reflexivity.
  - intros entity handle z H. unfold get_vertex_name.
    cbn [get_vertex_name_loop cogo EntityName Easting Northing Number Elevation].
    change (set_mem string_dec "AeccDbCogoPoint"
              (cogopoint_names_of
                 (get_all_entity_names [cogo handle 10 20 z (VStr "V1")])))
      with true.
    cbn [getattr rbind]. rewrite (Hclose _ H). reflexivity.
Qed.

(** C3, as the claim words it, fails on the name: the point numbered "V1" is
    resolved under the name "VV1". *)
Lemma get_vertex_name_prefixes_number :
  get_vertex_name lib0 lotA [pointV1] (10.0003, 20.0003)%float 0.001%float
  = ([], Ok ("VV1", Some 7.5%float))
  /\ "VV1" <> "V1".
Proof.
  split; [vm_compute; reflexivity | discriminate].
Qed.

(** A survey point numbered by the integer 1 is the one named "V1". *)
Example get_vertex_name_integer_number :
  get_vertex_name lib0 lotA [cogo "P" 10.0000 20.0000 7.5 (VInt 1)]
                  (10.0003, 20.0003)%float 0.001%float
  = ([], Ok ("V1", Some 7.5%float)).
Proof. vm_compute. reflexivity. Qed.

(** The comparison is on the distance itself: a point at distance 0.9 is not
    within the tolerance 0.85, which its squared distance 0.81 is below. *)
Example is_point_close_not_squared :
  is_point_close lib0 (0, 0)%float (0.9, 0)%float 0.85%float = Ok false
  /\ pow2 lib0 (0 - 0.9) = Ok 0.81%float /\ pow2 lib0 (0 - 0) = Ok 0%float
  /\ (0.81 + 0 <? 0.85)%float = true.
Proof. repeat split; vm_compute; reflexivity. Qed.

(* ================================================================== *)
(** ** The header *)
(* ================================================================== *)

(** The header template has no slot for the quadra: the value passed for
    [quad_number] never reaches the text. *)
Lemma header_of_ignores_quad_number (lib : pylib) (lot_number quad_number quad_number' : pyval)
    (area : float) (area_text : string) :
  header_of lib lot_number quad_number area area_text
  = header_of lib lot_number quad_number' area area_text.
Proof. reflexivity. Qed.

Lemma template_header_slots :
  slots template_header = ["lot_number"; "area"; "area_text"].
Proof. reflexivity. Qed.

(** C1 at the label "Lote nº 7 Quadra B12" of lot A.  The narrator extracts
    the lot number 7 and the quadra B12 and passes both to the header template,
    but the header it prints reads QUADRA “XX”: the quadra identifier is not in
    it, and the template has no slot named [quad_number]. *)
Theorem header_omits_quadra :
  get_text_inside_polyline lib0 lotA scene
  = Ok (VStr "Lote nº 7 Quadra B12", VStr "Lote nº 7 Quadra B12")
  /\ extract_number "Lote nº " (is_digit lib0) (VStr "Lote nº 7 Quadra B12")
                    (VStr "Lote nº 7 Quadra B12") = Ok (VStr "7")
  /\ extract_number "Quadra " (is_word lib0) (VStr "Lote nº 7 Quadra B12")
                    (VStr "Lote nº 7 Quadra B12") = Ok (VStr "B12")
  /\ header_of lib0 (VStr "7") (VStr "B12") 100 "cem"
     = "7 da QUADRA “XX”, com área de 100.0m² (cem), com a seguinte descrição:"
  /\ contains "B12" (header_of lib0 (VStr "7") (VStr "B12") 100 "cem") = false
  /\ ~ In "quad_number" (slots template_header)
  /\ (exists w text,
        generate_text_from_polyline lib0 lotA scene (VStr "Lote nº 7 Quadra B12")
                                    (VStr "Lote nº 7 Quadra B12") = (w, Ok tt)
        /\ documents w = [text]
        /\ String.prefix (header_of lib0 (VStr "7") (VStr "B12") 100 "cem") text = true).
Proof.
  split; [vm_compute; reflexivity|].
  split; [vm_compute; reflexivity|].
  split; [vm_compute; reflexivity|].
  split; [vm_compute; reflexivity|].
  split; [vm_compute; reflexivity|].
  split.
  - rewrite template_header_slots. simpl. intuition discriminate.
  - eexists. eexists. split; [vm_compute; reflexivity|].
    split; [vm_compute; reflexivity | vm_compute; reflexivity].
Qed.

(* ================================================================== *)
(** ** What the parts of the narrator write *)
(* ================================================================== *)

Lemma notices_only_ret {A} (a : A) : notices_only (ret a).
Proof. constructor. Qed.

Lemma notices_only_lift {A} (r : result A) : notices_only (lift r).
Proof. constructor. Qed.

Lemma notices_only_bind {A B} (m : M A) (k : A -> M B) :
  notices_only m -> (forall a, notices_only (k a)) -> notices_only (bind m k).
Proof.
  unfold notices_only. destruct m as [w [a|e]]; simpl; intros Hm Hk; [|exact Hm].
  specialize (Hk a). destruct (k a) as [w' r]. simpl in *.
  apply Forall_app. auto.
Qed.

Lemma notices_only_try_except {A} (m : M A) (h : exn -> M A) :
  notices_only m -> (forall e, notices_only (h e)) -> notices_only (try_except m h).
Proof.
  unfold notices_only. destruct m as [w [a|e]]; simpl; intros Hm Hh; [exact Hm|].
  specialize (Hh e). destruct (h e) as [w' r]. simpl in *.
  apply Forall_app. auto.
Qed.

Lemma notices_only_emit (ev : event) : is_notice ev -> notices_only (emit ev).
Proof. intros H. constructor; [exact H | constructor]. Qed.

Lemma table_rows_app (w1 w2 : list event) :
  table_rows (w1 ++ w2) = (table_rows w1 ++ table_rows w2)%list.
Proof. apply flat_map_app. Qed.

Lemma documents_app (w1 w2 : list event) :
  documents (w1 ++ w2) = (documents w1 ++ documents w2)%list.
Proof. apply flat_map_app. Qed.

Lemma notices_no_rows (w : list event) :
  Forall is_notice w -> table_rows w = [] /\ documents w = [].
Proof.
  induction 1 as [|ev w Hev _ [IH1 IH2]]; [split; reflexivity|].
  destruct ev; simpl in *; try contradiction; auto.
Qed.

Lemma extract_coordinates_notices (lib : pylib) (e : Entity) :
  notices_only (extract_coordinates lib e).
Proof.
  unfold extract_coordinates, extract_body.
  apply notices_only_try_except.
  - repeat match goal with
           | |- notices_only (if ?c then _ else _) => destruct c
           | |- notices_only (bind _ _) => apply notices_only_bind; [|intros ?]
           | |- notices_only (lift _) => apply notices_only_lift
           | |- notices_only (ret _) => apply notices_only_ret
           | |- notices_only (emit _) => apply notices_only_emit; exact I
           end.
  - intros ex. apply notices_only_bind; [apply notices_only_emit; exact I|].
    intros _. constructor.
Qed.

Lemma find_adjacent_notices (lib : pylib) (entity : Entity) (rest : selection)
    (current_vertex next_vertex : float * float) :
  notices_only (find_adjacent lib entity rest current_vertex next_vertex).
Proof.
  induction rest as [|other rest IH]; simpl; [apply notices_only_ret|].
  destruct (Handle other =? Handle entity)%string; [exact IH|].
  apply notices_only_bind; [apply extract_coordinates_notices|].
  intros [[vs| |]|]; try exact IH.
  destruct (has_vertex vs current_vertex && has_vertex vs next_vertex);
    [apply notices_only_ret | exact IH].
Qed.

Lemma get_vertex_name_notices (lib : pylib) (entity : Entity) (selection_set : selection)
    (vertex : float * float) (tolerance : float) :
  notices_only (get_vertex_name lib entity selection_set vertex tolerance).
Proof.
  unfold get_vertex_name.
  apply notices_only_bind; [apply notices_only_lift|].
  intros [r|]; [apply notices_only_ret|].
  apply notices_only_bind; [apply notices_only_emit; exact I|].
  intros _. apply notices_only_ret.
Qed.

Lemma describe_edge_notices (lib : pylib) (entity : Entity) (selection_set : selection)
    (c n : float * float) (cn : string) (ce : option float) (nn : string)
    (ne : option float) :
  notices_only (describe_edge lib entity selection_set c n cn ce nn ne).
Proof.
  unfold describe_edge.
  apply notices_only_bind; [apply notices_only_lift|]. intros distance.
  apply notices_only_bind; [apply notices_only_lift|]. intros degrees.
  apply notices_only_bind; [apply notices_only_lift|]. intros minutes.
  apply notices_only_bind; [apply find_adjacent_notices|]. intros adjacent.
  apply notices_only_bind; [|intros ?; apply notices_only_ret].
  destruct adjacent; [|apply notices_only_ret].
  apply notices_only_bind; [apply notices_only_lift|].
  intros ?. apply notices_only_ret.
Qed.

(* ================================================================== *)
(** ** The loop over the edges *)
(* ================================================================== *)

Lemma index_ok {A} (l : list A) (i : nat) (a : A) :
  index l i = Ok a -> nth_error l i = Some a.
Proof. unfold index. destruct (nth_error l i); congruence. Qed.

(** An iteration that returns either skipped a zero-length edge, writing no
    sentence and no row, or wrote one sentence and one row from one context. *)
Lemma edge_step_returns (lib : pylib) (entity : Entity) (selection_set : selection)
    (vertices : list (float * float)) (descriptions descriptions' : list string)
    (i : nat) (w : list event) :
  edge_step lib entity selection_set vertices descriptions i = (w, Ok descriptions') ->
  (narrated vertices i = false /\ descriptions' = descriptions /\ table_rows w = [])
  \/ (narrated vertices i = true
      /\ exists ctx,
           descriptions' = (descriptions ++ [render lib (sentence_template i) ctx])%list
           /\ table_rows w = [render lib template_table ctx]).
Proof.
  unfold edge_step. intros H.
  apply bind_ok in H. destruct H as (w1 & current_vertex & w1' & Hc & H & ->).
  apply lift_ok in Hc. destruct Hc as [Hc ->]. apply index_ok in Hc.
  apply bind_ok in H. destruct H as (w2 & next_vertex & w2' & Hn & H & ->).
  apply lift_ok in Hn. destruct Hn as [Hn ->]. apply index_ok in Hn.
  apply bind_ok in H. destruct H as (w3 & current & w3' & Hgc & H & ->).
  apply bind_ok in H. destruct H as (w4 & next & w4' & Hgn & H & ->).
  pose proof (get_vertex_name_notices lib entity selection_set current_vertex 0.001%float)
    as N3.
  pose proof (get_vertex_name_notices lib entity selection_set next_vertex 0.001%float)
    as N4.
  unfold notices_only in N3, N4. rewrite Hgc in N3. rewrite Hgn in N4. simpl in N3, N4.
  apply notices_no_rows in N3, N4. destruct N3 as [N3 _], N4 as [N4 _].
  unfold narrated. rewrite Hc, Hn. simpl.
  destruct (is_zero_length current_vertex next_vertex) eqn:Z.
  - left. unfold ret in H. inversion H; subst.
    rewrite !table_rows_app, N3, N4. auto.
  - right. split; [reflexivity|].
    apply bind_ok in H. destruct H as (w5 & ctx & w5' & Hd & H & ->).
    pose proof (describe_edge_notices lib entity selection_set current_vertex next_vertex
                  (fst current) (snd current) (fst next) (snd next)) as N5.
    unfold notices_only in N5. rewrite Hd in N5. simpl in N5.
    apply notices_no_rows in N5. destruct N5 as [N5 _].
    simpl in H. inversion H; subst.
    exists ctx. rewrite !table_rows_app, N3, N4, N5.
    unfold sentence_template. destruct (i =? 0)%nat; split; reflexivity.
Qed.

(** The loop over a list of edge indices: the sentences added and the rows
    printed are those of the narrated edges, in order, one context each. *)
Lemma edge_loop_returns (lib : pylib) (entity : Entity) (selection_set : selection)
    (vertices : list (float * float)) (indices : list nat) :
  forall (descriptions descriptions' : list string) (w : list event),
    for_eachM (edge_step lib entity selection_set vertices) indices descriptions
    = (w, Ok descriptions') ->
    exists ctxs,
      List.length ctxs = List.length (filter (narrated vertices) indices)
      /\ descriptions'
         = (descriptions
            ++ map (fun ic => render lib (sentence_template (fst ic)) (snd ic))
                   (combine (filter (narrated vertices) indices) ctxs))%list
      /\ table_rows w = map (render lib template_table) ctxs.
Proof.
  induction indices as [|i indices IH]; intros descriptions descriptions' w H.
  - simpl in H. inversion H; subst. exists []. simpl.
    rewrite app_nil_r. auto.
  - simpl in H. apply bind_ok in H. destruct H as (w1 & d1 & w2 & Hstep & Hrest & ->).
    destruct (IH _ _ _ Hrest) as (ctxs & Hlen & Hd & Hrows).
    destruct (edge_step_returns _ _ _ _ _ _ _ _ Hstep)
      as [(Hn & -> & Hr)|(Hn & ctx & -> & Hr)]; simpl; rewrite Hn.
    + exists ctxs. rewrite table_rows_app, Hr. auto.
    + exists (ctx :: ctxs). simpl. rewrite table_rows_app, Hr, Hrows, Hd, Hlen.
      rewrite <- app_assoc. auto.
Qed.

(* ================================================================== *)
(** ** Comprehensions over every second index *)
(* ================================================================== *)

Lemma list_ind2 {A} (P : list A -> Prop) :
  P [] -> (forall a, P [a]) -> (forall a b l, P l -> P (a :: b :: l)) ->
  forall l, P l.
Proof.
  intros H0 H1 H2.
  assert (H : forall l, P l /\ forall a, P (a :: l)).
  { induction l as [|b l [IH1 IH2]]; split; auto. }
  intros l. apply H.
Qed.

Lemma range2_step (start n : nat) :
  (start <= 1)%nat ->
  range2 start (S (S n)) = start :: map (fun i => S (S i)) (range2 start n).
Proof.
  intros Hs. unfold range2.
  replace (S (S n) + 1 - start)%nat with ((n + 1 - start) + 1 * 2)%nat by lia.
  rewrite Nat.div_add by discriminate.
  rewrite Nat.add_1_r. rewrite <- cons_seq, <- seq_shift. simpl map.
  f_equal; [lia|]. rewrite !map_map. apply map_ext. intros k. lia.
Qed.

Lemma comprehension_map {A B C} (f : B -> result C) (g : A -> B) (l : list A) :
  comprehension f (map g l) = comprehension (fun a => f (g a)) l.
Proof.
  induction l as [|a l IH]; simpl; [reflexivity|]. rewrite IH. reflexivity.
Qed.

Lemma comprehension_index_even {A} (l : list A) :
  comprehension (index l) (range2 0 (List.length l)) = Ok (slice_even l).
Proof.
  induction l as [|a|a b l IH] using list_ind2; try reflexivity.
  simpl List.length. rewrite range2_step by lia.
  simpl. rewrite comprehension_map.
  change (comprehension (fun i => index (a :: b :: l) (S (S i))) (range2 0 (List.length l)))
    with (comprehension (index l) (range2 0 (List.length l))).
  rewrite IH. reflexivity.
Qed.

Lemma comprehension_index_odd {A} (l : list A) :
  comprehension (index l) (range2 1 (List.length l)) = Ok (slice_odd l).
Proof.
  induction l as [|a|a b l IH] using list_ind2; try reflexivity.
  simpl List.length. rewrite range2_step by lia.
  simpl. rewrite comprehension_map.
  change (comprehension (fun i => index (a :: b :: l) (S (S i))) (range2 1 (List.length l)))
    with (comprehension (index l) (range2 1 (List.length l))).
  rewrite IH. destruct l; reflexivity.
Qed.

(** The vertex pairs of line 20: every pair of the flat list, in order, or an
    [IndexError] when a coordinate is left over. *)
Lemma comprehension_pairs {A} (l : list A) :
  comprehension (fun i => let? a := index l i in
                          let? b := index l (i + 1) in
                          Ok (a, b))
                (range2 0 (List.length l))
  = if Nat.even (List.length l)
    then Ok (combine (slice_even l) (slice_odd l))
    else Raise IndexError.
Proof.
  induction l as [|a|a b l IH] using list_ind2; try reflexivity.
  simpl List.length. rewrite range2_step by lia.
  simpl. rewrite comprehension_map.
  change (comprehension
            (fun i => let? a0 := index (a :: b :: l) (S (S i)) in
                      let? b0 := index (a :: b :: l) (S (S i) + 1) in
                      Ok (a0, b0))
            (range2 0 (List.length l)))
    with (comprehension
            (fun i => let? a0 := index l i in
                      let? b0 := index l (i + 1) in
                      Ok (a0, b0))
            (range2 0 (List.length l))).
  rewrite IH. destruct (Nat.even (List.length l)); reflexivity.
Qed.

Lemma slice_lengths {A} (l : list A) :
  Nat.even (List.length l) = true ->
  (2 * List.length (combine (slice_even l) (slice_odd l)) = List.length l)%nat.
Proof.
  induction l as [|a|a b l IH] using list_ind2; intros H; try reflexivity.
  - discriminate.
  - change (slice_even (a :: b :: l)) with (a :: slice_even l).
    change (slice_odd (a :: b :: l)) with (b :: slice_odd l).
    simpl in *. specialize (IH H). lia.
Qed.

(* ================================================================== *)
(** ** Zero-length edges *)
(* ================================================================== *)

Lemma extract_coordinates_polyline (lib : pylib) (entity : Entity) (raw : list float) :
  EntityName entity = "AcDbPolyline" ->
  Coordinates entity = Some raw ->
  extract_coordinates lib entity
  = if Nat.even (List.length raw)
    then ([], Ok (Some (InfoPolyline (stored_ring lib raw))))
    else ([LogError IndexError], Raise IndexError).
Proof.
  intros Hname Hraw. unfold extract_coordinates, extract_body, stored_ring.
  rewrite Hname, Hraw. simpl.
  rewrite comprehension_pairs, length_map.
  destruct (Nat.even (List.length raw)); reflexivity.
Qed.

Lemma narrated_edges_spec (vertices : list (float * float)) (i : nat) :
  In i (narrated_edges vertices)
  <-> exists current_vertex next_vertex,
        nth_error vertices i = Some current_vertex
        /\ nth_error vertices ((i + 1) mod List.length vertices) = Some next_vertex
        /\ is_zero_length current_vertex next_vertex = false.
Proof.
  unfold narrated_edges, narrated. rewrite filter_In, in_seq. split.
  - intros [_ H].
    destruct (nth_error vertices i) as [c|]; [|discriminate].
    destruct (nth_error vertices ((i + 1) mod List.length vertices)) as [n|];
      [|discriminate].
    exists c, n. split; [reflexivity|]. split; [reflexivity|].
    apply negb_true_iff. exact H.
  - intros (c & n & Hc & Hn & Hz). split.
    + assert (i < List.length vertices)%nat
        by (apply nth_error_Some; congruence). lia.
    + rewrite Hc, Hn, Hz. reflexivity.
Qed.

(** What a run of the narrator on a polyline that returns has done. *)
Lemma generate_text_from_polyline_returns (lib : pylib) (entity : Entity)
    (selection_set : selection) (text_inside text_inside_unclean : pyval)
    (w : list event) :
  EntityName entity = "AcDbPolyline" ->
  generate_text_from_polyline lib entity selection_set text_inside text_inside_unclean
  = (w, Ok tt) ->
  exists raw w' descriptions text,
    Coordinates entity = Some raw
    /\ narrate_edges lib entity selection_set (stored_ring lib raw) = (w', Ok descriptions)
    /\ w = (w' ++ [PrintDocument text])%list.
Proof.
  intros Hname H. unfold generate_text_from_polyline in H.
  destruct (Coordinates entity) as [raw|] eqn:Hraw.
  - rewrite (extract_coordinates_polyline lib entity raw Hname Hraw) in H.
    destruct (Nat.even (List.length raw)); [|discriminate].
    apply bind_ok in H. destruct H as (w0 & info & w1 & H0 & H & ->).
    inversion H0; subst. clear H0.
    apply bind_ok in H. destruct H as (w2 & area & w3 & H2 & H & ->).
    apply lift_ok in H2. destruct H2 as [_ ->].
    apply bind_ok in H. destruct H as (w4 & len & w5 & H4 & H & ->).
    apply lift_ok in H4. destruct H4 as [_ ->].
    apply bind_ok in H. destruct H as (w6 & lot & w7 & H6 & H & ->).
    apply lift_ok in H6. destruct H6 as [_ ->].
    apply bind_ok in H. destruct H as (w8 & quad & w9 & H8 & H & ->).
    apply lift_ok in H8. destruct H8 as [_ ->].
    apply bind_ok in H. destruct H as (w' & descriptions & w10 & Hn & H & ->).
    simpl in H. inversion H; subst.
    exists raw, w', descriptions. eexists. split; [reflexivity|].
    split; [exact Hn | reflexivity].
  - unfold extract_coordinates, extract_body in H. rewrite Hname, Hraw in H.
    simpl in H. discriminate.
Qed.

(** C4.  When the narrator returns for a polyline, the sentences it wrote and
    the table rows it printed are those of the edges whose end points are not
    float-equal, one sentence and one row for each, in order: a zero-length
    edge adds neither.  The ring it read holds every vertex of the polyline,
    the repeated ones too. *)
Theorem zero_length_edges_skipped (lib : pylib) (entity : Entity)
    (selection_set : selection) (text_inside text_inside_unclean : pyval)
    (w : list event) :
  EntityName entity = "AcDbPolyline" ->
  generate_text_from_polyline lib entity selection_set text_inside text_inside_unclean
  = (w, Ok tt) ->
  exists raw vertices w' descriptions ctxs,
    Coordinates entity = Some raw
    /\ vertices = stored_ring lib raw
    /\ (2 * List.length vertices = List.length raw)%nat
    /\ narrate_edges lib entity selection_set vertices = (w', Ok descriptions)
    /\ List.length descriptions = List.length (narrated_edges vertices)
    /\ List.length (table_rows w) = List.length (narrated_edges vertices)
    /\ List.length ctxs = List.length (narrated_edges vertices)
    /\ descriptions
       = map (fun ic => render lib (sentence_template (fst ic)) (snd ic))
             (combine (narrated_edges vertices) ctxs)
    /\ table_rows w = map (render lib template_table) ctxs
    /\ (forall i, In i (narrated_edges vertices)
                  <-> exists current_vertex next_vertex,
                        nth_error vertices i = Some current_vertex
                        /\ nth_error vertices ((i + 1) mod List.length vertices)
                           = Some next_vertex
                        /\ is_zero_length current_vertex next_vertex = false).
Proof.
  intros Hname H.
  destruct (generate_text_from_polyline_returns _ _ _ _ _ _ Hname H)
    as (raw & w' & descriptions & text & Hraw & Hn & ->).
  pose proof Hn as Hloop. unfold narrate_edges in Hloop.
  apply edge_loop_returns in Hloop. destruct Hloop as (ctxs & Hlen & Hd & Hrows).
  fold (narrated_edges (stored_ring lib raw)) in Hlen, Hd.
  simpl in Hd.
  exists raw, (stored_ring lib raw), w', descriptions, ctxs.
  split; [exact Hraw|]. split; [reflexivity|]. split.
  { unfold stored_ring. rewrite slice_lengths; [apply length_map|].
    rewrite length_map.
    unfold generate_text_from_polyline in H.
    rewrite (extract_coordinates_polyline lib entity raw Hname Hraw) in H.
    destruct (Nat.even (List.length raw)) eqn:E; [reflexivity | discriminate]. }
  split; [exact Hn|].
  assert (Hrows' : table_rows (w' ++ [PrintDocument text]) = map (render lib template_table) ctxs).
  { rewrite table_rows_app. simpl. rewrite app_nil_r. exact Hrows. }
  split.
  { rewrite Hd, length_map, length_combine, Hlen. apply Nat.min_id. }
  split; [rewrite Hrows', length_map; exact Hlen|].
  split; [exact Hlen|]. split; [exact Hd|]. split; [exact Hrows'|].
  apply narrated_edges_spec.
Qed.

(** Lot A drawn with its first vertex twice: five vertices, four narrated
    edges, four table rows. *)
Lemma zero_length_edges_skipped_witness :
  EntityName lotA' = "AcDbPolyline"
  /\ snd runA' = Ok tt
  /\ narrated_edges ringA' = [1; 2; 3; 4]%nat
  /\ List.length (table_rows (fst runA')) = 4%nat.
Proof.
  assert (Hname : EntityName lotA' = "AcDbPolyline") by reflexivity.
  assert (Hrun : runA' = (fst runA', Ok tt)) by (vm_compute; reflexivity).
  split; [exact Hname|]. split; [vm_compute; reflexivity|].
  split; [vm_compute; reflexivity|].
  destruct (zero_length_edges_skipped lib0 lotA' scene' textA textA (fst runA') Hname Hrun)
    as (raw & vertices & w' & descriptions & ctxs & Hraw & Hv & _ & _ & _ & Hrows & _).
  rewrite Hrows, Hv. inversion Hraw. vm_compute. reflexivity.
Defined.

(* ================================================================== *)
(** ** Opening and continuation sentences *)
(* ================================================================== *)

Lemma continuation_sentences (lib : pylib) (indices : list nat) (ctxs : list context) :
  Forall (fun i => i <> 0%nat) indices ->
  Forall (fun sentence => exists ctx, sentence = render lib template_other ctx)
         (map (fun ic => render lib (sentence_template (fst ic)) (snd ic))
              (combine indices ctxs)).
Proof.
  intros Hpos. apply Forall_forall. intros sentence Hin.
  apply in_map_iff in Hin. destruct Hin as ([i ctx] & <- & Hin).
  apply in_combine_l in Hin. rewrite Forall_forall in Hpos.
  specialize (Hpos i Hin). exists ctx. simpl. unfold sentence_template.
  destruct (Nat.eqb_spec i 0); [contradiction | reflexivity].
Qed.

Lemma narrated_edges_head (vertices : list (float * float)) :
  exists later,
    narrated_edges vertices = ((if narrated vertices 0 then [0%nat] else []) ++ later)%list
    /\ Forall (fun i => i <> 0%nat) later.
Proof.
  unfold narrated_edges. destruct vertices as [|v vs].
  - exists []. split; [reflexivity | constructor].
  - exists (filter (narrated (v :: vs)) (seq 1 (List.length vs))). split.
    + simpl List.length. rewrite <- cons_seq. simpl filter.
      destruct (narrated (v :: vs) 0); reflexivity.
    + apply Forall_forall. intros i Hin. apply filter_In in Hin.
      destruct Hin as [Hin _]. apply in_seq in Hin. lia.
Qed.

(** The sentences of a run of the edge loop that returns: the edge of index
    0, when it is narrated, gives the first sentence, rendered with the opening
    template; every other sentence is rendered with the continuation
    template. *)
Lemma edge_loop_sentences (lib : pylib) (entity : Entity)
    (selection_set : selection) (vertices : list (float * float))
    (w : list event) (descriptions : list string) :
  narrate_edges lib entity selection_set vertices = (w, Ok descriptions) ->
  (narrated vertices 0 = true ->
   exists ctx rest,
     descriptions = render lib template_initial ctx :: rest
     /\ Forall (fun sentence => exists ctx', sentence = render lib template_other ctx') rest)
  /\ (narrated vertices 0 = false ->
      Forall (fun sentence => exists ctx', sentence = render lib template_other ctx')
             descriptions).
Proof.
  intros H. unfold narrate_edges in H. apply edge_loop_returns in H.
  destruct H as (ctxs & Hlen & Hd & _). simpl in Hd.
  fold (narrated_edges vertices) in Hlen, Hd.
  destruct (narrated_edges_head vertices) as (later & Hhead & Hlater).
  rewrite Hhead in Hlen, Hd. split; intros H0; rewrite H0 in Hlen, Hd.
  - destruct ctxs as [|ctx ctxs]; [discriminate|].
    exists ctx. eexists. split; [exact Hd|].
    apply continuation_sentences. exact Hlater.
  - rewrite Hd. apply continuation_sentences. exact Hlater.
Qed.

(** C2 does not hold of the code when the edge of index 0 is of zero length.
    The template is chosen by the test [i == 0] of line 206, which a
    zero-length edge never reaches (line 171): the first edge narrated then has
    an index of 1 or more and is rendered with the continuation template, and
    no sentence of the document is an opening one.  For lot A drawn with its
    first vertex twice, the edges narrated are those of index 1 to 4, the
    first sentence starts with the words of the continuation template, and the
    document printed has no opening sentence anywhere: the position of the
    starting vertex is never named.  On lot A itself, whose edge 0 is narrated,
    the first sentence is an opening one. *)
Theorem opening_sentence_lost_after_zero_length_edge :
  (forall lib entity selection_set vertices w descriptions,
      narrate_edges lib entity selection_set vertices = (w, Ok descriptions) ->
      narrated vertices 0 = false ->
      Forall (fun sentence => exists ctx, sentence = render lib template_other ctx)
             descriptions)
  /\ narrated ringA' 0 = false
  /\ narrated_edges ringA' = [1; 2; 3; 4]%nat
  /\ (exists w sentence rest,
        narrate_edges lib0 lotA' scene' ringA' = (w, Ok (sentence :: rest))
        /\ String.prefix "Deste segue confrontando com " sentence = true
        /\ forall ctx, sentence <> render lib0 template_initial ctx)
  /\ (exists text,
        snd runA' = Ok tt /\ documents (fst runA') = [text]
        /\ contains "Inicia-se a descrição deste perímetro" text = false)
  /\ (exists text,
        snd runA = Ok tt /\ documents (fst runA) = [text]
        /\ contains "Inicia-se a descrição deste perímetro no vértice V1" text = true).
Proof.
  split; [|split; [|split; [|split; [|split]]]].
  - intros lib entity selection_set vertices w descriptions H H0.
    apply (proj2 (edge_loop_sentences lib entity selection_set vertices w descriptions H) H0).
  - vm_compute. reflexivity.
  - vm_compute. reflexivity.
  - eexists. eexists. eexists. split; [vm_compute; reflexivity|].
    split; [vm_compute; reflexivity|].
    intros ctx H. apply (f_equal (fun s => String.prefix "I" s)) in H.
    vm_compute in H. discriminate.
  - eexists. split; [vm_compute; reflexivity|].
    split; [vm_compute; reflexivity | vm_compute; reflexivity].
  - eexists. split; [vm_compute; reflexivity|].
    split; [vm_compute; reflexivity | vm_compute; reflexivity].
Qed.

(* ================================================================== *)
(** ** The adjacency matcher *)
(* ================================================================== *)

Lemma has_vertex_spec (other_vertices : list (float * float)) (p : float * float) :
  has_vertex other_vertices p = true
  <-> exists v, In v other_vertices /\ float_equal_points v p.
Proof.
  unfold has_vertex, float_equal_points. rewrite existsb_exists.
  split; intros [v [Hin H]]; exists v; split; auto.
  - apply andb_true_iff. exact H.
  - apply andb_true_iff. exact H.
Qed.



Lemma find_adjacent_returns (lib : pylib) (entity : Entity) (rest : selection)
    (current_vertex next_vertex : float * float) (w : list event) (r : option Entity) :
  find_adjacent lib entity rest current_vertex next_vertex = (w, Ok r) ->
  match r with
  | Some other =>
      exists before after,
        rest = (before ++ other :: after)%list
        /\ candidate lib entity current_vertex next_vertex other
        /\ forall q, In q before -> ~ candidate lib entity current_vertex next_vertex q
  | None =>
      forall q, In q rest -> ~ candidate lib entity current_vertex next_vertex q
  end.
Proof.
  revert w. induction rest as [|other rest IH]; intros w H; simpl in H.
  - inversion H; subst. intros q [].
  - assert (Hskip : forall w', ~ candidate lib entity current_vertex next_vertex other ->
                    find_adjacent lib entity rest current_vertex next_vertex = (w', Ok r) ->
                    match r with
                    | Some other0 =>
                        exists before after,
                          other :: rest = (before ++ other0 :: after)%list
                          /\ candidate lib entity current_vertex next_vertex other0
                          /\ forall q, In q before ->
                               ~ candidate lib entity current_vertex next_vertex q
                    | None =>
                        forall q, In q (other :: rest) ->
                          ~ candidate lib entity current_vertex next_vertex q
                    end).
    { intros w' Hno Hrest. specialize (IH _ Hrest). destruct r as [found|].
      - destruct IH as (before & after & -> & Hc & Hfirst).
        exists (other :: before), after. split; [reflexivity|]. split; [exact Hc|].
        intros q [<-|Hq]; auto.
      - intros q [<-|Hq]; auto. }
    destruct (String.eqb_spec (Handle other) (Handle entity)) as [Heq|Hneq].
    + apply (Hskip w); [|exact H]. intros [Hh _]. contradiction.
    + apply bind_ok in H. destruct H as (w1 & info & w2 & He & H & ->).
      destruct info as [[vs|? ? ? ? ?|? ?]|];
        try (apply (Hskip w2); [|exact H];
             intros [_ (w' & vs' & He' & _)]; rewrite He in He'; discriminate).
      destruct (has_vertex vs current_vertex) eqn:H1;
        [destruct (has_vertex vs next_vertex) eqn:H2|]; simpl in H.
      * inversion H; subst.
        exists [], rest. split; [reflexivity|]. split; [|intros q []].
        split; [exact Hneq|]. exists w1, vs. split; [exact He|].
        split; apply has_vertex_spec; assumption.
      * apply (Hskip w2); [|exact H].
        intros [_ (w' & vs' & He' & _ & Hn)]. rewrite He in He'. inversion He'; subst.
        apply has_vertex_spec in Hn. congruence.
      * apply (Hskip w2); [|exact H].
        intros [_ (w' & vs' & He' & Hc & _)]. rewrite He in He'. inversion He'; subst.
        apply has_vertex_spec in Hc. congruence.
Qed.

(** The neighbour text of an edge: the label of the polygon found, or the
    sentinel. *)
Lemma describe_edge_adjacent_text (lib : pylib) (entity : Entity)
    (selection_set : selection) (c n : float * float) (cn : string)
    (ce : option float) (nn : string) (ne : option float)
    (w : list event) (ctx : context) :
  describe_edge lib entity selection_set c n cn ce nn ne = (w, Ok ctx) ->
  exists w' adjacent,
    find_adjacent lib entity selection_set c n = (w', Ok adjacent)
    /\ match adjacent with
       | None => lookup "adjacent_text" ctx = Some (VStr "No confrontante found")
       | Some other =>
           exists texts, get_text_inside_polyline lib other selection_set = Ok texts
                         /\ lookup "adjacent_text" ctx = Some (fst texts)
       end.
Proof.
  unfold describe_edge. intros H.
  apply bind_ok in H. destruct H as (w0 & distance & w0' & _ & H & ->).
  apply bind_ok in H. destruct H as (w1 & degrees & w2 & _ & H & ->).
  apply bind_ok in H. destruct H as (w3 & minutes & w4 & _ & H & ->).
  apply bind_ok in H. destruct H as (w5 & adjacent & w6 & Hf & H & ->).
  apply bind_ok in H. destruct H as (w7 & adjacent_text & w8 & Ht & H & ->).
  inversion H; subst. exists w5, adjacent. split; [exact Hf|].
  destruct adjacent as [other|].
  - apply bind_ok in Ht. destruct Ht as (w9 & texts & w10 & Hg & Ht & ->).
    apply lift_ok in Hg. destruct Hg as [Hg ->]. inversion Ht; subst.
    exists texts. split; [exact Hg | reflexivity].
  - inversion Ht; subst. reflexivity.
Qed.

Lemma adjacent_text_sentinel (lib : pylib) (entity : Entity)
    (selection_set : selection) (c n : float * float) (cn : string)
    (ce : option float) (nn : string) (ne : option float)
    (w : list event) (ctx : context) :
  describe_edge lib entity selection_set c n cn ce nn ne = (w, Ok ctx) ->
  (forall q, In q selection_set -> ~ candidate lib entity c n q) ->
  lookup "adjacent_text" ctx = Some (VStr "No confrontante found").
Proof.
  intros Hd Hnone.
  destruct (describe_edge_adjacent_text _ _ _ _ _ _ _ _ _ _ _ Hd)
    as (w' & adjacent & Hf & Ht).
  destruct adjacent as [other|]; [|exact Ht].
  apply find_adjacent_returns in Hf.
  destruct Hf as (before & after & Hsplit & Hc & _).
  elim (Hnone other); [|exact Hc].
  rewrite Hsplit. apply in_or_app. right. left. reflexivity.
Qed.


(* ================================================================== *)
(** ** Which failures abort the run *)
(* ================================================================== *)

Lemma extract_coordinates_unsupported (lib : pylib) (e : Entity) :
  is_supported (EntityName e) = false ->
  extract_coordinates lib e = ([LogWarning (EntityName e)], Ok None).
Proof.
  unfold is_supported, extract_coordinates, extract_body. intros H.
  apply orb_false_iff in H. destruct H as [H H4].
  apply orb_false_iff in H. destruct H as [H H3].
  apply orb_false_iff in H. destruct H as [H1 H2].
  rewrite H1, H2, H3, H4. reflexivity.
Qed.

Lemma extract_coordinates_reraises (lib : pylib) (e : Entity) (w : list event) (ex : exn) :
  extract_body lib e = (w, Raise ex) ->
  extract_coordinates lib e = ((w ++ [LogError ex])%list, Raise ex).
Proof. unfold extract_coordinates. intros ->. reflexivity. Qed.

Lemma for_eachM_raises {S A} (body : S -> A -> M S) (l : list A) (a : A) :
  In a l ->
  (forall s, exists w ex, body s a = (w, Raise ex)) ->
  forall s, exists w ex, for_eachM body l s = (w, Raise ex).
Proof.
  intros Hin Hraise. induction l as [|b l IH]; [contradiction|].
  intros s. simpl. destruct Hin as [->|Hin].
  - destruct (Hraise s) as (w & ex & ->). exists w, ex. reflexivity.
  - destruct (body s b) as [w [s'|ex]]; simpl; [|eauto].
    destruct (IH Hin s') as (w' & ex & ->). eauto.
Qed.

(** A polyline whose extraction raises aborts the whole run. *)
Lemma main_aborts (lib : pylib) (selection_set : selection) (e : Entity)
    (w : list event) (ex : exn) :
  In e selection_set ->
  EntityName e = "AcDbPolyline" ->
  extract_coordinates lib e = (w, Raise ex) ->
  exists w' ex', main lib selection_set = (w', Raise ex').
Proof.
  intros Hin Hname Hraise. unfold main.
  apply for_eachM_raises with (a := e); [exact Hin|].
  intros []. rewrite Hname. simpl.
  destruct (get_text_inside_polyline lib e selection_set) as [texts|ex0] eqn:G.
  - unfold lift, bind, generate_text_from_polyline. rewrite Hraise. simpl. eauto.
  - unfold lift, bind. eauto.
Qed.

(** The resolver returns its sentinel, and does not raise, when no survey
    point is within the tolerance. *)
Lemma get_vertex_name_miss (lib : pylib) (entity : Entity) (selection_set : selection)
    (vertex : float * float) (tolerance : float) :
  (forall q, In q selection_set ->
             contains "cogopoint" (lower (EntityName q)) = true ->
             exists easting northing,
               Easting q = Some easting /\ Northing q = Some northing
               /\ is_point_close lib (easting, northing) vertex tolerance = Ok false) ->
  get_vertex_name lib entity selection_set vertex tolerance
  = ([PrintNoMatch ("No matching CogoPoint found for vertex: "
                    ++ str lib (VPair (fst vertex) (snd vertex)))%string],
     Ok ("Vertex not found", None)).
Proof.
  intros Hfar. unfold get_vertex_name.
  assert (Hloop : forall rest,
             (forall q, In q rest -> In q selection_set) ->
             get_vertex_name_loop lib
               (cogopoint_names_of (get_all_entity_names selection_set))
               rest vertex tolerance = Ok None).
  { induction rest as [|q rest IH]; intros Hsub; [reflexivity|]. simpl.
    rewrite (cogopoint_names_mem selection_set q) by (apply Hsub; left; reflexivity).
    destruct (contains "cogopoint" (lower (EntityName q))) eqn:C.
    - destruct (Hfar q (Hsub q (or_introl eq_refl)) C) as (e & n & -> & -> & Hclose).
      simpl. rewrite Hclose. apply IH. intros q' Hq'. apply Hsub. right. exact Hq'.
    - apply IH. intros q' Hq'. apply Hsub. right. exact Hq'. }
  rewrite Hloop by auto. reflexivity.
Qed.

(** The search for a neighbour returns nothing, and does not raise, when the
    entities it normalises are extracted and none is a candidate. *)
Lemma find_adjacent_miss (lib : pylib) (entity : Entity) (selection_set : selection)
    (current_vertex next_vertex : float * float) :
  (forall q, In q selection_set -> Handle q <> Handle entity ->
             exists w info, extract_coordinates lib q = (w, Ok info)) ->
  (forall q, In q selection_set ->
             ~ candidate lib entity current_vertex next_vertex q) ->
  exists w, find_adjacent lib entity selection_set current_vertex next_vertex
            = (w, Ok None).
Proof.
  induction selection_set as [|q rest IH]; intros Hex Hnone; simpl.
  - exists []. reflexivity.
  - assert (IH' : exists w, find_adjacent lib entity rest current_vertex next_vertex
                            = (w, Ok None)).
    { apply IH; intros q' Hq'; [apply Hex | apply Hnone]; right; exact Hq'. }
    destruct (String.eqb_spec (Handle q) (Handle entity)) as [Heq|Hneq]; [exact IH'|].
    destruct (Hex q (or_introl eq_refl) Hneq) as (w1 & info & He). rewrite He.
    destruct IH' as (w2 & IH').
    assert (Hgo : exists w, bind (w1, Ok info)
                    (fun _ => find_adjacent lib entity rest current_vertex next_vertex)
                    = (w, Ok None)).
    { simpl. rewrite IH'. eauto. }
    destruct info as [[vs|? ? ? ? ?|? ?]|]; try exact Hgo.
    simpl. destruct (has_vertex vs current_vertex) eqn:H1;
      [destruct (has_vertex vs next_vertex) eqn:H2|]; simpl;
      try (rewrite IH'; eauto).
    elim (Hnone q (or_introl eq_refl)). split; [exact Hneq|].
    exists w1, vs. split; [exact He|]. split; apply has_vertex_spec; assumption.
Qed.

(** C9, as the code has it.  An entity of an unrecognised class is normalised
    to nothing, with a warning in the log and no exception, and it is no
    candidate of any edge.  An exception raised while the data of an entity is
    extracted is logged and raised again, and when the entity is a polyline of
    the selection set the whole run ends with an exception.  A vertex for
    which the test of line 109 returns false on every survey point, and an
    edge without neighbour, do not raise: the resolver returns the sentinel
    "Vertex not found" with no elevation, the search for a neighbour returns
    nothing and the neighbour text is "No confrontante found".  The drawing
    [scene], with a line and vertices without survey point, is narrated to the
    end; the drawing [broken_scene] is not. *)
Theorem error_policy (lib : pylib) :
  (forall e, is_supported (EntityName e) = false ->
             extract_coordinates lib e = ([LogWarning (EntityName e)], Ok None)
             /\ forall entity c n, ~ candidate lib entity c n e)
  /\ (forall e w ex, extract_body lib e = (w, Raise ex) ->
                     extract_coordinates lib e = ((w ++ [LogError ex])%list, Raise ex))
  /\ (forall selection_set e w ex,
        In e selection_set -> EntityName e = "AcDbPolyline" ->
        extract_coordinates lib e = (w, Raise ex) ->
        exists w' ex', main lib selection_set = (w', Raise ex'))
  /\ (forall entity selection_set vertex tolerance,
        (forall q, In q selection_set ->
                   contains "cogopoint" (lower (EntityName q)) = true ->
                   exists easting northing,
                     Easting q = Some easting /\ Northing q = Some northing
                     /\ is_point_close lib (easting, northing) vertex tolerance = Ok false) ->
        snd (get_vertex_name lib entity selection_set vertex tolerance)
        = Ok ("Vertex not found", None))
  /\ (forall entity selection_set c n,
        (forall q, In q selection_set -> Handle q <> Handle entity ->
                   exists w info, extract_coordinates lib q = (w, Ok info)) ->
        (forall q, In q selection_set -> ~ candidate lib entity c n q) ->
        snd (find_adjacent lib entity selection_set c n) = Ok None)
  /\ (forall entity selection_set c n cn ce nn ne w ctx,
        describe_edge lib entity selection_set c n cn ce nn ne = (w, Ok ctx) ->
        (forall q, In q selection_set -> ~ candidate lib entity c n q) ->
        lookup "adjacent_text" ctx = Some (VStr "No confrontante found"))
  /\ (snd (main lib0 scene) = Ok tt
      /\ In (LogWarning "AcDbLine") (fst (main lib0 scene))
      /\ List.length (documents (fst (main lib0 scene))) = 2%nat)
  /\ (snd (main lib0 broken_scene) = Raise IndexError
      /\ In (LogError IndexError) (fst (main lib0 broken_scene))
      /\ documents (fst (main lib0 broken_scene)) = []).
Proof.
  split; [|split; [|split; [|split; [|split; [|split; [|split]]]]]].
  - intros e H. pose proof (extract_coordinates_unsupported lib e H) as He.
    split; [exact He|].
    intros entity c n [_ (w & vs & He' & _)]. rewrite He in He'. discriminate.
  - apply extract_coordinates_reraises.
  - apply main_aborts.
  - intros entity selection_set vertex tolerance H.
    rewrite (get_vertex_name_miss lib entity selection_set vertex tolerance H).
    reflexivity.
  - intros entity selection_set c n Hex Hnone.
    destruct (find_adjacent_miss lib entity selection_set c n Hex Hnone) as (w & ->).
    reflexivity.
  - apply adjacent_text_sentinel.
  - split; [vm_compute; reflexivity|]. split; [vm_compute; tauto | vm_compute; reflexivity].
  - split; [vm_compute; reflexivity|]. split; [vm_compute; tauto | vm_compute; reflexivity].
Qed.

(** C9, as the claim words it, fails on a survey point too far from the vertex
    for the square of line 13: no survey point matches the vertex (0, 0), yet
    the resolver does not return its sentinel, it raises an [OverflowError],
    and the run of the script ends with it before any document is printed. *)
Lemma far_survey_point_aborts :
  pow2 lib0 (1e200 - 0) = Raise OverflowError
  /\ get_vertex_name lib0 lotA [cogo "P" 1e200 0 7.5 (VInt 9)] (0, 0)%float 0.001%float
     = ([], Raise OverflowError)
  /\ snd (main lib0 [lotA; labelA; cogo "P" 1e200 0 7.5 (VInt 9)]) = Raise OverflowError
  /\ documents (fst (main lib0 [lotA; labelA; cogo "P" 1e200 0 7.5 (VInt 9)])) = [].
Proof. repeat split; vm_compute; reflexivity. Qed.

(* ================================================================== *)
(** ** Order on the floats *)
(* ================================================================== *)

Lemma SFcompare_antisym (x y : spec_float) :
  SFcompare y x = option_map CompOpp (SFcompare x y).
Proof.
  destruct x as [sx|sx| |sx mx ex], y as [sy|sy| |sy my ey]; simpl;
    try reflexivity;
    try (destruct sx; reflexivity); try (destruct sy; reflexivity);
    try (destruct sx, sy; reflexivity).
  change (Pos.compare_cont Eq mx my) with (Pos.compare mx my).
  change (Pos.compare_cont Eq my mx) with (Pos.compare my mx).
  rewrite (Z.compare_antisym ex ey), (Pos.compare_antisym mx my).
  destruct sx, sy; try reflexivity;
    destruct (ex ?= ey)%Z; simpl; try reflexivity;
    destruct (mx ?= my)%positive; reflexivity.
Qed.

Lemma SFcompare_lt_trans (x y z : spec_float) :
  SFcompare x y = Some Lt -> SFcompare y z = Some Lt -> SFcompare x z = Some Lt.
Proof.
  destruct x as [sx|sx| |sx mx ex], y as [sy|sy| |sy my ey], z as [sz|sz| |sz mz ez];
    simpl; try discriminate;
    try (destruct sx; simpl; try discriminate);
    try (destruct sy; simpl; try discriminate);
    try (destruct sz; simpl; try discriminate);
    try reflexivity; try (intros; assumption).
  - change (Pos.compare_cont Eq mx my) with (Pos.compare mx my).
    change (Pos.compare_cont Eq my mz) with (Pos.compare my mz).
    change (Pos.compare_cont Eq mx mz) with (Pos.compare mx mz).
    destruct (Z.compare_spec ex ey), (Z.compare_spec ey ez), (Z.compare_spec ex ez);
      try discriminate; try lia; try reflexivity; subst;
      destruct (Pos.compare_spec mx my), (Pos.compare_spec my mz),
               (Pos.compare_spec mx mz);
      simpl; try discriminate; try lia; reflexivity.
  - change (Pos.compare_cont Eq mx my) with (Pos.compare mx my).
    change (Pos.compare_cont Eq my mz) with (Pos.compare my mz).
    change (Pos.compare_cont Eq mx mz) with (Pos.compare mx mz).
    destruct (Z.compare_spec ex ey), (Z.compare_spec ey ez), (Z.compare_spec ex ez);
      try discriminate; try lia; try reflexivity; subst;
      destruct (Pos.compare_spec mx my), (Pos.compare_spec my mz),
               (Pos.compare_spec mx mz);
      simpl; try discriminate; try lia; reflexivity.
Qed.


Lemma ltb_asym (a b : float) :
  (a <? b)%float = true -> (b <? a)%float = false.
Proof.
  rewrite !ltb_spec. unfold SFltb.
  rewrite (SFcompare_antisym (Prim2SF a) (Prim2SF b)).
  destruct (SFcompare (Prim2SF a) (Prim2SF b)) as [[| |]|]; simpl; congruence.
Qed.

Lemma ltb_not_leb (a b : float) :
  (a <? b)%float = true -> (b <=? a)%float = false.
Proof.
  rewrite ltb_spec, leb_spec. unfold SFltb, SFleb.
  rewrite (SFcompare_antisym (Prim2SF a) (Prim2SF b)).
  destruct (SFcompare (Prim2SF a) (Prim2SF b)) as [[| |]|]; simpl; congruence.
Qed.

Lemma eqb_not_ltb (a b : float) :
  (a =? b)%float = true -> (a <? b)%float = false /\ (b <? a)%float = false.
Proof.
  rewrite eqb_spec, !ltb_spec. unfold SFeqb, SFltb.
  rewrite (SFcompare_antisym (Prim2SF a) (Prim2SF b)).
  destruct (SFcompare (Prim2SF a) (Prim2SF b)) as [[| |]|]; simpl; auto; discriminate.
Qed.

(* ================================================================== *)
(** ** The difference of two floats *)
(* ================================================================== *)

(** Binary64 has gradual underflow: rounding a non-zero difference of two
    floats never gives a zero.  The proof follows the specification of the
    operations in [SpecFloat], to which [FloatAxioms] relates the primitive
    ones. *)

Local Open Scope Z_scope.

Lemma digits2_pos_size (p : positive) : digits2_pos p = Pos.size p.
Proof. induction p; simpl; congruence. Qed.

Lemma digits2_pos_lower (p : positive) : 2 ^ (Zpos (digits2_pos p) - 1) <= Zpos p.
Proof.
  rewrite digits2_pos_size.
  pose proof (Pos.size_le p) as H.
  assert (H' : 2 ^ Zpos (Pos.size p) <= 2 * Zpos p).
  { change (2 * Zpos p) with (Zpos (p~0)). rewrite <- Pos2Z.inj_pow. apply Pos2Z.pos_le_pos. exact H. }
  replace (Zpos (Pos.size p)) with (Z.succ (Zpos (Pos.size p) - 1)) in H' by lia.
  rewrite Z.pow_succ_r in H' by lia. lia.
Qed.

Lemma shr_1_lower (mrs : shr_record) (k : Z) :
  1 <= k -> 2 ^ k <= shr_m mrs -> 2 ^ (k - 1) <= shr_m (shr_1 mrs).
Proof.
  intros Hk H.
  assert (Hpos : 0 < 2 ^ k) by (apply Z.pow_pos_nonneg; lia).
  assert (E : shr_m (shr_1 mrs) = Z.div2 (shr_m mrs)).
  { destruct mrs as [m r s]. simpl in *. destruct m as [|p|p]; [reflexivity| |lia].
    destruct p; reflexivity. }
  rewrite E, Z.div2_div. apply Z.div_le_lower_bound; [lia|].
  replace k with (Z.succ (k - 1)) in H by lia.
  rewrite Z.pow_succ_r in H by lia. exact H.
Qed.

Lemma iter_pos_shr_lower (n : positive) :
  forall mrs k, Zpos n <= k -> 2 ^ k <= shr_m mrs ->
    2 ^ (k - Zpos n) <= shr_m (iter_pos shr_1 n mrs).
Proof.
  induction n as [n IH|n IH|]; intros mrs k Hk H; simpl.
  - replace (k - Zpos n~1) with (k - 1 - Zpos n - Zpos n) by lia.
    apply IH; [lia|]. apply IH; [lia|]. apply shr_1_lower; [lia | exact H].
  - replace (k - Zpos n~0) with (k - Zpos n - Zpos n) by lia.
    apply IH; [lia|]. apply IH; [lia | exact H].
  - apply shr_1_lower; [lia | exact H].
Qed.

Lemma shr_record_of_loc_m (m : Z) (l : location) : shr_m (shr_record_of_loc m l) = m.
Proof. destruct l as [|[| |]]; reflexivity. Qed.

(** Rounding to the format never shifts a positive mantissa away. *)
Lemma shr_fexp_positive (m : positive) (e : Z) (l : location) :
  emin64 <= e ->
  0 < shr_m (fst (shr_fexp prec emax (Zpos m) e l))
  /\ emin64 <= snd (shr_fexp prec emax (Zpos m) e l).
Proof.
  intros He. unfold shr_fexp, shr, fexp. simpl Zdigits2.
  change (SpecFloat.emin prec emax) with emin64. change prec with 53.
  destruct (Z.max (Zpos (digits2_pos m) + e - 53) emin64 - e) as [|n|n] eqn:En; simpl;
    rewrite ?shr_record_of_loc_m; try (split; lia).
  assert (Hn : Zpos n = Zpos (digits2_pos m) - 53) by lia.
  split; [|lia].
  assert (H : 2 ^ (Zpos (digits2_pos m) - 1 - Zpos n)
              <= shr_m (iter_pos shr_1 n (shr_record_of_loc (Zpos m) l))).
  { apply iter_pos_shr_lower; [lia|]. rewrite shr_record_of_loc_m. apply digits2_pos_lower. }
  assert (0 < 2 ^ (Zpos (digits2_pos m) - 1 - Zpos n)) by (apply Z.pow_pos_nonneg; lia).
  lia.
Qed.

Lemma binary_round_aux_not_zero (s : bool) (m : positive) (e : Z) (l : location) (s' : bool) :
  emin64 <= e ->
  binary_round_aux prec emax s (Zpos m) e l <> S754_zero s'.
Proof.
  intros He. unfold binary_round_aux.
  destruct (shr_fexp prec emax (Zpos m) e l) as [mrs' e'] eqn:E1.
  pose proof (shr_fexp_positive m e l He) as [H1 H1e]. rewrite E1 in H1, H1e. simpl in H1, H1e.
  assert (H2 : 0 < round_nearest_even (shr_m mrs') (loc_of_shr_record mrs')).
  { unfold round_nearest_even. destruct (loc_of_shr_record mrs') as [|[| |]]; try lia.
    destruct (Z.even (shr_m mrs')); lia. }
  destruct (round_nearest_even (shr_m mrs') (loc_of_shr_record mrs')) as [|m2|m2]; try lia.
  destruct (shr_fexp prec emax (Zpos m2) e' loc_Exact) as [mrs'' e''] eqn:E2.
  pose proof (shr_fexp_positive m2 e' loc_Exact H1e) as [H3 _]. rewrite E2 in H3. simpl in H3.
  destruct (shr_m mrs'') as [|m3|m3]; try lia.
  destruct (e'' <=? emax - prec); discriminate.
Qed.

Lemma binary_round_not_zero (s : bool) (m : positive) (e : Z) (s' : bool) :
  emin64 <= e ->
  binary_round prec emax s m e <> S754_zero s'.
Proof.
  intros He. unfold binary_round.
  destruct (shl_align m e (fexp prec emax (Zpos (digits2_pos m) + e))) as [mz ez] eqn:E.
  apply binary_round_aux_not_zero.
  unfold shl_align in E.
  assert (Hf : emin64 <= fexp prec emax (Zpos (digits2_pos m) + e)).
  { unfold fexp. change (SpecFloat.emin prec emax) with emin64. lia. }
  destruct (fexp prec emax (Zpos (digits2_pos m) + e) - e);
    injection E as _ <-; (exact He || exact Hf).
Qed.

Lemma Pos_iter_xO (m k : positive) :
  Zpos (Pos.iter xO m k) = Zpos m * 2 ^ Zpos k
  /\ Zpos (digits2_pos (Pos.iter xO m k)) = Zpos (digits2_pos m) + Zpos k.
Proof.
  induction k as [|k [IH1 IH2]] using Pos.peano_ind.
  - simpl. split; lia.
  - rewrite Pos.iter_succ.
    change (digits2_pos (Pos.iter xO m k)~0) with (Pos.succ (digits2_pos (Pos.iter xO m k))).
    rewrite Pos2Z.inj_xO, IH1, !Pos2Z.inj_succ, IH2, Z.pow_succ_r by lia. split; lia.
Qed.

(** The mantissa aligned to a lower exponent, and its number of digits. *)
Lemma shl_align_spec (m : positive) (e e' : Z) :
  e' <= e ->
  Zpos (fst (shl_align m e e')) = Zpos m * 2 ^ (e - e')
  /\ Zpos (digits2_pos (fst (shl_align m e e'))) = Zpos (digits2_pos m) + (e - e').
Proof.
  intros H. unfold shl_align.
  destruct (e' - e) as [|d|d] eqn:E; simpl fst.
  - replace (e - e') with 0 by lia. rewrite Z.pow_0_r. split; lia.
  - lia.
  - replace (e - e') with (Zpos d) by lia. apply Pos_iter_xO.
Qed.

Lemma canonical_emin (m : positive) (e : Z) :
  canonical_mantissa prec emax m e = true -> emin64 <= e.
Proof.
  unfold canonical_mantissa, fexp. change (SpecFloat.emin prec emax) with emin64.
  intros H. apply Z.eqb_eq in H. lia.
Qed.

(** Two canonical mantissas with the same aligned value are the same. *)
Lemma aligned_mantissas_equal (mx my : positive) (ex ey : Z) :
  canonical_mantissa prec emax mx ex = true ->
  canonical_mantissa prec emax my ey = true ->
  Zpos (fst (shl_align mx ex (Z.min ex ey))) = Zpos (fst (shl_align my ey (Z.min ex ey))) ->
  ex = ey /\ mx = my.
Proof.
  intros Hx Hy H.
  destruct (shl_align_spec mx ex (Z.min ex ey)) as [Vx Dx]; [lia|].
  destruct (shl_align_spec my ey (Z.min ex ey)) as [Vy Dy]; [lia|].
  assert (D : Zpos (digits2_pos mx) + ex = Zpos (digits2_pos my) + ey).
  { assert (Zpos (digits2_pos (fst (shl_align mx ex (Z.min ex ey))))
            = Zpos (digits2_pos (fst (shl_align my ey (Z.min ex ey))))) by congruence.
    lia. }
  unfold canonical_mantissa in Hx, Hy. apply Z.eqb_eq in Hx, Hy.
  rewrite D in Hx. assert (E : ex = ey) by congruence. subst ey. split; [reflexivity|].
  rewrite Z.min_id in Vx, Vy, H. rewrite Vx, Vy, Z.sub_diag, Z.pow_0_r in H. lia.
Qed.

(** The difference of two floats that are not equal is not a zero. *)
Lemma SFsub_not_zero (x y : spec_float) :
  valid_binary x = true -> valid_binary y = true ->
  SFeqb x y = false ->
  SFeqb (SF64sub x y) (S754_zero false) = false.
Proof.
  intros Vx Vy Hne.
  destruct x as [sx|sx| |sx mx ex], y as [sy|sy| |sy my ey];
    try (destruct sx, sy; reflexivity); try (destruct sx; reflexivity);
    try (destruct sy; reflexivity); try reflexivity.
  - destruct sx, sy; discriminate.
  - simpl in Vx, Vy. apply andb_true_iff in Vx, Vy.
    destruct Vx as [Cx _], Vy as [Cy _].
    unfold SF64sub, SFsub.
    set (ax := fst (shl_align mx ex (Z.min ex ey))).
    set (ay := fst (shl_align my ey (Z.min ex ey))).
    assert (Hd : cond_Zopp sx (Zpos ax) - cond_Zopp sy (Zpos ay) <> 0).
    { intros Hd. 
      assert (sx = sy /\ Zpos ax = Zpos ay) as [Hs Ha]
        by (unfold cond_Zopp in Hd; destruct sx, sy; split;
            try reflexivity; try lia; exfalso; lia).
      destruct (aligned_mantissas_equal mx my ex ey Cx Cy Ha) as [-> ->].
      subst sy. unfold SFeqb, SFcompare in Hne.
      rewrite Z.compare_refl in Hne.
      change (Pos.compare_cont Eq my my) with (Pos.compare my my) in Hne.
      rewrite Pos.compare_refl in Hne. destruct sx; discriminate. }
    assert (He : emin64 <= Z.min ex ey).
    { pose proof (canonical_emin mx ex Cx). pose proof (canonical_emin my ey Cy). lia. }
    unfold binary_normalize.
    destruct (cond_Zopp sx (Zpos ax) - cond_Zopp sy (Zpos ay)) as [|d|d]; [congruence| |].
    + pose proof (binary_round_not_zero false d (Z.min ex ey)) as H.
      destruct (binary_round prec emax false d (Z.min ex ey)) as [s| | |]; try reflexivity.
      * elim (H s He). reflexivity.
      * destruct s; reflexivity.
      * destruct s; reflexivity.
    + pose proof (binary_round_not_zero true d (Z.min ex ey)) as H.
      destruct (binary_round prec emax true d (Z.min ex ey)) as [s| | |]; try reflexivity.
      * elim (H s He). reflexivity.
      * destruct s; reflexivity.
      * destruct s; reflexivity.
Qed.

Lemma sub_not_zero (a b : float) :
  (a =? b)%float = false -> (a - b =? 0)%float = false.
Proof.
  rewrite !eqb_spec, sub_spec. intros H.
  change (Prim2SF 0) with (S754_zero false).
  apply SFsub_not_zero; auto using Prim2SF_valid.
Qed.

Local Close Scope Z_scope.

(* ================================================================== *)
(** ** The point-in-polygon tester *)
(* ================================================================== *)

Lemma eqb_sym (a b : float) : (a =? b)%float = (b =? a)%float.
Proof.
  rewrite !eqb_spec. unfold SFeqb.
  rewrite (SFcompare_antisym (Prim2SF a) (Prim2SF b)).
  destruct (SFcompare (Prim2SF a) (Prim2SF b)) as [[| |]|]; reflexivity.
Qed.

(** Line 51 under its guard: the division does not raise. *)
Lemma guarded_division (a p1y p2y : float) :
  ne p1y p2y = true ->
  py_div a (p2y - p1y)%float = Ok (a / (p2y - p1y))%float.
Proof.
  unfold ne, py_div. intros H. apply negb_true_iff in H.
  rewrite eqb_sym in H. rewrite (sub_not_zero _ _ H). reflexivity.
Qed.

(** The tests of lines 47-48 fail together on a horizontal edge. *)
Lemma horizontal_edge_guards (y p1y p2y : float) :
  (p1y =? p2y)%float = true ->
  (py_min p1y p2y <? y)%float && (y <=? py_max p1y p2y)%float = false.
Proof.
  intros H. destruct (eqb_not_ltb _ _ H) as [H1 H2].
  unfold py_min, py_max. rewrite H1, H2.
  destruct (p1y <? y)%float eqn:L; [|reflexivity].
  rewrite (ltb_not_leb _ _ L). reflexivity.
Qed.

Lemma pip_step_horizontal (x y : float) (st : pip_state) (p2 : float * float) :
  (p1y st =? snd p2)%float = true ->
  pip_step x y st p2 = Ok (PipState (inside st) (fst p2) (snd p2) (xinters st)).
Proof.
  destruct p2 as [p2x p2y]. simpl. intros H.
  pose proof (horizontal_edge_guards y _ _ H) as G.
  unfold pip_step.
  destruct (py_min (p1y st) p2y <? y)%float; [|reflexivity].
  simpl in G. rewrite G. reflexivity.
Qed.

(** An iteration never raises: the divisor of line 51 is not zero, and
    [xinters] is bound whenever line 52 reads it. *)
Lemma pip_step_returns (x y : float) (st : pip_state) (p2 : float * float) :
  exists inside' xinters',
    pip_step x y st p2 = Ok (PipState inside' (fst p2) (snd p2) xinters').
Proof.
  destruct (p1y st =? snd p2)%float eqn:E.
  - rewrite (pip_step_horizontal x y st p2 E). eauto.
  - destruct p2 as [p2x p2y]. simpl in *. unfold pip_step.
    destruct (py_min (p1y st) p2y <? y)%float; [|simpl; eauto].
    destruct (y <=? py_max (p1y st) p2y)%float; [|simpl; eauto].
    destruct (x <=? py_max (p1x st) p2x)%float; [|simpl; eauto].
    assert (N : ne (p1y st) p2y = true) by (unfold ne; rewrite E; reflexivity).
    rewrite N, (guarded_division _ _ _ N). simpl.
    destruct (p1x st =? p2x)%float; simpl; eauto.
Qed.

Lemma comprehension_app {A B} (f : A -> result B) (l1 l2 : list A) :
  comprehension f (l1 ++ l2)
  = let? a := comprehension f l1 in
    let? b := comprehension f l2 in
    Ok (a ++ b)%list.
Proof.
  induction l1 as [|a l1 IH]; simpl.
  - destruct (comprehension f l2); reflexivity.
  - destruct (f a); simpl; [|reflexivity]. rewrite IH.
    destruct (comprehension f l1); simpl; [|reflexivity].
    destruct (comprehension f l2); reflexivity.
Qed.

Lemma comprehension_ext_in {A B} (f g : A -> result B) (l : list A) :
  (forall a, In a l -> f a = g a) -> comprehension f l = comprehension g l.
Proof.
  induction l as [|a l IH]; intros H; simpl; [reflexivity|].
  rewrite (H a (or_introl eq_refl)), IH; [reflexivity|].
  intros b Hb. apply H. right. exact Hb.
Qed.

Lemma comprehension_index_seq {A} (l : list A) :
  comprehension (index l) (seq 0 (List.length l)) = Ok l.
Proof.
  induction l as [|a l IH]; [reflexivity|].
  simpl List.length. rewrite <- cons_seq, <- seq_shift. simpl.
  rewrite comprehension_map.
  change (comprehension (fun i => index (a :: l) (S i)) (seq 0 (List.length l)))
    with (comprehension (index l) (seq 0 (List.length l))).
  rewrite IH. reflexivity.
Qed.

(** The vertices the loop of line 45 visits: the ring, then its first vertex
    again. *)
Lemma visited_vertices {A} (v0 : A) (vs : list A) :
  comprehension (fun i => index (v0 :: vs) (i mod List.length (v0 :: vs)))
                (seq 0 (List.length (v0 :: vs) + 1))
  = Ok ((v0 :: vs) ++ [v0])%list.
Proof.
  set (ring := v0 :: vs). set (n := List.length ring).
  assert (Hlast : comprehension (fun i => index ring (i mod n)) (seq (0 + n) 1)
                  = Ok [v0]).
  { cbn [seq comprehension]. rewrite Nat.add_0_l, Nat.Div0.mod_same. reflexivity. }
  rewrite seq_app, comprehension_app, Hlast.
  rewrite (comprehension_ext_in _ (index ring)).
  - unfold n. rewrite comprehension_index_seq. reflexivity.
  - intros i Hi. apply in_seq in Hi. rewrite Nat.mod_small by lia. reflexivity.
Qed.

Lemma for_each_lookup {S A B} (f : A -> result B) (body : S -> B -> result S)
    (l : list A) :
  forall (ps : list B) (s : S),
    comprehension f l = Ok ps ->
    for_each (fun st a => let? p := f a in body st p) l s = for_each body ps s.
Proof.
  induction l as [|a l IH]; intros ps s H; simpl in H.
  - inversion H. reflexivity.
  - apply rbind_ok in H. destruct H as (b & Hb & H).
    apply rbind_ok in H. destruct H as (bs & Hbs & H). inversion H; subst.
    simpl. rewrite Hb. simpl. destruct (body s b) as [s'|e]; simpl; [|reflexivity].
    apply IH. exact Hbs.
Qed.

Lemma for_each_app {S A} (body : S -> A -> result S) (l1 l2 : list A) (s : S) :
  for_each body (l1 ++ l2) s = let? s' := for_each body l1 s in for_each body l2 s'.
Proof.
  revert s. induction l1 as [|a l1 IH]; intros s; simpl; [reflexivity|].
  destruct (body s a); simpl; [apply IH | reflexivity].
Qed.

Lemma last_cons_default {A} (l : list A) :
  forall (a d d' : A), last (a :: l) d = last (a :: l) d'.
Proof.
  induction l as [|b l IH]; intros a d d'; [reflexivity|].
  change (last (b :: l) d = last (b :: l) d'). apply IH.
Qed.

(** Running the iterations over a list of vertices returns, and leaves the
    last vertex in [p1x], [p1y]. *)
Lemma pip_loop_returns (x y : float) (vs : list (float * float)) :
  forall st, exists st',
    for_each (pip_step x y) vs st = Ok st'
    /\ (p1x st', p1y st') = last vs (p1x st, p1y st).
Proof.
  induction vs as [|v vs IH]; intros st; simpl.
  - exists st. split; reflexivity.
  - destruct (pip_step_returns x y st v) as (i' & xi' & ->). simpl.
    destruct (IH (PipState i' (fst v) (snd v) xi')) as (st' & Hrun & Hlast).
    exists st'. split; [exact Hrun|]. rewrite Hlast. cbn [p1x p1y].
    destruct vs as [|v' vs]; [destruct v; reflexivity|].
    change (last (v :: v' :: vs) (p1x st, p1y st))
      with (last (v' :: vs) (p1x st, p1y st)).
    apply last_cons_default.
Qed.

(** The tester as a loop over the visited vertices. *)
Lemma is_point_in_polygon_unrolled (x y : float) (polygon : list float)
    (v0 : float * float) (vs : list (float * float)) :
  combine (slice_even polygon) (slice_odd polygon) = v0 :: vs ->
  is_point_in_polygon [x; y] polygon
  = let? st := for_each (pip_step x y) ((v0 :: vs) ++ [v0])
                        (PipState false (fst v0) (snd v0) None) in
    Ok (inside st).
Proof.
  intros Hring. unfold is_point_in_polygon. rewrite Hring. cbv zeta.
  change (index (v0 :: vs) 0) with (Ok v0). unfold rbind at 1. cbv beta iota.
  rewrite (for_each_lookup _ _ _ _ _ (visited_vertices v0 vs)). reflexivity.
Qed.

(** C5.  An iteration on a horizontal edge ([p1y == p2y]) leaves [inside] as
    it was, and assigns nothing to [xinters].  The division of line 51, under its guard [p1y != p2y], has a
    divisor that is not zero.  No iteration raises, whatever the state: not a
    [ZeroDivisionError], and not an [UnboundLocalError] for [xinters] either.
    The loop ends with an iteration on the edge from the last vertex of the ring
    back to the first, and the result is [inside] after that iteration.  For
    the point (-5, 5), left of the square, that last edge is the one that
    turns [inside] back to false. *)
Theorem point_in_polygon_edges :
  (forall x y st p2,
      (p1y st =? snd p2)%float = true ->
      exists st', pip_step x y st p2 = Ok st'
                  /\ inside st' = inside st /\ xinters st' = xinters st)
  /\ (forall a p1y p2y,
        ne p1y p2y = true ->
        (p2y - p1y =? 0)%float = false
        /\ py_div a (p2y - p1y)%float = Ok (a / (p2y - p1y))%float)
  /\ (forall x y st p2, exists st', pip_step x y st p2 = Ok st')
  /\ (forall x y polygon v0 vs,
        combine (slice_even polygon) (slice_odd polygon) = v0 :: vs ->
        exists st st',
          for_each (pip_step x y) (v0 :: vs) (PipState false (fst v0) (snd v0) None)
          = Ok st
          /\ (p1x st, p1y st) = last (v0 :: vs) v0
          /\ pip_step x y st v0 = Ok st'
          /\ is_point_in_polygon [x; y] polygon = Ok (inside st'))
  /\ (is_point_in_polygon [-5; 5]%float [0;0; 10;0; 10;10; 0;10]%float = Ok false
      /\ exists st,
           for_each (pip_step (-5) 5) ringA (PipState false 0 0 None) = Ok st
           /\ inside st = true).
Proof.
  split; [|split; [|split; [|split]]].
  - intros x y st p2 H. rewrite (pip_step_horizontal x y st p2 H).
    eexists. split; [reflexivity|]. split; reflexivity.
  - intros a p1y p2y H. split; [|apply guarded_division; exact H].
    unfold ne in H. apply negb_true_iff in H. rewrite eqb_sym in H.
    apply sub_not_zero. exact H.
  - intros x y st p2. destruct (pip_step_returns x y st p2) as (i' & xi' & ->). eauto.
  - intros x y polygon v0 vs Hring.
    rewrite (is_point_in_polygon_unrolled x y polygon v0 vs Hring), for_each_app.
    destruct (pip_loop_returns x y (v0 :: vs) (PipState false (fst v0) (snd v0) None))
      as (st & Hrun & Hlast).
    destruct (pip_step_returns x y st v0) as (i' & xi' & Hstep).
    exists st. eexists. split; [exact Hrun|]. split.
    + rewrite Hlast. apply last_cons_default.
    + split; [exact Hstep|]. rewrite Hrun. simpl. rewrite Hstep. reflexivity.
  - split; [vm_compute; reflexivity|].
    eexists. split; [vm_compute; reflexivity | reflexivity].
Qed.

(* ================================================================== *)
(** ** The label associator *)
(* ================================================================== *)

Lemma get_center_mean (vertices : list float) :
  get_center vertices
  = let? cx := mean (slice_even vertices) in
    let? cy := mean (slice_odd vertices) in
    Ok (cx, cy).
Proof.
  unfold get_center. rewrite comprehension_index_even, comprehension_index_odd.
  reflexivity.
Qed.

Lemma ltb_irrefl (a : float) : (a <? a)%float = false.
Proof.
  destruct (a <? a)%float eqn:E; [|reflexivity].
  pose proof (ltb_asym _ _ E). congruence.
Qed.


Lemma calculate_distance_ok (lib : pylib) (center : float * float) (l : Entity)
    (insertion_point : list float) (d : float) :
  InsertionPoint l = Some insertion_point ->
  calculate_distance lib center (firstn 2 insertion_point) = Ok d ->
  distance_to lib center l d.
Proof.
  intros Hip H. unfold calculate_distance in H.
  destruct insertion_point as [|x [|y rest]]; try discriminate.
  - simpl in H. destruct (pow2 lib (fst center - x)); discriminate.
  - simpl in H.
    apply rbind_ok in H. destruct H as (dx & Hx & H).
    apply rbind_ok in H. destruct H as (dy & Hy & H).
    exists x, y, rest. split; [exact Hip|]. exists dx, dy. auto.
Qed.






(** Of two enclosed labels the one nearer to the centre (5, 5) is returned,
    whatever their order in the selection set; a label outside is ignored. *)
Example nearest_of_two_labels :
  get_text_inside_polyline lib0 lotA [text "a" 1 1 "far"; text "b" 6 5 "near"; labelB; lotA]
  = Ok (VStr "near", VStr "near")
  /\ get_text_inside_polyline lib0 lotA [text "b" 6 5 "near"; text "a" 1 1 "far"; labelB; lotA]
     = Ok (VStr "near", VStr "near")
  /\ get_text_inside_polyline lib0 lotA [labelB; lotA] = Ok (VStr "No text found", VStr "")
  /\ get_center [0;0; 10;0; 10;10; 0;10]%float = Ok (5, 5)%float.
Proof. repeat split; vm_compute; reflexivity. Qed.

(** The centre is the mean of the vertices, not the centroid of the area: a
    fifth vertex in the middle of the left side of the square moves it from
    (5, 5) to (4, 5). *)
Example get_center_not_area_weighted :
  get_center [0;0; 10;0; 10;10; 0;10; 0;5]%float = Ok (4, 5)%float.
Proof. vm_compute. reflexivity. Qed.

(* ================================================================== *)
(** ** Distance and azimuth of an edge and of its reverse *)
(* ================================================================== *)

Local Open Scope Z_scope.

Lemma binary_round_opp (s : bool) (m : positive) (e : Z) :
  binary_round prec emax (negb s) m e = SFopp (binary_round prec emax s m e).
Proof.
  unfold binary_round, binary_round_aux.
  destruct (shl_align m e (fexp prec emax (Zpos (digits2_pos m) + e))) as [mz ez].
  destruct (shr_fexp prec emax (Zpos mz) ez loc_Exact) as [mrs' e'].
  destruct (shr_fexp prec emax (round_nearest_even (shr_m mrs') (loc_of_shr_record mrs')) e'
                     loc_Exact) as [mrs'' e''].
  destruct (shr_m mrs''); try reflexivity.
  destruct (e'' <=? emax - prec); reflexivity.
Qed.

Lemma binary_normalize_opp (d e : Z) :
  d <> 0 ->
  binary_normalize prec emax (- d) e false = SFopp (binary_normalize prec emax d e false).
Proof.
  intros H. destruct d as [|p|p]; [congruence| |]; simpl.
  - apply (binary_round_opp false).
  - rewrite (binary_round_opp false). destruct (binary_round prec emax false p e) as [[]|[]| |[] ? ?]; reflexivity.
Qed.

(** Swapping the operands of a subtraction changes the sign of the result, or
    leaves a zero as it is. *)
Lemma SFsub_swap (x y : spec_float) :
  SF64sub y x = SFopp (SF64sub x y) \/ SF64sub y x = SF64sub x y.
Proof.
  destruct x as [sx|sx| |sx mx ex], y as [sy|sy| |sy my ey]; simpl;
    try (left; reflexivity);
    try (destruct sx, sy; (left; reflexivity) || (right; reflexivity));
    try (destruct sx; left; reflexivity); try (destruct sy; left; reflexivity).
  unfold SF64sub, SFsub. rewrite (Z.min_comm ey ex).
  set (a := cond_Zopp sx (Zpos (fst (shl_align mx ex (Z.min ex ey))))).
  set (b := cond_Zopp sy (Zpos (fst (shl_align my ey (Z.min ex ey))))).
  destruct (Z.eq_dec (a - b) 0) as [E|E].
  - right. replace (b - a) with 0 by lia. rewrite E. reflexivity.
  - left. replace (b - a) with (- (a - b)) by lia. apply binary_normalize_opp. exact E.
Qed.

Local Close Scope Z_scope.

(** The azimuths of the four edges of lot A, with the arctangents of [lib0]:
    due east 90, due north 0, due west 270, due south 180 degrees. *)
Example azimuths_along_the_axes :
  edge_azimuth lib0 (0, 0)%float (10, 0)%float = 90%float
  /\ edge_azimuth lib0 (10, 0)%float (10, 10)%float = 0%float
  /\ edge_azimuth lib0 (10, 10)%float (0, 10)%float = 270%float
  /\ edge_azimuth lib0 (0, 10)%float (0, 0)%float = 180%float.
Proof. repeat split; vm_compute; reflexivity. Qed.

(* ================================================================== *)
(** ** More on the order of the floats *)
(* ================================================================== *)

Lemma SFcompare_lt_eq_trans (x y z : spec_float) :
  SFcompare x y = Some Lt -> SFcompare y z = Some Eq -> SFcompare x z = Some Lt.
Proof.
  destruct x as [sx|sx| |sx mx ex], y as [sy|sy| |sy my ey], z as [sz|sz| |sz mz ez];
    simpl; try discriminate;
    try (destruct sx; simpl; try discriminate);
    try (destruct sy; simpl; try discriminate);
    try (destruct sz; simpl; try discriminate);
    try reflexivity; try (intros; assumption);
    change (Pos.compare_cont Eq mx my) with (Pos.compare mx my);
    change (Pos.compare_cont Eq my mz) with (Pos.compare my mz);
    change (Pos.compare_cont Eq mx mz) with (Pos.compare mx mz);
    destruct (Z.compare_spec ex ey), (Z.compare_spec ey ez), (Z.compare_spec ex ez);
    try discriminate; try lia; try reflexivity; subst;
    destruct (Pos.compare_spec mx my), (Pos.compare_spec my mz),
             (Pos.compare_spec mx mz);
    simpl; try discriminate; try lia; reflexivity.
Qed.

Lemma SFcompare_eq_lt_trans (x y z : spec_float) :
  SFcompare x y = Some Eq -> SFcompare y z = Some Lt -> SFcompare x z = Some Lt.
Proof.
  destruct x as [sx|sx| |sx mx ex], y as [sy|sy| |sy my ey], z as [sz|sz| |sz mz ez];
    simpl; try discriminate;
    try (destruct sx; simpl; try discriminate);
    try (destruct sy; simpl; try discriminate);
    try (destruct sz; simpl; try discriminate);
    try reflexivity; try (intros; assumption);
    change (Pos.compare_cont Eq mx my) with (Pos.compare mx my);
    change (Pos.compare_cont Eq my mz) with (Pos.compare my mz);
    change (Pos.compare_cont Eq mx mz) with (Pos.compare mx mz);
    destruct (Z.compare_spec ex ey), (Z.compare_spec ey ez), (Z.compare_spec ex ez);
    try discriminate; try lia; try reflexivity; subst;
    destruct (Pos.compare_spec mx my), (Pos.compare_spec my mz),
             (Pos.compare_spec mx mz);
    simpl; try discriminate; try lia; reflexivity.
Qed.

(** Only a NaN is not comparable. *)
Lemma SFcompare_none (x y : spec_float) :
  SFcompare x y = None -> x = S754_nan \/ y = S754_nan.
Proof.
  destruct x as [sx|sx| |sx mx ex], y as [sy|sy| |sy my ey]; simpl; auto; discriminate.
Qed.

Lemma SFcompare_refl (x : spec_float) :
  x <> S754_nan -> SFcompare x x = Some Eq.
Proof.
  destruct x as [sx|sx| |sx mx ex]; simpl; intros H; try reflexivity.
  - destruct sx; reflexivity.
  - congruence.
  - change (Pos.compare_cont Eq mx mx) with (Pos.compare mx mx).
    rewrite Z.compare_refl, Pos.compare_refl. destruct sx; reflexivity.
Qed.

Lemma is_number_spec (a : float) : is_number a = true <-> Prim2SF a <> S754_nan.
Proof.
  unfold is_number. rewrite eqb_spec. unfold SFeqb. split.
  - intros H E. rewrite E in H. discriminate.
  - intros H. rewrite (SFcompare_refl _ H). reflexivity.
Qed.

Lemma ltb_numbers (a b : float) :
  (a <? b)%float = true -> is_number a = true /\ is_number b = true.
Proof.
  rewrite ltb_spec, !is_number_spec. unfold SFltb.
  destruct (Prim2SF a), (Prim2SF b); simpl; try discriminate; split; discriminate.
Qed.

Lemma ltb_leb_trans (a b c : float) :
  (a <? b)%float = true -> (b <=? c)%float = true -> (a <? c)%float = true.
Proof.
  rewrite !ltb_spec, leb_spec. unfold SFltb, SFleb.
  destruct (SFcompare (Prim2SF a) (Prim2SF b)) as [[| |]|] eqn:Hab; try discriminate.
  destruct (SFcompare (Prim2SF b) (Prim2SF c)) as [[| |]|] eqn:Hbc; try discriminate.
  - rewrite (SFcompare_lt_eq_trans _ _ _ Hab Hbc). reflexivity.
  - rewrite (SFcompare_lt_trans _ _ _ Hab Hbc). reflexivity.
Qed.

Lemma leb_ltb_trans (a b c : float) :
  (a <=? b)%float = true -> (b <? c)%float = true -> (a <? c)%float = true.
Proof.
  rewrite !ltb_spec, leb_spec. unfold SFltb, SFleb.
  destruct (SFcompare (Prim2SF a) (Prim2SF b)) as [[| |]|] eqn:Hab; try discriminate;
    destruct (SFcompare (Prim2SF b) (Prim2SF c)) as [[| |]|] eqn:Hbc; try discriminate.
  - rewrite (SFcompare_eq_lt_trans _ _ _ Hab Hbc). reflexivity.
  - rewrite (SFcompare_lt_trans _ _ _ Hab Hbc). reflexivity.
Qed.

(** Two numbers are ordered one way or the other. *)
Lemma not_ltb_leb (a b : float) :
  is_number a = true -> is_number b = true ->
  (a <? b)%float = false -> (b <=? a)%float = true.
Proof.
  rewrite !is_number_spec, ltb_spec, leb_spec. unfold SFltb, SFleb.
  rewrite (SFcompare_antisym (Prim2SF a) (Prim2SF b)).
  intros Ha Hb.
  destruct (SFcompare (Prim2SF a) (Prim2SF b)) as [[| |]|] eqn:E; simpl;
    try reflexivity; try discriminate.
  destruct (SFcompare_none _ _ E); contradiction.
Qed.

(** An absolute value and a square root are never below zero. *)
Lemma abs_not_negative (a : float) : (abs a <? 0)%float = false.
Proof.
  rewrite ltb_spec, abs_spec. change (Prim2SF 0) with (S754_zero false).
  destruct (Prim2SF a) as [s|s| |s m e]; reflexivity.
Qed.

Lemma sqrt_not_negative (a : float) : (sqrt a <? 0)%float = false.
Proof.
  rewrite ltb_spec, sqrt_spec. change (Prim2SF 0) with (S754_zero false).
  unfold SF64sqrt, SFsqrt.
  destruct (Prim2SF a) as [s|[|]| |[|] m e]; try reflexivity.
  destruct (SFsqrt_core_binary prec emax (Zpos m) e) as [[mz ez] lz].
  unfold binary_round_aux.
  destruct (shr_fexp prec emax mz ez lz) as [mrs' e'].
  destruct (shr_fexp prec emax (round_nearest_even (shr_m mrs') (loc_of_shr_record mrs')) e'
                     loc_Exact) as [mrs'' e''].
  destruct (shr_m mrs''); try reflexivity.
  destruct (Z.leb e'' (Z.sub emax prec)); reflexivity.
Qed.

(** A value that is not below zero is below a positive bound only. *)
Lemma below_positive_only (v tolerance : float) :
  (v <? 0)%float = false ->
  (v <? tolerance)%float = true -> (0 <? tolerance)%float = true.
Proof.
  intros Hv Hlt. destruct (ltb_numbers _ _ Hlt) as [Nv Nt].
  assert (N0 : is_number 0 = true) by reflexivity.
  apply (leb_ltb_trans 0 v tolerance); [|exact Hlt].
  apply not_ltb_leb; assumption.
Qed.

Lemma abs_sub_swap (a b : float) : abs (a - b) = abs (b - a).
Proof.
  apply Prim2SF_inj. rewrite !abs_spec, !sub_spec.
  destruct (SFsub_swap (Prim2SF b) (Prim2SF a)) as [H|H]; rewrite H; [|reflexivity].
  destruct (SF64sub (Prim2SF b) (Prim2SF a)); reflexivity.
Qed.

(* ================================================================== *)
(** ** The tolerant comparisons *)
(* ================================================================== *)

Lemma sub_swap (a b : float) :
  (b - a = - (a - b))%float \/ (b - a = a - b)%float.
Proof.
  destruct (SFsub_swap (Prim2SF a) (Prim2SF b)) as [H|H]; [left|right];
    apply Prim2SF_inj; rewrite ?opp_spec, !sub_spec; exact H.
Qed.

Lemma abs_opp (x : float) : abs (- x) = abs x.
Proof.
  apply Prim2SF_inj. rewrite !abs_spec, opp_spec.
  destruct (Prim2SF x); reflexivity.
Qed.

Lemma opp_involutive (x : float) : (- - x)%float = x.
Proof.
  apply Prim2SF_inj. rewrite !opp_spec.
  destruct (Prim2SF x); simpl; rewrite ?negb_involutive; reflexivity.
Qed.

Lemma is_nan_spec (x : float) : is_nan x = true <-> Prim2SF x = S754_nan.
Proof.
  unfold is_nan. rewrite negb_true_iff.
  pose proof (is_number_spec x) as H. unfold is_number in H.
  destruct (x =? x)%float.
  - split; [discriminate|]. intros E. destruct H as [H _].
    elim (H eq_refl E).
  - split; [|reflexivity]. intros _.
    destruct (Prim2SF x) eqn:E; try reflexivity;
      exfalso; assert (N : true = false -> False) by discriminate;
      apply N; symmetry; apply H; discriminate.
Qed.

Lemma is_nan_opp (x : float) : is_nan (- x) = is_nan x.
Proof.
  apply eq_true_iff_eq. rewrite !is_nan_spec, opp_spec.
  destruct (Prim2SF x); simpl; split; congruence.
Qed.

Lemma nan_opp (x : float) : is_nan x = true -> (- x)%float = x.
Proof.
  intros H. apply is_nan_spec in H. apply Prim2SF_inj.
  rewrite opp_spec, H. reflexivity.
Qed.

Lemma eqb_zero_opp (x : float) : (- x =? 0)%float = (x =? 0)%float.
Proof.
  rewrite !eqb_spec, opp_spec. change (Prim2SF 0) with (S754_zero false).
  destruct (Prim2SF x) as [[]|[]| |[] m e]; reflexivity.
Qed.

Lemma ltb_zero_opp (x : float) :
  is_nan x = false -> (x =? 0)%float = false ->
  (- x <? 0)%float = negb (x <? 0)%float.
Proof.
  intros Hn Hz.
  assert (N : Prim2SF x <> S754_nan)
    by (intros E; apply is_nan_spec in E; congruence).
  revert Hz. rewrite eqb_spec, !ltb_spec, opp_spec.
  change (Prim2SF 0) with (S754_zero false).
  destruct (Prim2SF x) as [[]|[]| |[] m e]; simpl; try reflexivity; try discriminate.
  congruence.
Qed.

(** The square of line 13 is that of the absolute value: a float and its
    opposite have the same square, or raise the same exception. *)
Lemma pow2_opp (lib : pylib) (x : float) : pow2 lib (- x) = pow2 lib x.
Proof.
  unfold pow2, is_infinity. rewrite is_nan_opp, abs_opp, eqb_zero_opp.
  destruct (is_nan x) eqn:Hn; [rewrite (nan_opp x Hn); reflexivity|].
  destruct (abs x =? infinity)%float; [reflexivity|].
  destruct (x =? 0)%float eqn:Hz; [reflexivity|].
  rewrite (ltb_zero_opp x Hn Hz), opp_involutive.
  destruct (x <? 0)%float; reflexivity.
Qed.

Lemma pow2_sub_swap (lib : pylib) (a b : float) :
  pow2 lib (a - b) = pow2 lib (b - a).
Proof.
  destruct (sub_swap a b) as [H|H]; rewrite H; [rewrite pow2_opp|]; reflexivity.
Qed.

(** X1.  The tolerant comparisons do not depend on the order of their two
    arguments: [are_floats_equal], [is_point_close] and the zero-length test of
    an edge give the same answer, or raise the same exception, when the two
    values or points are swapped.  The square of a difference is computed by
    the C library on its absolute value, which is the same float for both
    orders. *)
Theorem tolerant_comparisons_symmetric (lib : pylib) :
  (forall f1 f2 tolerance,
      are_floats_equal f1 f2 tolerance = are_floats_equal f2 f1 tolerance)
  /\ (forall point1 point2 tolerance,
        is_point_close lib point1 point2 tolerance
        = is_point_close lib point2 point1 tolerance)
  /\ (forall current_vertex next_vertex,
        is_zero_length current_vertex next_vertex
        = is_zero_length next_vertex current_vertex).
Proof.
  assert (H1 : forall f1 f2 tolerance,
             are_floats_equal f1 f2 tolerance = are_floats_equal f2 f1 tolerance).
  { intros. unfold are_floats_equal. rewrite (abs_sub_swap f1 f2). reflexivity. }
  split; [exact H1|]. split.
  - intros [x1 y1] [x2 y2] tolerance. unfold is_point_close. cbn [fst snd].
    rewrite (pow2_sub_swap lib x1 x2), (pow2_sub_swap lib y1 y2). reflexivity.
  - intros c n. unfold is_zero_length.
    rewrite (H1 (fst c)), (H1 (snd c)). reflexivity.
Qed.

(** X21.  The length narrated for an edge is that of the reversed edge, bit
    for bit, and the computation of the one raises exactly when that of the
    other does: the rounded distance does not depend on the direction in
    which the edge is walked. *)
Theorem edge_distance_symmetric (lib : pylib) (a b : float * float) :
  edge_distance lib a b = edge_distance lib b a.
Proof.
  unfold edge_distance.
  rewrite (pow2_sub_swap lib (fst b) (fst a)), (pow2_sub_swap lib (snd b) (snd a)).
  reflexivity.
Qed.

(** X2.  A tolerance that is not greater than zero matches nothing: neither
    comparison answers true, not even for a value and itself, and the vertex
    resolver then returns its sentinel whenever it returns.  A pair that
    matches under a tolerance matches under every greater tolerance. *)
Theorem tolerance_positive_and_monotone (lib : pylib) :
  (forall f1 f2 tolerance,
      are_floats_equal f1 f2 tolerance = true -> (0 <? tolerance)%float = true)
  /\ (forall point1 point2 tolerance,
        is_point_close lib point1 point2 tolerance = Ok true ->
        (0 <? tolerance)%float = true)
  /\ (forall entity selection_set vertex tolerance w name elevation,
        (0 <? tolerance)%float = false ->
        get_vertex_name lib entity selection_set vertex tolerance
        = (w, Ok (name, elevation)) ->
        name = "Vertex not found" /\ elevation = None)
  /\ (forall f1 f2 tolerance tolerance',
        are_floats_equal f1 f2 tolerance = true ->
        (tolerance <=? tolerance')%float = true ->
        are_floats_equal f1 f2 tolerance' = true)
  /\ (forall point1 point2 tolerance tolerance',
        is_point_close lib point1 point2 tolerance = Ok true ->
        (tolerance <=? tolerance')%float = true ->
        is_point_close lib point1 point2 tolerance' = Ok true).
Proof.
  assert (Hbelow : forall p q d tolerance,
             euclidean lib p q d -> (d <? tolerance)%float = true ->
             (0 <? tolerance)%float = true).
  { intros p q d t (dx & dy & _ & _ & Hd) H.
    apply math_sqrt_ok in Hd. subst d.
    apply (below_positive_only _ _ (sqrt_not_negative _) H). }
  split; [|split; [|split; [|split]]].
  - intros f1 f2 t H. unfold are_floats_equal in H.
    apply (below_positive_only _ _ (abs_not_negative _) H).
  - intros p q t H. apply is_point_close_ok in H. destruct H as (d & Hd & H).
    apply (Hbelow p q d t Hd). symmetry. exact H.
  - intros entity selection_set vertex tolerance w name elevation Ht H.
    destruct (get_vertex_name_returns _ _ _ _ _ _ _ _ H)
      as [(before & p & after & number & z & _ & Hp & _)|(_ & Hname & He & _)];
      [|auto].
    destruct Hp as (_ & _ & e & n & d & _ & _ & Hd & Hlt).
    pose proof (Hbelow (e, n) vertex d tolerance Hd Hlt). congruence.
  - intros f1 f2 t t' H Hle. unfold are_floats_equal in *.
    apply (ltb_leb_trans _ _ _ H Hle).
  - intros p q t t' H Hle. apply is_point_close_ok in H. destruct H as (d & Hd & H).
    apply is_point_close_ok. exists d. split; [exact Hd|].
    symmetry. apply (ltb_leb_trans _ _ _ (eq_sym H) Hle).
Qed.

(* ================================================================== *)
(** ** The point-in-polygon tester as a count of crossings *)
(* ================================================================== *)

Lemma crosses_self (x y : float) (v : float * float) : crosses x y v v = false.
Proof.
  unfold crosses. destruct (snd v =? snd v)%float eqn:E.
  - rewrite (horizontal_edge_guards y _ _ E). reflexivity.
  - unfold py_min. rewrite ltb_irrefl.
    destruct (snd v <? y)%float eqn:L; [|reflexivity].
    destruct (ltb_numbers _ _ L) as [N _]. unfold is_number in N. congruence.
Qed.

(** An iteration toggles [inside] exactly when the edge passes the tests. *)
Lemma pip_step_crosses (x y : float) (st : pip_state) (p2 : float * float) :
  exists xinters',
    pip_step x y st p2
    = Ok (PipState (xorb (inside st) (crosses x y (p1x st, p1y st) p2))
                   (fst p2) (snd p2) xinters').
Proof.
  destruct (p1y st =? snd p2)%float eqn:E.
  - rewrite (pip_step_horizontal x y st p2 E). unfold crosses. cbn [fst snd].
    rewrite (horizontal_edge_guards y _ _ E). simpl. rewrite xorb_false_r. eauto.
  - destruct p2 as [p2x p2y]. unfold pip_step, crosses. cbn [fst snd] in *.
    destruct (py_min (p1y st) p2y <? y)%float; [|simpl; rewrite xorb_false_r; eauto].
    destruct (y <=? py_max (p1y st) p2y)%float; [|simpl; rewrite xorb_false_r; eauto].
    destruct (x <=? py_max (p1x st) p2x)%float; [|simpl; rewrite xorb_false_r; eauto].
    assert (N : ne (p1y st) p2y = true) by (unfold ne; rewrite E; reflexivity).
    rewrite N, (guarded_division _ _ _ N). simpl.
    destruct (p1x st =? p2x)%float; simpl.
    + rewrite xorb_true_r. eauto.
    + destruct (x <=? _)%float; simpl;
        [rewrite xorb_true_r | rewrite xorb_false_r]; eauto.
Qed.

Lemma odd_count_cons {A} (f : A -> bool) (a : A) (l : list A) :
  Nat.odd (List.length (filter f (a :: l)))
  = xorb (f a) (Nat.odd (List.length (filter f l))).
Proof.
  simpl. destruct (f a); simpl List.length.
  - rewrite Nat.odd_succ, <- Nat.negb_odd. reflexivity.
  - reflexivity.
Qed.

Lemma pip_loop_parity (x y : float) (vs : list (float * float)) :
  forall st, exists st',
    for_each (pip_step x y) vs st = Ok st'
    /\ inside st'
       = xorb (inside st)
              (Nat.odd (List.length
                 (filter (fun e => crosses x y (fst e) (snd e))
                         (combine ((p1x st, p1y st) :: vs) vs)))).
Proof.
  induction vs as [|v vs IH]; intros st.
  - exists st. split; [reflexivity|]. simpl. rewrite xorb_false_r. reflexivity.
  - destruct (pip_step_crosses x y st v) as (xi & Hstep).
    cbn [for_each]. rewrite Hstep. cbn [rbind].
    destruct (IH (PipState (xorb (inside st) (crosses x y (p1x st, p1y st) v))
                           (fst v) (snd v) xi)) as (st' & Hrun & Hin).
    exists st'. split; [exact Hrun|]. rewrite Hin. cbn [inside p1x p1y].
    change (combine ((p1x st, p1y st) :: v :: vs) (v :: vs))
      with (((p1x st, p1y st), v) :: combine (v :: vs) vs).
    rewrite odd_count_cons. cbn [fst snd]. rewrite <- surjective_pairing.
    rewrite xorb_assoc. reflexivity.
Qed.

Lemma combine_longer {A B} (l : list A) (a : A) :
  forall (l' : list B),
    (List.length l' <= List.length l)%nat -> combine (l ++ [a]) l' = combine l l'.
Proof.
  induction l as [|b l IH]; intros [|b' l'] H; simpl in *; try reflexivity; try lia.
  rewrite IH by lia. reflexivity.
Qed.

(** The tester on a ring that is not empty: the parity of the number of edges
    that pass the tests of lines 47-52. *)
Lemma pip_parity (x y : float) (polygon : list float)
    (v0 : float * float) (vs : list (float * float)) :
  pairs polygon = v0 :: vs ->
  is_point_in_polygon [x; y] polygon = Ok (Nat.odd (crossings x y (v0 :: vs))).
Proof.
  intros Hring. rewrite (is_point_in_polygon_unrolled x y polygon v0 vs Hring).
  destruct (pip_loop_parity x y ((v0 :: vs) ++ [v0])
              (PipState false (fst v0) (snd v0) None)) as (st' & Hrun & Hin).
  rewrite Hrun. cbn [rbind]. rewrite Hin. cbn [inside p1x p1y xorb].
  rewrite <- surjective_pairing.
  change (combine (v0 :: (v0 :: vs) ++ [v0]) ((v0 :: vs) ++ [v0]))
    with ((v0, v0) :: combine ((v0 :: vs) ++ [v0]) (vs ++ [v0])).
  rewrite odd_count_cons. cbn [fst snd]. rewrite crosses_self. cbn [xorb].
  rewrite combine_longer by (rewrite length_app; simpl; lia).
  reflexivity.
Qed.

Lemma pairs_cons (a b : float) (l : list float) :
  pairs (a :: b :: l) = (a, b) :: pairs l.
Proof. reflexivity. Qed.

Lemma pairs_short (polygon : list float) :
  (List.length polygon < 2)%nat -> pairs polygon = [].
Proof.
  destruct polygon as [|a [|b l]]; simpl; intros H; try reflexivity; lia.
Qed.

Lemma pairs_nonempty (polygon : list float) :
  (2 <= List.length polygon)%nat -> exists v0 vs, pairs polygon = v0 :: vs.
Proof.
  destruct polygon as [|a [|b l]]; simpl; intros H; try lia.
  exists (a, b), (pairs l). reflexivity.
Qed.

Lemma pairs_app_one (c : float) (l : list float) :
  Nat.even (List.length l) = true -> pairs (l ++ [c]) = pairs l.
Proof.
  induction l as [|a|a b l IH] using list_ind2; intros H.
  - reflexivity.
  - discriminate.
  - change ((a :: b :: l) ++ [c])%list with (a :: b :: (l ++ [c]))%list.
    rewrite !pairs_cons, IH; [reflexivity | exact H].
Qed.

Lemma pairs_app_two (a b : float) (l : list float) :
  Nat.even (List.length l) = true -> pairs (l ++ [a; b]) = (pairs l ++ [(a, b)])%list.
Proof.
  induction l as [|a'|a' b' l IH] using list_ind2; intros H.
  - reflexivity.
  - discriminate.
  - change ((a' :: b' :: l) ++ [a; b])%list with (a' :: b' :: (l ++ [a; b]))%list.
    rewrite !pairs_cons, IH; [reflexivity | exact H].
Qed.

Lemma is_point_in_polygon_pairs (point polygon polygon' : list float) :
  pairs polygon = pairs polygon' ->
  is_point_in_polygon point polygon = is_point_in_polygon point polygon'.
Proof.
  intros H. unfold is_point_in_polygon.
  change (combine (slice_even polygon) (slice_odd polygon)) with (pairs polygon).
  change (combine (slice_even polygon') (slice_odd polygon')) with (pairs polygon').
  rewrite H. reflexivity.
Qed.

Lemma ring_edges_In {A} (ring : list A) (p q : A) :
  In (p, q) (ring_edges ring) -> In p ring /\ In q ring.
Proof.
  destruct ring as [|v0 vs]; [simpl; tauto|].
  unfold ring_edges. intros H. split.
  - apply (in_combine_l _ _ _ _ H).
  - apply in_combine_r in H. apply in_app_or in H.
    destruct H as [H|[H|[]]]; [right|left]; auto.
Qed.

Lemma py_min_cases (a b : float) : py_min a b = a \/ py_min a b = b.
Proof. unfold py_min. destruct (b <? a)%float; auto. Qed.

Lemma py_max_cases (a b : float) : py_max a b = a \/ py_max a b = b.
Proof. unfold py_max. destruct (a <? b)%float; auto. Qed.

Lemma no_crossings (x y : float) (ring : list (float * float)) :
  (forall p q, In p ring -> In q ring -> crosses x y p q = false) ->
  crossings x y ring = 0%nat.
Proof.
  intros H. unfold crossings.
  assert (G : forall l, (forall e, In e l -> crosses x y (fst e) (snd e) = false) ->
                        filter (fun e => crosses x y (fst e) (snd e)) l = []).
  { induction l as [|e l IH]; intros Hl; simpl; [reflexivity|].
    rewrite (Hl e (or_introl eq_refl)). apply IH. intros e' He'. apply Hl. right. exact He'. }
  rewrite G; [reflexivity|]. intros [p q] He.
  destruct (ring_edges_In _ _ _ He). apply H; assumption.
Qed.

Lemma combine_snoc {A B} (l : list A) (a : A) (b : B) :
  forall (l' : list B),
    List.length l = List.length l' ->
    combine (l ++ [a]) (l' ++ [b]) = (combine l l' ++ [(a, b)])%list.
Proof.
  induction l as [|c l IH]; intros [|c' l'] H; simpl in *; try reflexivity; try lia.
  rewrite IH by lia. reflexivity.
Qed.

Lemma crossings_rotate (x y : float) (v0 : float * float) (vs : list (float * float)) :
  crossings x y (vs ++ [v0]) = crossings x y (v0 :: vs).
Proof.
  unfold crossings. destruct vs as [|v1 vs]; [reflexivity|].
  change (ring_edges ((v1 :: vs) ++ [v0]))
    with (combine ((v1 :: vs) ++ [v0]) ((vs ++ [v0]) ++ [v1])).
  change (ring_edges (v0 :: v1 :: vs))
    with ((v0, v1) :: combine (v1 :: vs) (vs ++ [v0])).
  rewrite combine_snoc by (rewrite length_app; simpl; lia).
  rewrite filter_app, length_app. simpl.
  destruct (crosses x y v0 v1); simpl; lia.
Qed.

(** X3.  On a polygon of at least two coordinates the tester returns the
    parity of a count: the number of edges of the ring, the closing edge from
    the last vertex to the first included, that pass the tests of lines 47-52.
    The point is inside when that number is odd. *)
Theorem even_odd_rule (x y : float) (polygon : list float) :
  (2 <= List.length polygon)%nat ->
  is_point_in_polygon [x; y] polygon
  = Ok (Nat.odd (crossings x y (pairs polygon))).
Proof.
  intros H. destruct (pairs_nonempty polygon H) as (v0 & vs & Hring).
  rewrite Hring. apply pip_parity. exact Hring.
Qed.

Lemma even_odd_rule_witness :
  (2 <= List.length [0; 0; 10; 0; 10; 10; 0; 10]%float)%nat
  /\ is_point_in_polygon [5; 5]%float [0; 0; 10; 0; 10; 10; 0; 10]%float
     = Ok (Nat.odd (crossings 5 5 (pairs [0; 0; 10; 0; 10; 10; 0; 10]%float))).
Proof.
  split; [simpl; lia|].
  apply (even_odd_rule 5 5 [0; 0; 10; 0; 10; 10; 0; 10]%float). simpl. lia.
Defined.

(** X4.  Three sides of the bounding box of the vertices shut a point out:
    when no vertex is strictly below the point, or the point is at or below no
    vertex, or the point is at or to the left of no vertex (it is to the right
    of them all), the tester answers false; a point with a NaN for a
    coordinate is such a point.  The fourth side does not: a point to the left
    of every vertex can be found inside, see [left_of_every_vertex_inside]. *)
Theorem below_above_or_right_is_outside (x y : float) (polygon : list float) :
  (2 <= List.length polygon)%nat ->
  (forall v, In v (pairs polygon) -> (snd v <? y)%float = false)
  \/ (forall v, In v (pairs polygon) -> (y <=? snd v)%float = false)
  \/ (forall v, In v (pairs polygon) -> (x <=? fst v)%float = false) ->
  is_point_in_polygon [x; y] polygon = Ok false.
Proof.
  intros Hlen H. destruct (pairs_nonempty polygon Hlen) as (v0 & vs & Hring).
  rewrite (pip_parity x y polygon v0 vs Hring), <- Hring.
  rewrite no_crossings; [reflexivity|].
  intros p q Hp Hq. unfold crosses.
  destruct H as [H|[H|H]].
  - destruct (py_min_cases (snd p) (snd q)) as [-> | ->];
      rewrite (H _ Hp) || rewrite (H _ Hq); reflexivity.
  - destruct (py_max_cases (snd p) (snd q)) as [-> | ->];
      (rewrite (H _ Hp) || rewrite (H _ Hq));
      rewrite andb_false_r; reflexivity.
  - destruct (py_max_cases (fst p) (fst q)) as [-> | ->];
      (rewrite (H _ Hp) || rewrite (H _ Hq));
      rewrite andb_false_r; reflexivity.
Qed.

Lemma below_above_or_right_is_outside_witness :
  is_point_in_polygon [15; 5]%float [0; 0; 10; 0; 10; 10; 0; 10]%float = Ok false.
Proof.
  apply (below_above_or_right_is_outside 15 5 [0; 0; 10; 0; 10; 10; 0; 10]%float).
  - simpl. lia.
  - right. right. intros v Hv. simpl in Hv.
    destruct Hv as [<-|[<-|[<-|[<-|[]]]]]; vm_compute; reflexivity.
Defined.

(** A point to the left of every vertex of a triangle, at the height of its
    leftmost vertex and one unit in the last place away from it, that the
    tester finds inside: the intersection of line 51 with the edge from the
    lowest vertex is rounded to the left of the point. *)
Example left_of_every_vertex_inside :
  is_point_in_polygon [0.39999999999999997; 7]%float [0.4; 7; 9.8; 5.9; 3.9; 1.7]%float
  = Ok true
  /\ forall v, In v (pairs [0.4; 7; 9.8; 5.9; 3.9; 1.7]%float) ->
                (0.39999999999999997 <? fst v)%float = true.
Proof.
  split; [vm_compute; reflexivity|].
  intros v Hv. simpl in Hv.
  destruct Hv as [<-|[<-|[<-|[]]]]; vm_compute; reflexivity.
Qed.

(** X5.  For a coordinate list of even length, that is a list of whole
    vertices, the answer does not depend on the vertex the ring starts at:
    moving the two coordinates of the first vertex to the end of the list
    leaves the result of the tester unchanged.  (With a last coordinate
    without a partner the moved vertex would be paired differently.) *)
Theorem ring_start_irrelevant (x y a b : float) (rest : list float) :
  Nat.even (List.length rest) = true ->
  is_point_in_polygon [x; y] (rest ++ [a; b])
  = is_point_in_polygon [x; y] (a :: b :: rest).
Proof.
  intros H.
  assert (H1 : pairs (rest ++ [a; b]) = (pairs rest ++ [(a, b)])%list)
    by (apply pairs_app_two; exact H).
  destruct (pairs rest ++ [(a, b)])%list as [|v0 vs] eqn:E;
    [destruct (pairs rest); discriminate|].
  rewrite (pip_parity x y _ v0 vs H1).
  rewrite (pip_parity x y (a :: b :: rest) (a, b) (pairs rest) (pairs_cons a b rest)).
  rewrite <- E, crossings_rotate. reflexivity.
Qed.

Lemma ring_start_irrelevant_witness :
  is_point_in_polygon [5; 5]%float ([10; 0; 10; 10; 0; 10] ++ [0; 0])%float
  = is_point_in_polygon [5; 5]%float [0; 0; 10; 0; 10; 10; 0; 10]%float.
Proof.
  apply (ring_start_irrelevant 5 5 0 0 [10; 0; 10; 10; 0; 10]%float). reflexivity.
Defined.

(** X6.  What the tester raises and when it returns: a point that is not a
    pair of coordinates raises a [ValueError] at line 39; a polygon of fewer
    than two coordinates raises an [IndexError] at line 44; every other call
    returns a boolean.  A last coordinate without a partner is ignored. *)
Theorem is_point_in_polygon_outcomes (point polygon : list float) :
  (List.length point <> 2%nat -> is_point_in_polygon point polygon = Raise ValueError)
  /\ (List.length point = 2%nat -> (List.length polygon < 2)%nat ->
      is_point_in_polygon point polygon = Raise IndexError)
  /\ (List.length point = 2%nat -> (2 <= List.length polygon)%nat ->
      exists b, is_point_in_polygon point polygon = Ok b)
  /\ (forall c, Nat.even (List.length polygon) = true ->
                is_point_in_polygon point (polygon ++ [c])
                = is_point_in_polygon point polygon).
Proof.
  split; [|split; [|split]].
  - intros H. destruct point as [|x [|y [|z r]]]; try reflexivity.
    exfalso. apply H. reflexivity.
  - intros Hp H. destruct point as [|x [|y [|z r]]]; try discriminate.
    unfold is_point_in_polygon.
    change (combine (slice_even polygon) (slice_odd polygon)) with (pairs polygon).
    rewrite (pairs_short polygon H). reflexivity.
  - intros Hp H. destruct point as [|x [|y [|z r]]]; try discriminate.
    destruct (pairs_nonempty polygon H) as (v0 & vs & Hring).
    rewrite (pip_parity x y polygon v0 vs Hring). eauto.
  - intros c H. apply is_point_in_polygon_pairs. apply pairs_app_one. exact H.
Qed.

(* ================================================================== *)
(** ** The centre and the labels *)
(* ================================================================== *)

(** The float of a length: a Python list holds fewer than 2^63 items. *)
Lemma float_of_Z_spec (z : Z) :
  (0 <= z < 2 ^ 63)%Z ->
  Prim2SF (float_of_Z z) = binary_normalize prec emax z 0 false.
Proof.
  intros H. unfold float_of_Z.
  pose proof (of_uint63_spec (Uint63Axioms.of_Z z)) as E.
  rewrite Uint63.of_Z_spec, Z.mod_small in E by exact H.
  rewrite <- E, SF2Prim_Prim2SF. reflexivity.
Qed.

Lemma float_of_nat_not_zero (n : nat) :
  (0 < n)%nat -> (Z.of_nat n < 2 ^ 63)%Z -> (float_of_nat n =? 0)%float = false.
Proof.
  intros Hpos Hlt. unfold float_of_nat.
  rewrite eqb_spec, float_of_Z_spec by lia.
  change (Prim2SF 0) with (S754_zero false).
  destruct (Z.of_nat n) as [|p|p] eqn:E; try lia.
  unfold binary_normalize.
  destruct (binary_round prec emax false p 0) as [s|s| |s m e] eqn:R;
    try (destruct s; reflexivity); try reflexivity.
  exfalso. apply (binary_round_not_zero false p 0 s); [unfold emin64; lia | exact R].
Qed.

Lemma slice_bounds {A} (l : list A) :
  (List.length (slice_even l) <= List.length l)%nat
  /\ (List.length (slice_odd l) <= List.length l)%nat.
Proof.
  induction l as [|a|a b l [IH1 IH2]] using list_ind2; simpl; try lia.
  change (match l with [] => [] | _ :: r => slice_even r end) with (slice_odd l).
  lia.
Qed.

Lemma mean_returns (l : list float) :
  l <> [] -> (Z.of_nat (List.length l) < 2 ^ 63)%Z ->
  mean l = Ok (py_sum l / float_of_nat (List.length l))%float.
Proof.
  intros Hne Hlt. unfold mean, py_div.
  rewrite float_of_nat_not_zero; [reflexivity| |exact Hlt].
  destruct l; [congruence | simpl; lia].
Qed.

(** The loop of lines 78-87 passes over an entity that is no text. *)
Lemma label_loop_filter (lib : pylib) (vertices : list float) (center : float * float)
    (selection_set : selection) :
  forall st,
    for_each (label_step lib vertices center) selection_set st
    = for_each (label_step lib vertices center) (filter is_text_entity selection_set) st.
Proof.
  induction selection_set as [|e rest IH]; intros st; [reflexivity|].
  simpl. destruct (is_text_entity e) eqn:E.
  - simpl. destruct (label_step lib vertices center st e); simpl; [apply IH | reflexivity].
  - unfold label_step at 1. rewrite E. simpl. apply IH.
Qed.

(** An iteration on an enclosed label. *)
Lemma label_step_enclosed (lib : pylib) (vertices : list float) (center : float * float)
    (st : label_state) (l : Entity) (raw : string) (d : float) :
  enclosed vertices l -> TextString l = Some raw -> distance_to lib center l d ->
  label_step lib vertices center st l
  = Ok (if (d <? min_distance st)%float
        then LabelState (inner_texts st ++ [(d, clean raw)]) d (clean raw) raw
        else LabelState (inner_texts st ++ [(d, clean raw)]) (min_distance st)
                        (nearest_text st) (nearest_text_unclean st)).
Proof.
  intros (Htext & ip & Hip & Hin) Hraw (x & y & rest & Hip' & dx & dy & Hx & Hy & Hd).
  rewrite Hip in Hip'. inversion Hip'; subst ip. clear Hip'.
  cbn [fst snd] in Hx, Hy.
  unfold label_step. rewrite Htext, Hip. cbn [getattr rbind].
  rewrite Hin. cbn [rbind]. unfold calculate_distance.
  cbn [firstn index nth_error rbind]. rewrite Hx. cbn [rbind].
  rewrite Hy. cbn [rbind]. rewrite Hd. cbn [rbind]. rewrite Hraw. cbn [getattr rbind].
  destruct (d <? min_distance st)%float; reflexivity.
Qed.

(** An iteration that returns either passed over the entity or met an
    enclosed label. *)
Lemma label_step_cases (lib : pylib) (vertices : list float) (center : float * float)
    (st st' : label_state) (l : Entity) :
  label_step lib vertices center st l = Ok st' ->
  st' = st
  \/ exists raw d,
       enclosed vertices l /\ TextString l = Some raw /\ distance_to lib center l d.
Proof.
  intros H. unfold label_step in H.
  destruct (is_text_entity l) eqn:Htext; [|inversion H; auto].
  apply rbind_ok in H. destruct H as (ip & Hip & H). apply getattr_ok in Hip.
  apply rbind_ok in H. destruct H as (is_inside & Hin & H).
  destruct is_inside; [|inversion H; auto].
  apply rbind_ok in H. destruct H as (td & Htd & H).
  apply rbind_ok in H. destruct H as (raw & Hraw & H). apply getattr_ok in Hraw.
  right. exists raw, td. split; [|split].
  - split; [exact Htext|]. exists ip. auto.
  - exact Hraw.
  - apply (calculate_distance_ok lib center l ip td Hip Htd).
Qed.

(** While every enclosed label met is strictly farther than [d], the least
    distance kept stays above [d]. *)
Lemma label_loop_above (lib : pylib) (vertices : list float) (center : float * float) (d : float)
    (before : selection) :
  forall st st',
    (forall l' d', In l' before -> enclosed vertices l' ->
                   distance_to lib center l' d' -> (d <? d')%float = true) ->
    (d <? min_distance st)%float = true ->
    for_each (label_step lib vertices center) before st = Ok st' ->
    (d <? min_distance st')%float = true.
Proof.
  induction before as [|l before IH]; intros st st' Hfar Hst H; simpl in H.
  - inversion H; subst. exact Hst.
  - apply rbind_ok in H. destruct H as (st1 & Hstep & H).
    apply (IH st1 st'); [intros; eapply Hfar; eauto; right; assumption| |exact H].
    destruct (label_step_cases _ _ _ _ _ _ Hstep) as [->|(raw & d' & Henc & Hraw & Hd)];
      [exact Hst|].
    rewrite (label_step_enclosed _ _ _ st l raw d' Henc Hraw Hd) in Hstep.
    inversion Hstep; subst st1. clear Hstep.
    destruct (d' <? min_distance st)%float; cbn [min_distance]; [|exact Hst].
    apply (Hfar l d' (or_introl eq_refl) Henc Hd).
Qed.

(** While no enclosed label met is strictly nearer than the least distance
    kept, the label kept stays. *)
Lemma label_loop_stays (lib : pylib) (vertices : list float) (center : float * float)
    (after : selection) :
  forall st st',
    (forall l' d', In l' after -> enclosed vertices l' ->
                   distance_to lib center l' d' -> (d' <? min_distance st)%float = false) ->
    for_each (label_step lib vertices center) after st = Ok st' ->
    min_distance st' = min_distance st
    /\ nearest_text st' = nearest_text st
    /\ nearest_text_unclean st' = nearest_text_unclean st.
Proof.
  induction after as [|l after IH]; intros st st' Hfar H; simpl in H.
  - inversion H; subst. auto.
  - apply rbind_ok in H. destruct H as (st1 & Hstep & H).
    assert (Hsame : min_distance st1 = min_distance st
                    /\ nearest_text st1 = nearest_text st
                    /\ nearest_text_unclean st1 = nearest_text_unclean st).
    { destruct (label_step_cases _ _ _ _ _ _ Hstep) as [->|(raw & d' & Henc & Hraw & Hd)];
        [auto|].
      rewrite (label_step_enclosed _ _ _ st l raw d' Henc Hraw Hd) in Hstep.
      rewrite (Hfar l d' (or_introl eq_refl) Henc Hd) in Hstep.
      inversion Hstep; subst st1. auto. }
    destruct Hsame as (Hm & Hn & Hu).
    destruct (IH st1 st') as (Hm' & Hn' & Hu'); [|exact H|].
    + intros l' d' Hin Henc Hd. rewrite Hm. apply (Hfar l' d'); auto. right. exact Hin.
    + rewrite Hm', Hn', Hu'. auto.
Qed.

(** X7.  The centre of a ring: with fewer than two coordinates [get_center]
    raises a [ZeroDivisionError], and so does the label associator on such a
    polyline, whatever the selection set, so that the script does not return
    on a selection set that has one; with two coordinates or more (and fewer
    than 2^63, the bound of a Python list) it returns the sum of the
    coordinates at the even indices over their number, and the same for those
    at the odd indices. *)
Theorem get_center_outcomes (vertices : list float) :
  ((List.length vertices < 2)%nat ->
   get_center vertices = Raise ZeroDivisionError
   /\ (forall lib entity selection_set,
         EntityName entity = "AcDbPolyline" -> Coordinates entity = Some vertices ->
         get_text_inside_polyline lib entity selection_set = Raise ZeroDivisionError)
   /\ (forall lib entity selection_set,
         In entity selection_set ->
         EntityName entity = "AcDbPolyline" -> Coordinates entity = Some vertices ->
         exists w ex, main lib selection_set = (w, Raise ex)))
  /\ ((2 <= List.length vertices)%nat -> (Z.of_nat (List.length vertices) < 2 ^ 63)%Z ->
      get_center vertices
      = Ok ((py_sum (slice_even vertices)
             / float_of_nat (List.length (slice_even vertices)))%float,
            (py_sum (slice_odd vertices)
             / float_of_nat (List.length (slice_odd vertices)))%float)).
Proof.
  split.
  - intros H.
    assert (G : get_center vertices = Raise ZeroDivisionError).
    { destruct vertices as [|a [|b l]]; [reflexivity|reflexivity|simpl in H; lia]. }
    assert (T : forall lib entity selection_set,
               EntityName entity = "AcDbPolyline" -> Coordinates entity = Some vertices ->
               get_text_inside_polyline lib entity selection_set = Raise ZeroDivisionError).
    { intros lib entity selection_set Hname Hcoords.
      unfold get_text_inside_polyline. rewrite Hname, Hcoords. simpl.
      rewrite G. reflexivity. }
    split; [exact G|]. split; [exact T|].
    intros lib entity selection_set Hin Hname Hcoords. unfold main.
    apply for_eachM_raises with (a := entity); [exact Hin|].
    intros []. rewrite Hname, (T lib entity selection_set Hname Hcoords). simpl. eauto.
  - intros H Hlt. rewrite get_center_mean.
    destruct (slice_bounds vertices) as [B1 B2].
    rewrite !mean_returns; try lia; try reflexivity.
    + destruct vertices as [|a [|b l]]; simpl in H; try lia. discriminate.
    + destruct vertices as [|a [|b l]]; simpl in H; try lia. discriminate.
Qed.

(** X8.  Only text entities count for the label of a polyline: the associator
    gives the same result, or raises the same exception, on the selection set
    and on its [AcDbText] and [AcDbMText] entities alone. *)
Theorem get_text_inside_polyline_texts_only (lib : pylib) (entity : Entity) (selection_set : selection) :
  get_text_inside_polyline lib entity selection_set
  = get_text_inside_polyline lib entity (filter is_text_entity selection_set).
Proof.
  unfold get_text_inside_polyline.
  destruct (negb (EntityName entity =? "AcDbPolyline")%string); [reflexivity|].
  destruct (getattr "Coordinates" (Coordinates entity)) as [vertices|]; [|reflexivity].
  cbn [rbind]. destruct (get_center vertices) as [center|]; [|reflexivity].
  cbn [rbind]. rewrite label_loop_filter. reflexivity.
Qed.

(** X9.  Of several enclosed labels at the least distance from the centre the
    first in the selection set wins.  When the associator returns, and a label
    [l] is enclosed at a finite distance [d], every enclosed label before it
    is strictly farther and no enclosed label after it is strictly nearer,
    then the raw text returned is that of [l], and the clean text is its text
    without the paragraph breaks and the [\pxqc;] codes, or
    [No text found] when nothing is left of it. *)
Theorem first_nearest_label_wins (lib : pylib) (entity : Entity) (before after : selection)
    (l : Entity) (vertices : list float) (center : float * float)
    (raw : string) (d : float) (t u : pyval) :
  EntityName entity = "AcDbPolyline" ->
  Coordinates entity = Some vertices ->
  get_center vertices = Ok center ->
  get_text_inside_polyline lib entity (before ++ l :: after) = Ok (t, u) ->
  enclosed vertices l -> TextString l = Some raw -> distance_to lib center l d ->
  (d <? infinity)%float = true ->
  (forall l' d', In l' before -> enclosed vertices l' ->
                 distance_to lib center l' d' -> (d <? d')%float = true) ->
  (forall l' d', In l' after -> enclosed vertices l' ->
                 distance_to lib center l' d' -> (d' <? d)%float = false) ->
  u = VStr raw
  /\ t = VStr (if (clean raw =? "")%string then "No text found"
               else remove_all "\pxqc;" (clean raw)).
Proof.
  intros Hname Hcoords Hcenter H Henc Hraw Hd Hfinite Hbefore Hafter.
  unfold get_text_inside_polyline in H. rewrite Hname, Hcoords in H. simpl in H.
  rewrite Hcenter in H. cbn [rbind] in H.
  apply rbind_ok in H. destruct H as (st & Hloop & H).
  rewrite for_each_app in Hloop.
  apply rbind_ok in Hloop. destruct Hloop as (st1 & H1 & Hloop).
  simpl in Hloop. apply rbind_ok in Hloop. destruct Hloop as (st2 & H2 & H3).
  pose proof (label_loop_above lib vertices center d before
                (LabelState [] infinity "" "") st1 Hbefore Hfinite H1) as Habove.
  rewrite (label_step_enclosed _ _ _ st1 l raw d Henc Hraw Hd), Habove in H2.
  inversion H2; subst st2. clear H2.
  apply label_loop_stays in H3; [|exact Hafter]. destruct H3 as (_ & Hn & Hu).
  cbn [nearest_text nearest_text_unclean] in Hn, Hu.
  inversion H; subst t u. rewrite Hn, Hu. auto.
Qed.

(** Two labels at the same distance from the centre (5, 5) of lot A. *)
Lemma first_nearest_label_wins_witness :
  get_text_inside_polyline lib0 lotA ([] ++ text "a" 6 5 "east" :: [text "b" 4 5 "west"])
  = Ok (VStr "east", VStr "east")
  /\ VStr "east" = VStr "east"
  /\ VStr "east"
     = VStr (if (clean "east" =? "")%string then "No text found"
             else remove_all "\pxqc;" (clean "east")).
Proof.
  assert (Hrun : get_text_inside_polyline lib0 lotA
                   ([] ++ text "a" 6 5 "east" :: [text "b" 4 5 "west"])
                 = Ok (VStr "east", VStr "east")) by (vm_compute; reflexivity).
  split; [exact Hrun|].
  apply (first_nearest_label_wins lib0 lotA [] [text "b" 4 5 "west"]
           (text "a" 6 5 "east")
           [0;0; 10;0; 10;10; 0;10]%float (5, 5)%float "east" 1%float
           (VStr "east") (VStr "east")).
  - reflexivity.
  - reflexivity.
  - vm_compute. reflexivity.
  - exact Hrun.
  - split; [reflexivity|]. exists [6; 5; 0]%float. split; [reflexivity|].
    vm_compute. reflexivity.
  - reflexivity.
  - exists 6%float, 5%float, [0%float]. split; [reflexivity|].
    exists 1%float, 0%float. repeat split; vm_compute; reflexivity.
  - vm_compute. reflexivity.
  - intros l' d' [].
  - intros l' d' [<-|[]] _ (x & y & rest & Hip & dx & dy & Hx & Hy & Hd).
    inversion Hip; subst. vm_compute in Hx, Hy.
    inversion Hx; inversion Hy; subst. vm_compute in Hd. inversion Hd.
    vm_compute. reflexivity.
Defined.

(* ================================================================== *)
(** ** The vertex resolver and the entities it reads *)
(* ================================================================== *)

Lemma get_vertex_name_loop_filter (lib : pylib) (names names' : set string)
    (vertex : float * float) (tolerance : float) (rest : selection) :
  (forall q, In q rest -> set_mem string_dec (EntityName q) names = is_survey_point q) ->
  (forall q, In q rest -> is_survey_point q = true ->
             set_mem string_dec (EntityName q) names' = true) ->
  get_vertex_name_loop lib names rest vertex tolerance
  = get_vertex_name_loop lib names' (filter is_survey_point rest) vertex tolerance.
Proof.
  induction rest as [|q rest IH]; intros H1 H2; [reflexivity|].
  assert (IH' : get_vertex_name_loop lib names rest vertex tolerance
                = get_vertex_name_loop lib names' (filter is_survey_point rest)
                                       vertex tolerance).
  { apply IH; intros q' Hq'; [apply H1 | apply H2]; right; exact Hq'. }
  simpl. rewrite (H1 q (or_introl eq_refl)).
  destruct (is_survey_point q) eqn:S; [|exact IH'].
  simpl. rewrite (H2 q (or_introl eq_refl) S).
  destruct (getattr "Easting" (Easting q)); [|reflexivity]. cbn [rbind].
  destruct (getattr "Northing" (Northing q)); [|reflexivity]. cbn [rbind].
  destruct (is_point_close lib _ vertex tolerance) as [[|]|]; cbn [rbind];
    [reflexivity | exact IH' | reflexivity].
Qed.

(** The loop passes over the entities that are no survey point and over the
    survey points that are not within the tolerance. *)
Lemma get_vertex_name_loop_skip (lib : pylib) (names : set string)
    (vertex : float * float) (tolerance : float) (before rest : selection) :
  (forall q, In q before -> set_mem string_dec (EntityName q) names = true ->
             exists easting northing,
               Easting q = Some easting /\ Northing q = Some northing
               /\ is_point_close lib (easting, northing) vertex tolerance = Ok false) ->
  get_vertex_name_loop lib names (before ++ rest) vertex tolerance
  = get_vertex_name_loop lib names rest vertex tolerance.
Proof.
  induction before as [|q before IH]; intros H; [reflexivity|].
  assert (IH' : get_vertex_name_loop lib names (before ++ rest) vertex tolerance
                = get_vertex_name_loop lib names rest vertex tolerance).
  { apply IH. intros q' Hq'. apply H. right. exact Hq'. }
  simpl. destruct (set_mem string_dec (EntityName q) names) eqn:S; [|exact IH'].
  destruct (H q (or_introl eq_refl) S) as (e & n & -> & -> & Hclose).
  simpl. rewrite Hclose. exact IH'.
Qed.

(** X10.  The resolver reads the survey points only, and never the polygon it
    is called for: it gives the same result on the selection set and on the
    entities of it whose class name contains [cogopoint], in any case of the
    letters, and the same for any first argument. *)
Theorem get_vertex_name_survey_points_only (lib : pylib) (entity entity' : Entity)
    (selection_set : selection) (vertex : float * float) (tolerance : float) :
  get_vertex_name lib entity selection_set vertex tolerance
  = get_vertex_name lib entity' (filter is_survey_point selection_set) vertex tolerance.
Proof.
  unfold get_vertex_name.
  rewrite (get_vertex_name_loop_filter lib _
             (cogopoint_names_of
                (get_all_entity_names (filter is_survey_point selection_set)))).
  - reflexivity.
  - intros q Hq. apply cogopoint_names_mem. exact Hq.
  - intros q Hq S. rewrite cogopoint_names_mem; [exact S|].
    apply filter_In. split; assumption.
Qed.

(** X11.  The first survey point for which the test of line 109 does not
    return false decides the call.  After survey points that have both
    coordinates and for which the test returns false, a survey point [p]
    without [Easting] or [Northing] makes the resolver raise an
    [AttributeError], whether or not a later point matches; a point [p] for
    which the test raises (an [OverflowError] when a square of line 13
    overflows) makes the resolver raise the same; a point [p] within the
    tolerance gives the letter V with its number and its elevation, and raises
    an [AttributeError] when it lacks one of the two; nothing is printed in
    these cases.  A point [p] for which the test returns false leaves the call
    to the entities after it. *)
Theorem get_vertex_name_first_decides (lib : pylib) (entity : Entity)
    (before after : selection) (p : Entity) (vertex : float * float)
    (tolerance : float) :
  (forall q, In q before -> is_survey_point q = true ->
             exists easting northing,
               Easting q = Some easting /\ Northing q = Some northing
               /\ is_point_close lib (easting, northing) vertex tolerance = Ok false) ->
  is_survey_point p = true ->
  get_vertex_name lib entity (before ++ p :: after) vertex tolerance
  = match Easting p, Northing p with
    | None, _ => ([], Raise (AttributeError "Easting"))
    | Some _, None => ([], Raise (AttributeError "Northing"))
    | Some easting, Some northing =>
        match is_point_close lib (easting, northing) vertex tolerance with
        | Raise ex => ([], Raise ex)
        | Ok true =>
            match Number p, Elevation p with
            | None, _ => ([], Raise (AttributeError "Number"))
            | Some _, None => ([], Raise (AttributeError "Elevation"))
            | Some number, Some z => ([], Ok (("V" ++ str lib number)%string, Some z))
            end
        | Ok false => get_vertex_name lib entity after vertex tolerance
        end
    end.
Proof.
  intros Hbefore Hp.
  assert (Hmem : forall q, In q (before ++ p :: after) ->
            set_mem string_dec (EntityName q)
              (cogopoint_names_of (get_all_entity_names (before ++ p :: after)))
            = is_survey_point q)
    by (intros q Hq; apply cogopoint_names_mem; exact Hq).
  assert (Hskip : get_vertex_name_loop lib
                    (cogopoint_names_of (get_all_entity_names (before ++ p :: after)))
                    (before ++ p :: after) vertex tolerance
                  = get_vertex_name_loop lib
                      (cogopoint_names_of (get_all_entity_names (before ++ p :: after)))
                      (p :: after) vertex tolerance).
  { apply get_vertex_name_loop_skip. intros q Hq S. apply Hbefore; [exact Hq|].
    rewrite <- S. symmetry. apply Hmem. apply in_or_app. left. exact Hq. }
  unfold get_vertex_name at 1. rewrite Hskip. cbn [get_vertex_name_loop].
  rewrite Hmem by (apply in_or_app; right; left; reflexivity). rewrite Hp.
  destruct (Easting p) as [easting|]; [|reflexivity]. cbn [getattr rbind].
  destruct (Northing p) as [northing|]; [|reflexivity]. cbn [getattr rbind].
  destruct (is_point_close lib (easting, northing) vertex tolerance) as [[|]|ex];
    cbn [rbind].
  - destruct (Number p), (Elevation p); reflexivity.
  - unfold get_vertex_name.
    rewrite (get_vertex_name_loop_filter lib _
               (cogopoint_names_of (get_all_entity_names (filter is_survey_point after)))
               vertex tolerance after).
    + rewrite (get_vertex_name_loop_filter lib
                 (cogopoint_names_of (get_all_entity_names after))
                 (cogopoint_names_of (get_all_entity_names (filter is_survey_point after)))
                 vertex tolerance after).
      * reflexivity.
      * intros q Hq. apply cogopoint_names_mem. exact Hq.
      * intros q Hq S. rewrite cogopoint_names_mem; [exact S|].
        apply filter_In. split; assumption.
    + intros q Hq. apply Hmem. apply in_or_app. right. right. exact Hq.
    + intros q Hq S. rewrite cogopoint_names_mem; [exact S|].
      apply filter_In. split; assumption.
  - reflexivity.
Qed.

(** The second survey point of [scene] is the one at the vertex (10, 0). *)
Lemma get_vertex_name_first_decides_witness :
  get_vertex_name lib0 lotA ([lotA; cogo "P1" 0 0 7.5 (VInt 1)]
                             ++ cogo "P2" 10 0 7.5 (VInt 2) :: [labelA])
                  (10, 0)%float 0.001%float
  = ([], Ok ("V2", Some 7.5%float)).
Proof.
  rewrite (get_vertex_name_first_decides lib0 lotA [lotA; cogo "P1" 0 0 7.5 (VInt 1)]
             [labelA] (cogo "P2" 10 0 7.5 (VInt 2)) (10, 0)%float 0.001%float).
  - vm_compute. reflexivity.
  - intros q [<-|[<-|[]]] S; [discriminate S|].
    exists 0%float, 0%float. split; [reflexivity|]. split; [reflexivity|].
    vm_compute. reflexivity.
  - reflexivity.
Defined.

(* ================================================================== *)
(** ** What the normaliser returns, logs and raises *)
(* ================================================================== *)

Lemma combine_slices_nth {A} (l : list A) :
  forall (i : nat) (a b : A),
    nth_error l (2 * i) = Some a -> nth_error l (2 * i + 1) = Some b ->
    nth_error (combine (slice_even l) (slice_odd l)) i = Some (a, b).
Proof.
  induction l as [|a0|a0 b0 l IH] using list_ind2; intros i a b Ha Hb.
  - destruct i; discriminate.
  - destruct i as [|i]; [discriminate|].
    replace (2 * S i)%nat with (S (S (2 * i))) in Ha by lia.
    simpl in Ha. destruct (2 * i)%nat; discriminate.
  - change (slice_even (a0 :: b0 :: l)) with (a0 :: slice_even l).
    change (slice_odd (a0 :: b0 :: l)) with (b0 :: slice_odd l).
    destruct i as [|i].
    + simpl in *. congruence.
    + replace (2 * S i)%nat with (S (S (2 * i))) in Ha by lia.
      replace (2 * S i + 1)%nat with (S (S (2 * i + 1))) in Hb by lia.
      simpl in Ha, Hb. simpl. apply IH; assumption.
Qed.

(** X12.  The vertices of a polyline are the consecutive pairs of its
    coordinates, each rounded to three decimals.  For a coordinate list of
    even length the normaliser logs nothing and returns a ring of half that
    length whose vertex [i] is made of the coordinates [2i] and [2i + 1]; for
    a list of odd length it logs an [IndexError] and raises it. *)
Theorem extract_coordinates_pairs (lib : pylib) (entity : Entity) (raw : list float) :
  EntityName entity = "AcDbPolyline" ->
  Coordinates entity = Some raw ->
  (Nat.even (List.length raw) = true ->
   exists ring,
     extract_coordinates lib entity = ([], Ok (Some (InfoPolyline ring)))
     /\ (2 * List.length ring = List.length raw)%nat
     /\ forall i x y,
          nth_error raw (2 * i) = Some x -> nth_error raw (2 * i + 1) = Some y ->
          nth_error ring i = Some (py_round lib x 3, py_round lib y 3))
  /\ (Nat.even (List.length raw) = false ->
      extract_coordinates lib entity = ([LogError IndexError], Raise IndexError)).
Proof.
  intros Hname Hraw.
  pose proof (extract_coordinates_polyline lib entity raw Hname Hraw) as H.
  split; intros E; rewrite E in H; [|exact H].
  exists (stored_ring lib raw). split; [exact H|]. unfold stored_ring. split.
  - rewrite slice_lengths; rewrite length_map; [reflexivity | exact E].
  - intros i x y Hx Hy. apply combine_slices_nth.
    + rewrite nth_error_map, Hx. reflexivity.
    + rewrite nth_error_map, Hy. reflexivity.
Qed.

Lemma extract_coordinates_pairs_witness :
  (exists ring,
      extract_coordinates lib0 lotA = ([], Ok (Some (InfoPolyline ring)))
      /\ nth_error ring 1 = Some (10, 0)%float)
  /\ extract_coordinates lib0 broken = ([LogError IndexError], Raise IndexError).
Proof.
  destruct (extract_coordinates_pairs lib0 lotA [0;0; 10;0; 10;10; 0;10]%float
              eq_refl eq_refl) as [Heven _].
  destruct (extract_coordinates_pairs lib0 broken [0;0; 10;0; 10]%float
              eq_refl eq_refl) as [_ Hodd].
  split; [|exact (Hodd eq_refl)].
  destruct (Heven eq_refl) as (ring & Hrun & _ & Hnth).
  exists ring. split; [exact Hrun|].
  exact (Hnth 1%nat 10%float 0%float eq_refl eq_refl).
Defined.

Lemma extract_coordinates_cases (lib : pylib) (e : Entity) :
  match extract_coordinates lib e with
  | (w, Ok (Some info)) => w = [] /\ info_class info (EntityName e)
  | (w, Ok None) =>
      w = [LogWarning (EntityName e)] /\ is_supported (EntityName e) = false
  | (w, Raise ex) =>
      w = [LogError ex] /\ is_supported (EntityName e) = true
      /\ (ex = IndexError \/ exists attr, ex = AttributeError attr)
  end.
Proof.
  unfold extract_coordinates, extract_body, is_supported.
  destruct (String.eqb_spec (EntityName e) "AcDbPolyline") as [E1|E1].
  { destruct (Coordinates e) as [raw|]; simpl.
    - rewrite comprehension_pairs.
      destruct (Nat.even _); simpl; eauto.
    - eauto 6. }
  destruct (String.eqb_spec (EntityName e) "AeccDbCogoPoint") as [E2|E2].
  { destruct (Easting e); simpl; [|eauto 6].
    destruct (Northing e); simpl; [|eauto 6].
    destruct (Elevation e); simpl; [|eauto 6].
    destruct (RawDescription e); simpl; [|eauto 6].
    destruct (Number e); simpl; [|eauto 6]. auto. }
  destruct (String.eqb_spec (EntityName e) "AcDbText") as [E3|E3].
  { destruct (InsertionPoint e) as [ip|]; simpl; [|eauto 6].
    destruct (TextString e); simpl; [|eauto 6].
    split; [reflexivity|]. split; [auto|].
    destruct ip as [|x [|y r]]; simpl; lia. }
  destruct (String.eqb_spec (EntityName e) "AcDbMText") as [E4|E4].
  { destruct (InsertionPoint e) as [ip|]; simpl; [|eauto 6].
    destruct (TextString e); simpl; [|eauto 6].
    split; [reflexivity|]. split; [auto|].
    destruct ip as [|x [|y r]]; simpl; lia. }
  simpl. auto.
Qed.

(** X13.  The three outcomes of the normaliser.  When it returns a record it
    has logged nothing and the class of the entity is exactly the one of the
    record, a text record holding two coordinates at most.  It returns nothing
    exactly for a class it does not know, with one warning in the log.  When
    it raises, the class is one it knows, the exception is an [IndexError] or
    an [AttributeError], and the log holds that exception once. *)
Theorem extract_coordinates_outcomes (lib : pylib) (e : Entity) :
  (forall w info,
      extract_coordinates lib e = (w, Ok (Some info)) ->
      w = [] /\ info_class info (EntityName e))
  /\ (forall w,
        extract_coordinates lib e = (w, Ok None) ->
        w = [LogWarning (EntityName e)] /\ is_supported (EntityName e) = false)
  /\ (forall w ex,
        extract_coordinates lib e = (w, Raise ex) ->
        w = [LogError ex] /\ is_supported (EntityName e) = true
        /\ (ex = IndexError \/ exists attr, ex = AttributeError attr))
  /\ (is_supported (EntityName e) = false ->
      extract_coordinates lib e = ([LogWarning (EntityName e)], Ok None)).
Proof.
  pose proof (extract_coordinates_cases lib e) as H.
  split; [|split; [|split]].
  - intros w info E. rewrite E in H. exact H.
  - intros w E. rewrite E in H. exact H.
  - intros w ex E. rewrite E in H. exact H.
  - apply extract_coordinates_unsupported.
Qed.

(* ================================================================== *)
(** ** Where the search for a neighbour stops *)
(* ================================================================== *)

Lemma find_adjacent_at_candidate (lib : pylib) (entity : Entity) (c : Entity)
    (current_vertex next_vertex : float * float) :
  candidate lib entity current_vertex next_vertex c ->
  exists w, forall after,
    find_adjacent lib entity (c :: after) current_vertex next_vertex = (w, Ok (Some c)).
Proof.
  intros [Hh (w & vs & He & H1 & H2)]. exists w. intros after.
  apply has_vertex_spec in H1, H2. simpl.
  destruct (String.eqb_spec (Handle c) (Handle entity)) as [E|_]; [contradiction|].
  rewrite He. simpl. rewrite H1, H2. simpl. rewrite app_nil_r. reflexivity.
Qed.

Lemma find_adjacent_cons (lib : pylib) (entity : Entity) (q : Entity)
    (rest rest' : selection) (current_vertex next_vertex : float * float) :
  find_adjacent lib entity rest current_vertex next_vertex
  = find_adjacent lib entity rest' current_vertex next_vertex ->
  find_adjacent lib entity (q :: rest) current_vertex next_vertex
  = find_adjacent lib entity (q :: rest') current_vertex next_vertex.
Proof.
  intros H. simpl. rewrite H. reflexivity.
Qed.

Lemma find_adjacent_app (lib : pylib) (entity : Entity) (l1 l2 : selection)
    (current_vertex next_vertex : float * float) :
  find_adjacent lib entity (l1 ++ l2) current_vertex next_vertex
  = (found <- find_adjacent lib entity l1 current_vertex next_vertex ;;
     match found with
     | Some other => ret (Some other)
     | None => find_adjacent lib entity l2 current_vertex next_vertex
     end).
Proof.
  induction l1 as [|q l1 IH].
  - simpl. destruct (find_adjacent lib entity l2 current_vertex next_vertex).
    reflexivity.
  - simpl. destruct (Handle q =? Handle entity)%string; [exact IH|].
    rewrite bind_assoc. apply bind_ext. intros info.
    destruct info as [[vs| |]|]; try exact IH.
    destruct (has_vertex vs current_vertex && has_vertex vs next_vertex);
      [reflexivity | exact IH].
Qed.

(** X14.  The search for a neighbour stops at the first candidate: the
    entities after it are not normalised, so that they add nothing to the log
    and cannot raise, and the result is the same as if the selection set ended
    there.  An entity with the handle of the polygon is passed over without
    being normalised.  The search over two parts of a selection set is the
    search over the first and, when that finds nothing, the search over the
    second.  After the parcel found for the edge from (0, 0) to (0, 10), the
    polyline [broken], whose normalisation raises, does no harm. *)
Theorem find_adjacent_stops_at_first (lib : pylib) :
  (forall entity before c after current_vertex next_vertex,
      candidate lib entity current_vertex next_vertex c ->
      find_adjacent lib entity (before ++ c :: after) current_vertex next_vertex
      = find_adjacent lib entity (before ++ [c]) current_vertex next_vertex)
  /\ (forall entity selection_set current_vertex next_vertex,
        find_adjacent lib entity selection_set current_vertex next_vertex
        = find_adjacent lib entity
            (filter (fun q => negb (Handle q =? Handle entity)%string) selection_set)
            current_vertex next_vertex)
  /\ (forall entity l1 l2 current_vertex next_vertex,
        find_adjacent lib entity (l1 ++ l2) current_vertex next_vertex
        = (found <- find_adjacent lib entity l1 current_vertex next_vertex ;;
           match found with
           | Some other => ret (Some other)
           | None => find_adjacent lib entity l2 current_vertex next_vertex
           end))
  /\ find_adjacent lib0 parcelP [parcelP; parcelR; parcelQ; broken]
                   (0, 0)%float (0, 10)%float
     = ([], Ok (Some parcelQ))
  /\ extract_coordinates lib0 broken = ([LogError IndexError], Raise IndexError).
Proof.
  split; [|split; [|split; [|split]]].
  - intros entity before c after cur nxt Hc.
    destruct (find_adjacent_at_candidate lib entity c cur nxt Hc) as (w & Hw).
    induction before as [|q before IH].
    + simpl app. rewrite (Hw after), (Hw []). reflexivity.
    + apply find_adjacent_cons. exact IH.
  - intros entity selection_set cur nxt.
    induction selection_set as [|q rest IH]; [reflexivity|].
    cbn [filter]. destruct (Handle q =? Handle entity)%string eqn:E.
    + simpl. rewrite E. exact IH.
    + cbn [negb]. apply find_adjacent_cons. exact IH.
  - intros. apply find_adjacent_app.
  - vm_compute. reflexivity.
  - vm_compute. reflexivity.
Qed.

(* ================================================================== *)
(** ** The documents of a run *)
(* ================================================================== *)

Lemma prints_no_document_notices {A} (m : M A) :
  notices_only m -> prints_no_document m.
Proof. intros H. apply notices_no_rows in H. apply H. Qed.

Lemma prints_no_document_bind {A B} (m : M A) (k : A -> M B) :
  prints_no_document m -> (forall a, prints_no_document (k a)) ->
  prints_no_document (bind m k).
Proof.
  unfold prints_no_document. destruct m as [w [a|e]]; simpl; intros Hm Hk; [|exact Hm].
  specialize (Hk a). destruct (k a) as [w' r]. simpl in *.
  rewrite documents_app, Hm, Hk. reflexivity.
Qed.

Lemma edge_step_no_document (lib : pylib) (entity : Entity) (selection_set : selection)
    (vertices : list (float * float)) (descriptions : list string) (i : nat) :
  prints_no_document (edge_step lib entity selection_set vertices descriptions i).
Proof.
  unfold edge_step.
  apply prints_no_document_bind; [reflexivity|]. intros current_vertex.
  apply prints_no_document_bind; [reflexivity|]. intros next_vertex.
  apply prints_no_document_bind;
    [apply prints_no_document_notices, get_vertex_name_notices|]. intros current.
  apply prints_no_document_bind;
    [apply prints_no_document_notices, get_vertex_name_notices|]. intros next.
  destruct (is_zero_length current_vertex next_vertex); [reflexivity|].
  apply prints_no_document_bind;
    [apply prints_no_document_notices, describe_edge_notices|]. intros ctx.
  apply prints_no_document_bind; [reflexivity|]. intros _. reflexivity.
Qed.

Lemma for_eachM_no_document {S A} (body : S -> A -> M S) (l : list A) :
  (forall s a, prints_no_document (body s a)) ->
  forall s, prints_no_document (for_eachM body l s).
Proof.
  intros H. induction l as [|a l IH]; intros s; [reflexivity|].
  simpl. apply prints_no_document_bind; [apply H | exact IH].
Qed.

Lemma extract_coordinates_not_polyline (lib : pylib) (e : Entity)
    (w : list event) (vs : list (float * float)) :
  is_polyline e = false ->
  extract_coordinates lib e <> (w, Ok (Some (InfoPolyline vs))).
Proof.
  unfold is_polyline, extract_coordinates, extract_body. intros ->.
  destruct (EntityName e =? "AeccDbCogoPoint")%string.
  { destruct (Easting e); simpl; [|discriminate].
    destruct (Northing e); simpl; [|discriminate].
    destruct (Elevation e); simpl; [|discriminate].
    destruct (RawDescription e); simpl; [|discriminate].
    destruct (Number e); simpl; discriminate. }
  destruct ((EntityName e =? "AcDbText")%string || (EntityName e =? "AcDbMText")%string).
  { destruct (InsertionPoint e); simpl; [|discriminate].
    destruct (TextString e); simpl; discriminate. }
  simpl. discriminate.
Qed.

(** The narrator prints one document when it returns for a polyline, and none
    otherwise. *)
Lemma generate_text_from_polyline_documents (lib : pylib) (entity : Entity)
    (selection_set : selection) (text_inside text_inside_unclean : pyval) :
  let run := generate_text_from_polyline lib entity selection_set
                                         text_inside text_inside_unclean in
  List.length (documents (fst run))
  = match snd run with
    | Ok _ => if is_polyline entity then 1%nat else 0%nat
    | Raise _ => 0%nat
    end.
Proof.
  unfold generate_text_from_polyline.
  pose proof (prints_no_document_notices _ (extract_coordinates_notices lib entity)) as N.
  pose proof (extract_coordinates_not_polyline lib entity) as P.
  unfold prints_no_document in N.
  destruct (extract_coordinates lib entity) as [w0 [info|ex]] eqn:E; simpl in N;
    [|simpl; rewrite N; reflexivity].
  destruct (is_polyline entity) eqn:Hpoly.
  - assert (Hname : EntityName entity = "AcDbPolyline")
      by (apply String.eqb_eq; exact Hpoly).
    destruct (Coordinates entity) as [raw|] eqn:Hraw.
    + rewrite (extract_coordinates_polyline lib entity raw Hname Hraw) in E.
      destruct (Nat.even (List.length raw)); [|discriminate].
      inversion E; subst w0 info. clear E.
      cbv zeta. cbn [bind app].
      destruct (Area entity); simpl; [|reflexivity].
      destruct (Length entity); simpl; [|reflexivity].
      destruct (extract_number "Lote nº " (is_digit lib) text_inside text_inside_unclean);
        simpl; [|reflexivity].
      destruct (extract_number "Quadra " (is_word lib) text_inside text_inside_unclean);
        simpl; [|reflexivity].
      pose proof (for_eachM_no_document
                    (edge_step lib entity selection_set (stored_ring lib raw))
                    (seq 0 (List.length (stored_ring lib raw)))
                    (edge_step_no_document lib entity selection_set (stored_ring lib raw))
                    []) as D.
      unfold prints_no_document in D. unfold narrate_edges.
      destruct (for_eachM _ _ _) as [w1 [descriptions|ex]]; simpl in *.
      * rewrite documents_app, D. reflexivity.
      * rewrite D. reflexivity.
    + unfold extract_coordinates, extract_body in E. rewrite Hname, Hraw in E.
      simpl in E. discriminate.
  - destruct info as [[vs| |]|]; simpl; rewrite ?app_nil_r; try (rewrite N; reflexivity).
    elim (P w0 vs eq_refl). reflexivity.
Qed.

Lemma main_loop_documents (lib : pylib) (selection_set : selection) (rest : selection) :
  let body := fun (_ : unit) entity =>
                if (EntityName entity =? "AcDbPolyline")%string then
                  texts <- lift (get_text_inside_polyline lib entity selection_set) ;;
                  generate_text_from_polyline lib entity selection_set
                                              (fst texts) (snd texts)
                else ret tt in
  let run := for_eachM body rest tt in
  (List.length (documents (fst run)) <= List.length (filter is_polyline rest))%nat
  /\ (forall u, snd run = Ok u ->
                List.length (documents (fst run)) = List.length (filter is_polyline rest)).
Proof.
  cbv zeta. induction rest as [|e rest [IH1 IH2]]; [simpl; auto|].
  cbn [for_eachM filter].
  change (is_polyline e) with (EntityName e =? "AcDbPolyline")%string.
  destruct (EntityName e =? "AcDbPolyline")%string eqn:Hpoly.
  - destruct (get_text_inside_polyline lib e selection_set) as [texts|ex]; cbn [lift bind app];
      [|simpl; split; [lia | discriminate]].
    pose proof (generate_text_from_polyline_documents lib e selection_set
                  (fst texts) (snd texts)) as G.
    cbv zeta in G. unfold is_polyline in G. rewrite Hpoly in G.
    destruct (generate_text_from_polyline lib e selection_set (fst texts) (snd texts))
      as [w1 [[]|ex]]; cbn [fst snd] in G.
    + cbn [bind]. destruct (for_eachM _ rest tt) as [w2 r2]. cbn [fst snd] in *.
      rewrite documents_app, length_app, G. simpl List.length. split; [lia|].
      intros u Hu. rewrite (IH2 u Hu). reflexivity.
    + cbn [bind fst snd]. rewrite G. split; [lia | discriminate].
  - cbn [ret bind]. destruct (for_eachM _ rest tt) as [w2 r2]. cbn [fst snd app] in *.
    split; assumption.
Qed.

(** X15.  The script prints one document for every polyline of the selection
    set, and for nothing else: a run that returns has printed as many
    documents as the selection set has polylines, a run that raises has
    printed fewer or as many, and on a selection set without polyline the
    script returns without any output, warnings of the log included. *)
Theorem one_document_per_polyline (lib : pylib) (selection_set : selection) :
  (List.length (documents (fst (main lib selection_set)))
   <= List.length (filter is_polyline selection_set))%nat
  /\ (forall w, main lib selection_set = (w, Ok tt) ->
                List.length (documents w)
                = List.length (filter is_polyline selection_set))
  /\ (filter is_polyline selection_set = [] -> main lib selection_set = ([], Ok tt)).
Proof.
  destruct (main_loop_documents lib selection_set selection_set) as [H1 H2].
  split; [exact H1|]. split.
  - intros w Hw. unfold main in Hw. cbv zeta in H2. rewrite Hw in H2.
    apply (H2 tt). reflexivity.
  - clear H1 H2. unfold main.
    assert (G : forall full rest,
               filter is_polyline rest = [] ->
               for_eachM
                 (fun (_ : unit) entity =>
                    if (EntityName entity =? "AcDbPolyline")%string then
                      texts <- lift (get_text_inside_polyline lib entity full) ;;
                      generate_text_from_polyline lib entity full (fst texts) (snd texts)
                    else ret tt)
                 rest tt = ([], Ok tt)).
    { intros full rest. induction rest as [|e rest IH]; intros Hnone; [reflexivity|].
      cbn [filter] in Hnone.
      change (is_polyline e) with (EntityName e =? "AcDbPolyline")%string in Hnone.
      cbn [for_eachM].
      destruct (EntityName e =? "AcDbPolyline")%string; [discriminate|].
      cbn [ret bind]. rewrite (IH Hnone). reflexivity. }
    apply G.
Qed.

(* ================================================================== *)
(** ** The lot number of the header *)
(* ================================================================== *)

Lemma prefix_drop (marker : string) :
  forall s, String.prefix marker s = true ->
            s = (marker ++ drop (String.length marker) s)%string.
Proof.
  induction marker as [|a marker IH]; intros s H.
  - destruct s; reflexivity.
  - destruct s as [|b s]; [discriminate|]. simpl in H.
    destruct (ascii_dec a b) as [<-|]; [|discriminate].
    simpl. f_equal. apply IH. exact H.
Qed.

Lemma prefix_app (marker rest : string) :
  String.prefix marker (marker ++ rest) = true
  /\ drop (String.length marker) (marker ++ rest) = rest.
Proof.
  induction marker as [|a marker [IH1 IH2]]; simpl.
  - split; destruct rest; reflexivity.
  - destruct (ascii_dec a a) as [_|N]; [|elim N; reflexivity]. auto.
Qed.

Lemma re_search_group_eq (marker : string) (c : string -> bool) (s : string) :
  re_search_group marker c s
  = match (if String.prefix marker s
           then match take_while c 0 (drop (String.length marker) s) with
                | EmptyString => None
                | g => Some g
                end
           else None) with
    | Some g => Some g
    | None => match s with
              | EmptyString => None
              | String _ r => re_search_group marker c r
              end
    end.
Proof. destruct s; reflexivity. Qed.

Lemma re_search_group_none (marker : string) (c : string -> bool) (s : string) :
  re_search_group marker c s = None ->
  forall pre rest, s = (pre ++ marker ++ rest)%string -> take_while c 0 rest = "".
Proof.
  induction s as [|a s IH]; intros H pre rest Hs; rewrite re_search_group_eq in H.
  - destruct pre; [|discriminate]. simpl in Hs.
    destruct (prefix_app marker rest) as [P D]. rewrite <- Hs in P, D.
    rewrite P, D in H. destruct (take_while c 0 rest); [reflexivity | discriminate].
  - destruct pre as [|b pre].
    + simpl in Hs. destruct (prefix_app marker rest) as [P D]. rewrite <- Hs in P, D.
      rewrite P, D in H. destruct (take_while c 0 rest); [reflexivity | discriminate].
    + simpl in Hs. inversion Hs; subst b.
      apply (IH) with (pre := pre); [|assumption].
      destruct (if String.prefix marker (String a s) then _ else _);
        [discriminate | exact H].
Qed.

Lemma re_search_group_some (marker : string) (c : string -> bool) (s g : string) :
  re_search_group marker c s = Some g ->
  exists pre rest,
    s = (pre ++ marker ++ rest)%string
    /\ take_while c 0 rest = g /\ g <> ""
    /\ forall pre' rest',
         s = (pre' ++ marker ++ rest')%string ->
         (String.length pre' < String.length pre)%nat ->
         take_while c 0 rest' = "".
Proof.
  induction s as [|a s IH]; intros H; rewrite re_search_group_eq in H.
  - destruct (String.prefix marker "") eqn:P; [|discriminate].
    destruct (take_while c 0 (drop (String.length marker) "")) eqn:T; [discriminate|].
    exists "", (drop (String.length marker) ""). simpl.
    split; [apply prefix_drop; exact P|]. split; [congruence|].
    split; [inversion H; discriminate|]. intros ? ? _ L. inversion L.
  - destruct (String.prefix marker (String a s)) eqn:P.
    + destruct (take_while c 0 (drop (String.length marker) (String a s))) eqn:T.
      * destruct (IH H) as (pre & rest & -> & Hg & Hne & Hfirst).
        exists (String a pre), rest. split; [reflexivity|]. split; [exact Hg|].
        split; [exact Hne|]. intros pre' rest' Hs L.
        destruct pre' as [|b pre'].
        -- simpl in Hs. destruct (prefix_app marker rest') as [_ D].
           rewrite <- Hs in D. rewrite <- D. exact T.
        -- simpl in Hs. inversion Hs. apply (Hfirst pre' rest'); [assumption|].
           simpl in L. lia.
      * exists "", (drop (String.length marker) (String a s)). simpl.
        split; [apply prefix_drop; exact P|]. split; [congruence|].
        split; [inversion H; discriminate|]. intros ? ? _ L. inversion L.
    + destruct (IH H) as (pre & rest & -> & Hg & Hne & Hfirst).
      exists (String a pre), rest. split; [reflexivity|]. split; [exact Hg|].
      split; [exact Hne|]. intros pre' rest' Hs L.
      destruct pre' as [|b pre'].
      * simpl in Hs. destruct (prefix_app marker rest') as [P' _].
        rewrite <- Hs in P'. congruence.
      * simpl in Hs. inversion Hs. apply (Hfirst pre' rest'); [assumption|].
        simpl in L. lia.
Qed.

(** X16.  The lot number and the block number of a label.  The number is
    looked for in the raw text of the label: it is the longest run of
    characters of the class ([\d] for the lot, [\w] for the block; a character
    is one UTF-8 sequence) after the first occurrence of the marker that is
    followed by such a character.  When the marker occurs nowhere with such a
    character after it, the clean text of the label is used instead.  The
    search itself never raises on a text.  The classes are those of Unicode:
    the block of the label "Lote nº 7 Quadra Água" is "Água", and a full-width
    digit is a digit; on ASCII they are the digits, and the letters, digits
    and underscore, whatever the Unicode database says elsewhere. *)
Theorem extract_number_first_run :
  (forall marker class text_inside raw,
      exists v,
        extract_number marker class text_inside (VStr raw) = Ok v
        /\ ((v = text_inside
             /\ forall pre rest, raw = (pre ++ marker ++ rest)%string ->
                                 take_while class 0 rest = "")
            \/ exists pre rest,
                 raw = (pre ++ marker ++ rest)%string
                 /\ v = VStr (take_while class 0 rest)
                 /\ take_while class 0 rest <> ""
                 /\ forall pre' rest',
                      raw = (pre' ++ marker ++ rest')%string ->
                      (String.length pre' < String.length pre)%nat ->
                      take_while class 0 rest' = ""))
  /\ (forall lib text_inside,
        extract_number "Lote nº " (is_digit lib) text_inside (VStr "Lote nº 12A, Quadra B_7.")
        = Ok (VStr "12")
        /\ extract_number "Quadra " (is_word lib) text_inside
                          (VStr "Lote nº 12A, Quadra B_7.")
           = Ok (VStr "B_7")
        /\ extract_number "Lote nº " (is_digit lib) text_inside (VStr "Lote nº A")
           = Ok text_inside)
  /\ (forall text_inside,
        extract_number "Quadra " (is_word lib0) text_inside (VStr "Lote nº 7 Quadra Água")
        = Ok (VStr "Água")
        /\ extract_number "Lote nº " (is_digit lib0) text_inside (VStr "Lote nº ７")
           = Ok (VStr "７")).
Proof.
  split; [|split].
  - intros marker class text_inside raw. unfold extract_number.
    destruct (re_search_group marker class raw) as [g|] eqn:H.
    + exists (VStr g). split; [reflexivity|]. right.
      destruct (re_search_group_some _ _ _ _ H) as (pre & rest & Hs & Hg & Hne & Hfirst).
      exists pre, rest. rewrite Hg. auto.
    + exists text_inside. split; [reflexivity|]. left. split; [reflexivity|].
      apply re_search_group_none. exact H.
  - intros lib text_inside. repeat split; reflexivity.
  - intros text_inside. split; vm_compute; reflexivity.
Qed.

(* ================================================================== *)
(** ** The slots of the edge templates *)
(* ================================================================== *)

Ltac all_defined :=
  repeat (apply Forall_cons;
          [simpl; first [exact I | discriminate
                        | do 2 eexists; split; reflexivity]|]);
  apply Forall_nil.

(** X17.  Every slot of the three edge templates names a keyword argument of
    the rendering, and every indexed slot an item of a vertex: no slot of a
    sentence or of a table row is left empty for being undefined.  The
    continuation sentence has no slot for the vertex the edge starts at, the
    opening sentence has all the slots of the continuation sentence, and the
    table row has none for the neighbour. *)
Theorem edge_templates_defined
    (current_vertex_name : string) (current_vertex : float * float)
    (current_vertex_elevation : option float) (adjacent_text : pyval)
    (degrees minutes : Z) (seconds_str : string) (distance : float)
    (next_vertex_name : string) (next_vertex : float * float)
    (next_vertex_elevation : option float) :
  let ctx := edge_context current_vertex_name current_vertex current_vertex_elevation
                          adjacent_text degrees minutes seconds_str distance
                          next_vertex_name next_vertex next_vertex_elevation in
  Forall (defined_in ctx) template_initial
  /\ Forall (defined_in ctx) template_other
  /\ Forall (defined_in ctx) template_table
  /\ (forall name, In name (slots template_other) ->
                   In name (slots template_initial)
                   /\ name <> "current_vertex_name" /\ name <> "current_vertex"
                   /\ name <> "current_vertex_elevation")
  /\ ~ In "adjacent_text" (slots template_table).
Proof.
  cbv zeta. unfold template_initial, template_other, template_table, edge_context.
  split; [|split; [|split; [|split]]].
  - all_defined.
  - all_defined.
  - all_defined.
  - intros name H. simpl in H.
    repeat (destruct H as [<-|H];
            [split; [simpl; tauto | repeat split; discriminate]|]).
    contradiction.
  - simpl. intros H.
    repeat (destruct H as [H|H]; [discriminate H|]). exact H.
Qed.

(* ================================================================== *)
(** ** The perimeter *)
(* ================================================================== *)

Lemma find_adjacent_with_length (lib : pylib) (entity : Entity) (len : option float)
    (rest : selection) (current_vertex next_vertex : float * float) :
  find_adjacent lib (with_length entity len) rest current_vertex next_vertex
  = find_adjacent lib entity rest current_vertex next_vertex.
Proof.
  induction rest as [|q rest IH]; [reflexivity|].
  simpl. change (Handle (with_length entity len)) with (Handle entity).
  rewrite IH. reflexivity.
Qed.

Lemma describe_edge_with_length (lib : pylib) (entity : Entity) (len : option float)
    (selection_set : selection) (c n : float * float) (cn : string)
    (ce : option float) (nn : string) (ne : option float) :
  describe_edge lib (with_length entity len) selection_set c n cn ce nn ne
  = describe_edge lib entity selection_set c n cn ce nn ne.
Proof.
  unfold describe_edge. apply bind_ext. intros distance.
  apply bind_ext. intros degrees. apply bind_ext. intros minutes.
  rewrite find_adjacent_with_length. reflexivity.
Qed.

Lemma edge_step_with_length (lib : pylib) (entity : Entity) (len : option float)
    (selection_set : selection) (vertices : list (float * float))
    (descriptions : list string) (i : nat) :
  edge_step lib (with_length entity len) selection_set vertices descriptions i
  = edge_step lib entity selection_set vertices descriptions i.
Proof.
  unfold edge_step.
  apply bind_ext. intros current_vertex. apply bind_ext. intros next_vertex.
  change (get_vertex_name lib (with_length entity len))
    with (get_vertex_name lib entity).
  apply bind_ext. intros current. apply bind_ext. intros next.
  rewrite describe_edge_with_length. reflexivity.
Qed.

Lemma narrate_edges_with_length (lib : pylib) (entity : Entity) (len : option float)
    (selection_set : selection) (vertices : list (float * float)) :
  narrate_edges lib (with_length entity len) selection_set vertices
  = narrate_edges lib entity selection_set vertices.
Proof.
  unfold narrate_edges. apply for_eachM_ext. intros s a.
  apply edge_step_with_length.
Qed.

(** X18.  The perimeter is read and rounded, and then never used: whatever the
    length of the polyline, the narrator prints, logs and returns the same.
    The attribute has to be there all the same: without it the narrator of a
    polyline with an area raises an [AttributeError] before it prints
    anything, as for lot A. *)
Theorem perimeter_never_printed (lib : pylib) :
  (forall entity selection_set text_inside text_inside_unclean len len',
      Length entity = Some len ->
      generate_text_from_polyline lib (with_length entity (Some len')) selection_set
                                  text_inside text_inside_unclean
      = generate_text_from_polyline lib entity selection_set
                                    text_inside text_inside_unclean)
  /\ (forall entity selection_set text_inside text_inside_unclean raw area,
        EntityName entity = "AcDbPolyline" ->
        Coordinates entity = Some raw -> Nat.even (List.length raw) = true ->
        Area entity = Some area -> Length entity = None ->
        generate_text_from_polyline lib entity selection_set
                                    text_inside text_inside_unclean
        = ([], Raise (AttributeError "Length")))
  /\ generate_text_from_polyline lib0 (with_length lotA None) scene textA textA
     = ([], Raise (AttributeError "Length")).
Proof.
  split; [|split].
  - intros entity selection_set text_inside text_inside_unclean len len' Hlen.
    unfold generate_text_from_polyline.
    change (extract_coordinates lib (with_length entity (Some len')))
      with (extract_coordinates lib entity).
    destruct (extract_coordinates lib entity) as [w [[[vs| |]|]|ex]]; try reflexivity.
    change (Area (with_length entity (Some len'))) with (Area entity).
    change (Length (with_length entity (Some len'))) with (Some len').
    rewrite Hlen. apply bind_ext. intros info.
    destruct info as [[vertices| |]|]; try reflexivity.
    apply bind_ext. intros raw_area. apply bind_ignore.
    apply bind_ext. intros lot_number. apply bind_ext. intros quad_number.
    rewrite narrate_edges_with_length. reflexivity.
  - intros entity selection_set text_inside text_inside_unclean raw area
           Hname Hraw Heven Harea Hlen.
    unfold generate_text_from_polyline.
    rewrite (extract_coordinates_polyline lib entity raw Hname Hraw), Heven.
    rewrite Harea, Hlen. reflexivity.
  - vm_compute. reflexivity.
Qed.

(* ================================================================== *)
(** ** An entity that cannot be normalised, met by the search *)
(* ================================================================== *)

(** X19.  An entity whose normalisation raises aborts the search for a
    neighbour when the search reaches it, whatever its class: when nothing
    before it is a candidate and its handle is not the polygon's, the search
    raises the exception of the normalisation, with the record of it at the
    end of the log. *)
Theorem find_adjacent_reaches_failure (lib : pylib) (entity : Entity)
    (before after : selection) (q : Entity)
    (current_vertex next_vertex : float * float)
    (w1 w2 : list event) (ex : exn) :
  find_adjacent lib entity before current_vertex next_vertex = (w1, Ok None) ->
  (Handle q =? Handle entity)%string = false ->
  extract_coordinates lib q = (w2, Raise ex) ->
  find_adjacent lib entity (before ++ q :: after) current_vertex next_vertex
  = ((w1 ++ w2)%list, Raise ex).
Proof.
  intros H1 Hh H2.
  rewrite find_adjacent_app, H1. simpl. rewrite Hh, H2. reflexivity.
Qed.

(** A text without [TextString] after the parcel that is no neighbour. *)
Lemma find_adjacent_reaches_failure_witness :
  find_adjacent lib0 parcelP
    ([parcelP; parcelR]
     ++ MkEntity "AcDbText" "T" None None None None None None None None
                 (Some [0; 0; 0]%float) None :: [parcelQ])
    (0, 0)%float (0, 10)%float
  = (([] ++ [LogError (AttributeError "TextString")])%list,
     Raise (AttributeError "TextString")).
Proof.
  apply (find_adjacent_reaches_failure lib0 parcelP [parcelP; parcelR] [parcelQ]
           (MkEntity "AcDbText" "T" None None None None None None None None
                     (Some [0; 0; 0]%float) None)
           (0, 0)%float (0, 10)%float [] [LogError (AttributeError "TextString")]
           (AttributeError "TextString")).
  - vm_compute. reflexivity.
  - reflexivity.
  - vm_compute. reflexivity.
Defined.

(* ================================================================== *)
(** ** The notices of a drawing without survey points *)
(* ================================================================== *)

Lemma logs_only_bind {A B} (m : M A) (k : A -> M B) :
  logs_only m -> (forall a, logs_only (k a)) -> logs_only (bind m k).
Proof.
  unfold logs_only. destruct m as [w [a|e]]; simpl; intros Hm Hk; [|exact Hm].
  specialize (Hk a). destruct (k a) as [w' r]. simpl in *.
  apply Forall_app. auto.
Qed.

Lemma logs_only_silent {A} (r : result A) : logs_only (lift r).
Proof. constructor. Qed.

Lemma extract_coordinates_logs (lib : pylib) (e : Entity) :
  logs_only (extract_coordinates lib e).
Proof.
  pose proof (extract_coordinates_cases lib e) as H. unfold logs_only.
  destruct (extract_coordinates lib e) as [w [[info|]|ex]]; simpl.
  - destruct H as [-> _]. constructor.
  - destruct H as [-> _]. repeat constructor.
  - destruct H as [-> _]. repeat constructor.
Qed.

Lemma find_adjacent_logs (lib : pylib) (entity : Entity) (rest : selection)
    (current_vertex next_vertex : float * float) :
  logs_only (find_adjacent lib entity rest current_vertex next_vertex).
Proof.
  induction rest as [|other rest IH]; simpl; [constructor|].
  destruct (Handle other =? Handle entity)%string; [exact IH|].
  apply logs_only_bind; [apply extract_coordinates_logs|].
  intros [[vs| |]|]; try exact IH.
  destruct (has_vertex vs current_vertex && has_vertex vs next_vertex);
    [constructor | exact IH].
Qed.

Lemma describe_edge_logs (lib : pylib) (entity : Entity) (selection_set : selection)
    (c n : float * float) (cn : string) (ce : option float) (nn : string)
    (ne : option float) :
  logs_only (describe_edge lib entity selection_set c n cn ce nn ne).
Proof.
  unfold describe_edge.
  apply logs_only_bind; [apply logs_only_silent|]. intros distance.
  apply logs_only_bind; [apply logs_only_silent|]. intros degrees.
  apply logs_only_bind; [apply logs_only_silent|]. intros minutes.
  apply logs_only_bind; [apply find_adjacent_logs|]. intros adjacent.
  apply logs_only_bind; [|intros ?; constructor].
  destruct adjacent; [|constructor].
  apply logs_only_bind; [apply logs_only_silent|].
  intros ?. constructor.
Qed.

Lemma logs_no_notices (w : list event) :
  Forall is_log w -> no_match_notices w = [].
Proof.
  induction 1 as [|ev w Hev _ IH]; [reflexivity|].
  destruct ev; simpl in *; try contradiction; exact IH.
Qed.

Lemma no_match_notices_app (w1 w2 : list event) :
  no_match_notices (w1 ++ w2) = (no_match_notices w1 ++ no_match_notices w2)%list.
Proof. apply flat_map_app. Qed.

Lemma get_vertex_name_no_survey_point (lib : pylib) (entity : Entity)
    (selection_set : selection) (vertex : float * float) (tolerance : float) :
  (forall q, In q selection_set -> is_survey_point q = false) ->
  get_vertex_name lib entity selection_set vertex tolerance
  = ([PrintNoMatch (no_match_notice lib vertex)], Ok ("Vertex not found", None)).
Proof.
  intros H. apply get_vertex_name_miss. intros q Hq C.
  specialize (H q Hq). unfold is_survey_point in H. congruence.
Qed.

Lemma edge_step_notices (lib : pylib) (entity : Entity) (selection_set : selection)
    (vertices : list (float * float)) (descriptions descriptions' : list string)
    (i : nat) (w : list event) (d0 : float * float) :
  (forall q, In q selection_set -> is_survey_point q = false) ->
  edge_step lib entity selection_set vertices descriptions i = (w, Ok descriptions') ->
  no_match_notices w
  = [no_match_notice lib (nth i vertices d0);
     no_match_notice lib (nth ((i + 1) mod List.length vertices) vertices d0)].
Proof.
  intros Hnone H. unfold edge_step in H.
  apply bind_ok in H. destruct H as (w1 & current_vertex & w1' & Hc & H & ->).
  apply lift_ok in Hc. destruct Hc as [Hc ->]. apply index_ok in Hc.
  apply bind_ok in H. destruct H as (w2 & next_vertex & w2' & Hn & H & ->).
  apply lift_ok in Hn. destruct Hn as [Hn ->]. apply index_ok in Hn.
  rewrite !(get_vertex_name_no_survey_point lib entity selection_set _ _ Hnone) in H.
  rewrite (nth_error_nth _ _ d0 Hc), (nth_error_nth _ _ d0 Hn).
  apply bind_ok in H. destruct H as (w3 & current & w3' & Hgc & H & ->).
  inversion Hgc; subst w3 current. clear Hgc.
  apply bind_ok in H. destruct H as (w4 & next & w4' & Hgn & H & ->).
  inversion Hgn; subst w4 next. clear Hgn.
  destruct (is_zero_length current_vertex next_vertex).
  - unfold ret in H. inversion H; subst. reflexivity.
  - apply bind_ok in H. destruct H as (w5 & ctx & w5' & Hd & H & ->).
    pose proof (describe_edge_logs lib entity selection_set current_vertex next_vertex
                  "Vertex not found" None "Vertex not found" None) as L.
    unfold logs_only in L. cbn [fst snd] in Hd. rewrite Hd in L. simpl in L.
    apply logs_no_notices in L.
    simpl in H. inversion H; subst.
    simpl. rewrite no_match_notices_app, L. reflexivity.
Qed.

Lemma edge_loop_notices (lib : pylib) (entity : Entity) (selection_set : selection)
    (vertices : list (float * float)) (d0 : float * float) (indices : list nat) :
  (forall q, In q selection_set -> is_survey_point q = false) ->
  forall (descriptions descriptions' : list string) (w : list event),
    for_eachM (edge_step lib entity selection_set vertices) indices descriptions
    = (w, Ok descriptions') ->
    no_match_notices w
    = flat_map (fun i => [no_match_notice lib (nth i vertices d0);
                          no_match_notice lib
                            (nth ((i + 1) mod List.length vertices) vertices d0)])
               indices.
Proof.
  intros Hnone. induction indices as [|i indices IH]; intros descriptions descriptions' w H.
  - simpl in H. inversion H; subst. reflexivity.
  - simpl in H. apply bind_ok in H. destruct H as (w1 & d1 & w2 & Hstep & Hrest & ->).
    rewrite no_match_notices_app, (IH _ _ _ Hrest),
      (edge_step_notices _ _ _ _ _ _ _ _ d0 Hnone Hstep).
    reflexivity.
Qed.

(** X20.  Every vertex is resolved twice, once as the start of an edge and
    once as the end of the edge before, and the zero-length edges are resolved
    like the others.  On a selection set without survey point a run of the loop
    over the edges that returns has printed, for every edge in order, the
    notice of its start and the notice of its end: twice as many notices as
    the ring has vertices. *)
Theorem every_vertex_resolved_twice (lib : pylib) (entity : Entity)
    (selection_set : selection) (vertices : list (float * float))
    (w : list event) (descriptions : list string) (d0 : float * float) :
  (forall q, In q selection_set -> is_survey_point q = false) ->
  narrate_edges lib entity selection_set vertices = (w, Ok descriptions) ->
  no_match_notices w
  = flat_map (fun i => [no_match_notice lib (nth i vertices d0);
                        no_match_notice lib
                          (nth ((i + 1) mod List.length vertices) vertices d0)])
             (seq 0 (List.length vertices))
  /\ List.length (no_match_notices w) = (2 * List.length vertices)%nat.
Proof.
  intros Hnone H. unfold narrate_edges in H.
  pose proof (edge_loop_notices lib entity selection_set vertices d0 _ Hnone _ _ _ H) as E.
  split; [exact E|]. rewrite E.
  assert (G : forall indices : list nat,
             List.length
               (flat_map (fun i => [no_match_notice lib (nth i vertices d0);
                                    no_match_notice lib
                                      (nth ((i + 1) mod List.length vertices)
                                           vertices d0)]) indices)
             = (2 * List.length indices)%nat).
  { induction indices as [|i indices IH]; [reflexivity|]. simpl in *. lia. }
  rewrite G, length_seq. reflexivity.
Qed.

(** Lot A alone: four vertices, eight notices. *)
Lemma every_vertex_resolved_twice_witness :
  exists w descriptions,
    narrate_edges lib0 lotA [lotA] ringA = (w, Ok descriptions)
    /\ List.length (no_match_notices w) = (2 * List.length ringA)%nat.
Proof.
  destruct (narrate_edges lib0 lotA [lotA] ringA) as [w [descriptions|ex]] eqn:H;
    [|vm_compute in H; discriminate H].
  exists w, descriptions. split; [reflexivity|].
  apply (every_vertex_resolved_twice lib0 lotA [lotA] ringA w descriptions (0, 0)%float).
  - intros q [<-|[]]. reflexivity.
  - exact H.
Defined.
